(** * SenseAI browser extension: scoring engine, result cache, offline queue
      and signal-collection coordinator

    A shallow embedding of

    - [src/background/simulation.ts]  (TRUSTED_DOMAINS, SUSPICIOUS_PATTERNS,
      COMMON_TRACKERS, calculateSignalScores, simulateAnalysis, enhanceSignals),
    - [src/lib/utils.ts]              (getVerdictFromScore, getScoreColor,
      generateId),
    - [src/types/index.ts]            (the signal, result and storage records),
    - [src/background/index.ts]       (getCachedResult, setCachedResult,
      getSettings, getOfflineQueue, addToOfflineQueue, removeFromOfflineQueue,
      updateStatus, the SIGNALS_COLLECTED handler, collectSignalsFromTab).

    Conventions of the embedding.

    - A JavaScript [number] is a rational ([Q]): every finite double is one;
      [NaN] and the infinities are not modelled.  Arithmetic is exact;
      [Math.round] and [Math.floor] return [Z].  The products by 1.2 and 0.6
      of an integer are never half-way between two integers, so rounding them
      is insensitive to the double rounding of the product; the statements
      below that bound scores hold whatever value the rounding produces,
      because they rest on the final [Math.min]/[Math.max].
    - An ISO-8601 timestamp produced by [toISOString] and read back by
      [new Date(..)] is the number of milliseconds it denotes ([Z]);
      [cacheExpiration] is a whole number of hours.  The clock reads times of
      the present era, which a [Date] holds as they are and ninety days
      later; the expiry of a cache entry, which adds the stored
      [cacheExpiration] to a reading, is checked against the range of [Date],
      outside of which [toISOString] throws.
    - [Date.now()], [Math.random()] and the success of each call to
      [chrome.storage.local] are read from oracles carried by the [World]; every
      read advances a cursor, so two reads of the clock are two values.
    - The [Map] of pending resolvers is a finite map ([gmap]).  A
      [Record<string, CachedAnalysis>] is the finite map of its own
      properties; reading [cached[domain]] also finds the members of
      [Object.prototype], and assigning to [cached['__proto__']] adds no
      property.
    - Each storage helper runs from its call to its return without another
      helper running in between; the callbacks of the signal collection, which
      do interleave, are separate [Event]s.
    - [toLowerCase] acts on the ASCII letters.

    The second half of the file adds [truncate], [isAnalyzableUrl] and
    [formatRelativeTime] of [src/lib/utils.ts], [simulateExplanation], the
    content script [src/content/index.ts] over a [Page] record of what it
    reads from the document, and the rest of the service worker
    ([analyzeSignals], [generateExplanationAsync], the message listener,
    [onInstalled]) over a [Worker] that adds the session store and the
    messages sent; of the popup, the storage part of [toggleDarkMode]. *)

From Stdlib Require Import ZArith QArith Qround Qminmax Lqa Lia.
From Stdlib Require Import String Ascii List Sorted.
From stdpp Require Import base option list gmap strings pretty.

Local Open Scope string_scope.
Local Open Scope Z_scope.

(** ** JavaScript primitives *)

(** [Math.round]: nearest integer, ties towards plus infinity. *)
Definition Math_round (x : Q) : Z := Qfloor (x + (1 # 2))%Q.

Definition Math_floor (x : Q) : Z := Qfloor x.

(** [a < b] on numbers. *)
Definition Qltb (a b : Q) : bool := negb (Qle_bool b a).

(** [Array.prototype.length] as a number. *)
Definition len {A} (l : list A) : Z := Z.of_nat (List.length l).

(** [arr.slice(0, e)] for an integer [e]: a negative end counts from the
    back, an end past the length is the whole array. *)
Definition slice0 {A} (l : list A) (e : Z) : list A :=
  if e <? 0 then firstn (Z.to_nat (len l + e)) l else firstn (Z.to_nat e) l.

(** [arr[i]] for an integer [i]: [undefined] out of range. *)
Definition index {A} (l : list A) (i : Z) : option A :=
  if i <? 0 then None else nth_error l (Z.to_nat i).

(** *** Strings *)

Definition startsWith (s p : string) : bool := String.prefix p s.

Fixpoint includes (s p : string) : bool :=
  String.prefix p s
  || match s with
     | EmptyString => false
     | String _ s' => includes s' p
     end.

Definition drop_chars (n : nat) (s : string) : string :=
  String.substring n (String.length s - n) s.

Definition endsWith (s suffix : string) : bool :=
  let n := String.length s in
  let m := String.length suffix in
  (m <=? n)%nat && String.eqb (String.substring (n - m) m s) suffix.

(** [s.replace(pat, rep)] with a string pattern: the first occurrence only. *)
Fixpoint replace (s pat rep : string) : string :=
  if String.prefix pat s then rep +:+ drop_chars (String.length pat) s
  else match s with
       | EmptyString => EmptyString
       | String c s' => String c (replace s' pat rep)
       end.

Definition lower_ascii (c : ascii) : ascii :=
  let n := nat_of_ascii c in
  if (65 <=? n)%nat && (n <=? 90)%nat then ascii_of_nat (n + 32) else c.

(** [toLowerCase] on the ASCII letters; other code units are kept. *)
Fixpoint toLowerCase (s : string) : string :=
  match s with
  | EmptyString => EmptyString
  | String c s' => String (lower_ascii c) (toLowerCase s')
  end.

(** Truthiness of an optional string: [undefined] and [""] are falsy. *)
Definition truthy_string (o : option string) : bool :=
  match o with
  | Some s => negb (String.eqb s "")
  | None => false
  end.

(** ** Shared types ([src/types/index.ts]) *)

Record CookieInfo := {
  ck_name : string;
  ck_domain : string;
  secure : bool;
  httpOnly : bool
}.

Record CookieSignal := {
  count : Q;
  thirdPartyCount : Q;
  cookie_list : list CookieInfo      (* field [cookies] *)
}.

Record TrackerSignal := {
  detected : list string;
  blocked : Q;
  scripts : list string
}.

Inductive Risk := low | medium | high.

Record FingerprintSignal := {
  techniques : list string;
  risk : Risk
}.

Record HeaderSignal := {
  present : list string;
  missing : list string;
  issues : list string
}.

Record SSLSignal := {
  valid : bool;
  issuer : option string;
  ssl_expiresAt : option Z;
  protocol : option string
}.

Record PageSignals := {
  url : string;
  domain : string;
  timestamp : Z;
  cookies : CookieSignal;
  trackers : TrackerSignal;
  fingerprinting : FingerprintSignal;
  headers : HeaderSignal;
  ssl : SSLSignal
}.

Inductive Verdict := safe | warning | danger.

Record SignalScores := {
  sc_cookies : Z;
  sc_trackers : Z;
  sc_fingerprinting : Z;
  sc_headers : Z;
  sc_ssl : Z
}.

Inductive ExplanationState := pending | generating | complete | failed.

Record ExplanationStatus := {
  ex_status : ExplanationState;
  ex_text : option string;
  ex_generatedAt : option Z;
  ex_error : option string
}.

Record AnalysisResult := {
  ar_id : string;
  ar_url : string;
  ar_domain : string;
  trustScore : Z;
  verdict : Verdict;
  signalScores : SignalScores;
  ar_signals : PageSignals;
  analyzedAt : Z;
  explanation : option ExplanationStatus
}.

Inductive ConnectionStatus := connected | disconnected | connecting | offline.

Record ExtensionStatus := {
  isAuthenticated : bool;
  connectionStatus : ConnectionStatus;
  pendingAnalyses : Z;
  offlineQueueSize : Z
}.

Record CachedAnalysis := {
  result : AnalysisResult;
  cachedAt : Z;
  expiresAt : Z
}.

Record OfflineQueueItem := {
  oq_id : string;
  oq_signals : PageSignals;
  queuedAt : Z;
  retryCount : Z
}.

Inductive DarkMode := dm_auto | dm_light | dm_dark.

Record ExtensionSettings := {
  autoAnalyze : bool;
  showNotifications : bool;
  cacheExpiration : Z;             (* hours *)
  darkMode : DarkMode;
  dashboardUrl : string
}.

Definition DEFAULT_SETTINGS : ExtensionSettings := {|
  autoAnalyze := false;
  showNotifications := true;
  cacheExpiration := 24;
  darkMode := dm_auto;
  dashboardUrl := "http://localhost:5173"
|}.

(** ** The scoring engine ([src/background/simulation.ts]) *)

Definition TRUSTED_DOMAINS : list string :=
  [ "google.com"; "www.google.com";
    "github.com"; "www.github.com";
    "stackoverflow.com"; "www.stackoverflow.com";
    "amazon.com"; "www.amazon.com";
    "microsoft.com"; "www.microsoft.com";
    "apple.com"; "www.apple.com";
    "facebook.com"; "www.facebook.com";
    "twitter.com"; "www.twitter.com"; "x.com";
    "linkedin.com"; "www.linkedin.com";
    "youtube.com"; "www.youtube.com";
    "netflix.com"; "www.netflix.com";
    "reddit.com"; "www.reddit.com";
    "wikipedia.org"; "en.wikipedia.org";
    "medium.com"; "www.medium.com";
    "vercel.app"; "vercel.com";
    "netlify.app"; "netlify.com";
    "cloudflare.com"; "www.cloudflare.com" ].

Definition SUSPICIOUS_PATTERNS : list string :=
  [ "free"; "prize"; "winner"; "click"; "urgent";
    "download"; "crack"; "keygen"; "warez";
    "casino"; "bet"; "lottery";
    ".xyz"; ".top"; ".click"; ".loan"; ".work" ].

Definition COMMON_TRACKERS : list string :=
  [ "Google Analytics"; "Facebook Pixel"; "Google Tag Manager"; "Hotjar";
    "Mixpanel"; "Segment"; "Amplitude"; "Intercom" ].

Definition requiredHeaders : list string :=
  [ "Content-Security-Policy"; "X-Frame-Options"; "X-Content-Type-Options";
    "Strict-Transport-Security" ].

Definition trustedCAs : list string :=
  [ "DigiCert"; "Let's Encrypt"; "Comodo"; "GlobalSign"; "GeoTrust" ].

Definition riskPenalty (r : Risk) : Z :=
  match r with low => 0 | medium => 20 | high => 40 end.

Definition baseMultiplier (isTrusted isSuspicious : bool) : Q :=
  if isTrusted then 12 # 10 else if isSuspicious then 6 # 10 else 1.

Definition cookieScore (signals : PageSignals) : Z :=
  let c := cookies signals in
  if Qltb 0 (count c) then
    let thirdPartyRatio := (thirdPartyCount c / count c)%Q in
    let s1 := 85 - Math_round (thirdPartyRatio * 30) in
    let secureCount :=
      len (List.filter (fun k => secure k && httpOnly k) (cookie_list c)) in
    let secureRatio := (inject_Z secureCount / Qmax (count c) 1)%Q in
    s1 + Math_round (secureRatio * 15)
  else 85.

Definition trackerScore (signals : PageSignals) : Z :=
  Z.max 40 (90 - len (detected (trackers signals)) * 5).

Definition fingerprintScore (signals : PageSignals) : Z :=
  95 - riskPenalty (risk (fingerprinting signals))
     - len (techniques (fingerprinting signals)) * 5.

Definition headerScore (signals : PageSignals) : Q :=
  let h := headers signals in
  let presentRequired :=
    len (List.filter (fun x => existsb (String.eqb x) requiredHeaders) (present h)) in
  (80 + (inject_Z presentRequired / inject_Z (len requiredHeaders)) * 20
      - inject_Z (len (missing h)) * 5
      - inject_Z (len (issues h)) * 10)%Q.

Definition sslScore (signals : PageSignals) : Z :=
  let s := ssl signals in
  let base := if valid s then 100 else 30 in
  if valid s && truthy_string (issuer s) then
    if existsb (fun ca => match issuer s with
                          | Some i => includes i ca
                          | None => false
                          end) trustedCAs
    then 100 else base
  else base.

Definition calculateSignalScores (signals : PageSignals)
    (isTrusted isSuspicious : bool) : SignalScores :=
  let m := baseMultiplier isTrusted isSuspicious in
  {| sc_cookies :=
       Z.min 100 (Z.max 0 (Math_round (inject_Z (cookieScore signals) * m)));
     sc_trackers :=
       Z.min 100 (Z.max 0 (Math_round (inject_Z (trackerScore signals) * m)));
     sc_fingerprinting :=
       Z.min 100 (Z.max 0 (Math_round (inject_Z (fingerprintScore signals) * m)));
     sc_headers :=
       Z.min 100 (Z.max 0 (Math_round (headerScore signals * m)));
     sc_ssl :=
       Z.min 100 (Z.max 0 (Math_round (inject_Z (sslScore signals)))) |}.

(** The weighted average of [simulateAnalysis] (weights .25/.20/.20/.20/.15). *)
Definition weightedTrustScore (s : SignalScores) : Z :=
  Math_round (inject_Z (sc_ssl s) * (25 # 100)
              + inject_Z (sc_headers s) * (20 # 100)
              + inject_Z (sc_cookies s) * (20 # 100)
              + inject_Z (sc_trackers s) * (20 # 100)
              + inject_Z (sc_fingerprinting s) * (15 # 100))%Q.

Definition isTrustedDomain (d : string) : bool :=
  existsb (fun td => String.eqb d td || endsWith d ("." +:+ replace td "www." ""))
          TRUSTED_DOMAINS.

Definition isSuspiciousPage (d u : string) : bool :=
  existsb (fun pattern => includes d pattern || includes (toLowerCase u) pattern)
          SUSPICIOUS_PATTERNS.

(** ** Utilities ([src/lib/utils.ts]) *)

Definition getVerdictFromScore (score : Q) : Verdict :=
  if Qle_bool 70 score then safe
  else if Qle_bool 40 score then warning
  else danger.

Record ScoreColor := { color : string; label : string }.

Definition getScoreColor (score : Q) : ScoreColor :=
  if Qle_bool 70 score then {| color := "hsl(152, 76%, 40%)"; label := "Safe" |}
  else if Qle_bool 40 score then {| color := "hsl(38, 92%, 50%)"; label := "Caution" |}
  else {| color := "hsl(0, 84%, 60%)"; label := "Risk" |}.

(** ** The environment of the service worker *)

(** What the code reads from outside: the wall clock, [Math.random] and
    whether a call to [chrome.storage.local] rejects. *)
Record Oracles := {
  clock : nat -> Z;              (* n-th reading of the clock, ms since epoch *)
  random : nat -> Q;             (* n-th value of Math.random(), in [0,1) *)
  storage_fault : nat -> bool    (* does the n-th storage call reject? *)
}.

Inductive StorageKey := K_cachedResults | K_offlineQueue | K_settings.

Inductive StorageOp := op_get (k : StorageKey) | op_set (k : StorageKey).

(** [Partial<ExtensionSettings>]: what may be stored under [settings]. *)
Record StoredSettings := {
  st_autoAnalyze : option bool;
  st_showNotifications : option bool;
  st_cacheExpiration : option Z;
  st_darkMode : option DarkMode;
  st_dashboardUrl : option string
}.

(** The durable scope of [StorageSchema]; an absent key reads [undefined]. *)
Record LocalStorage := {
  cachedResults : option (gmap string CachedAnalysis);
  offlineQueue : option (list OfflineQueueItem);
  settings : option StoredSettings
}.

Record World := {
  oracles : Oracles;
  clock_reads : nat;
  random_reads : nat;
  storage_log : list StorageOp;          (* storage calls made so far *)
  local : LocalStorage;
  extensionStatus : ExtensionStatus;     (* the module-level [let] *)
  broadcasts : list ExtensionStatus      (* STATUS_UPDATE messages sent *)
}.

Definition with_clock_reads (n : nat) (w : World) : World :=
  {| oracles := oracles w; clock_reads := n; random_reads := random_reads w;
     storage_log := storage_log w; local := local w;
     extensionStatus := extensionStatus w; broadcasts := broadcasts w |}.

Definition with_random_reads (n : nat) (w : World) : World :=
  {| oracles := oracles w; clock_reads := clock_reads w; random_reads := n;
     storage_log := storage_log w; local := local w;
     extensionStatus := extensionStatus w; broadcasts := broadcasts w |}.

Definition with_storage (log : list StorageOp) (l : LocalStorage) (w : World) : World :=
  {| oracles := oracles w; clock_reads := clock_reads w;
     random_reads := random_reads w;
     storage_log := log; local := l;
     extensionStatus := extensionStatus w; broadcasts := broadcasts w |}.

Definition with_status (s : ExtensionStatus) (b : list ExtensionStatus) (w : World) : World :=
  {| oracles := oracles w; clock_reads := clock_reads w;
     random_reads := random_reads w;
     storage_log := storage_log w; local := local w;
     extensionStatus := s; broadcasts := b |}.

(** *** A state-and-exception monad over the world *)

Inductive Outcome (A : Type) :=
| Returned (a : A)
| Thrown (e : string).
Arguments Returned {A} a.
Arguments Thrown {A} e.

Definition M (A : Type) : Type := World -> Outcome A * World.

Definition ret {A} (a : A) : M A := fun w => (Returned a, w).

Definition bind {A B} (c : M A) (k : A -> M B) : M B :=
  fun w => match c w with
           | (Returned a, w') => k a w'
           | (Thrown e, w') => (Thrown e, w')
           end.

Notation "'let*' x ':=' c 'in' k" := (bind c (fun x => k))
  (at level 10, x name, c at level 100, k at level 200).

(** [try { body } catch (e) { handler(e) }] *)
Definition try_catch {A} (body : M A) (handler : string -> M A) : M A :=
  fun w => match body w with
           | (Returned a, w') => (Returned a, w')
           | (Thrown e, w') => handler e w'
           end.

(** [Date.now()], and the time of a [new Date()]. *)
Definition Date_now : M Z :=
  fun w => (Returned (clock (oracles w) (clock_reads w)),
            with_clock_reads (S (clock_reads w)) w).

Definition Math_random : M Q :=
  fun w => (Returned (random (oracles w) (random_reads w)),
            with_random_reads (S (random_reads w)) w).

(** One call to [chrome.storage.local]: it is logged, and it either rejects
    (the store is untouched) or runs [f] on the store. *)
Definition storage_call {A} (op : StorageOp)
    (f : LocalStorage -> A * LocalStorage) : M A :=
  fun w =>
    let n := List.length (storage_log w) in
    let log := (storage_log w ++ [op])%list in
    if storage_fault (oracles w) n
    then (Thrown "storage error", with_storage log (local w) w)
    else let (a, l) := f (local w) in (Returned a, with_storage log l w).

Definition get_cachedResults : M (option (gmap string CachedAnalysis)) :=
  storage_call (op_get K_cachedResults) (fun l => (cachedResults l, l)).

Definition set_cachedResults (c : gmap string CachedAnalysis) : M unit :=
  storage_call (op_set K_cachedResults)
    (fun l => (tt, {| cachedResults := Some c; offlineQueue := offlineQueue l;
                      settings := settings l |})).

Definition get_offlineQueue : M (option (list OfflineQueueItem)) :=
  storage_call (op_get K_offlineQueue) (fun l => (offlineQueue l, l)).

Definition set_offlineQueue (q : list OfflineQueueItem) : M unit :=
  storage_call (op_set K_offlineQueue)
    (fun l => (tt, {| cachedResults := cachedResults l; offlineQueue := Some q;
                      settings := settings l |})).

Definition get_settings : M (option StoredSettings) :=
  storage_call (op_get K_settings) (fun l => (settings l, l)).

(** *** [generateId] ([src/lib/utils.ts]) *)

Definition digit36 (d : Z) : ascii :=
  match String.get (Z.to_nat d) "0123456789abcdefghijklmnopqrstuvwxyz" with
  | Some c => c
  | None => "0"%char
  end.

(** The digits after the point of [q.toString(36)], at most [n] of them, for
    [0 <= q < 1]: the expansion stops when nothing is left. *)
Fixpoint base36_fraction (n : nat) (q : Q) : string :=
  match n with
  | O => EmptyString
  | S n' =>
      if Qeq_bool q 0 then EmptyString
      else let d := Qfloor (q * 36) in
           String (digit36 d) (base36_fraction n' (q * 36 - inject_Z d)%Q)
  end.

(** [`${Date.now()}-${Math.random().toString(36).substr(2, 9)}`] *)
Definition generateId : M string :=
  let* t := Date_now in
  let* r := Math_random in
  ret (pretty t +:+ "-" +:+ base36_fraction 9 r).

(** ** Simulated analysis ([src/background/simulation.ts]) *)

Definition risk_of_techniques (t : list string) : Risk :=
  if len t =? 0 then low else if len t =? 1 then medium else high.

Definition issuers : list string :=
  [ "Let's Encrypt"; "DigiCert Inc"; "GlobalSign"; "Comodo CA" ].

Definition enhanceSignals (signals : PageSignals) (isTrusted : bool) : M PageSignals :=
  let* trackers' :=
    (if len (detected (trackers signals)) =? 0 then
       let* r := Math_random in
       let numTrackers :=
         if isTrusted then Math_floor (r * 3) else Math_floor (r * 5) + 2 in
       ret {| detected := slice0 COMMON_TRACKERS numTrackers;
              blocked := blocked (trackers signals);
              scripts := scripts (trackers signals) |}
     else ret (trackers signals)) in
  let headers' :=
    if (len (present (headers signals)) =? 0)
       && (len (missing (headers signals)) =? 0)
    then if isTrusted
         then {| present := requiredHeaders;
                 missing := ["Permissions-Policy"];
                 issues := [] |}
         else {| present := ["X-Content-Type-Options"];
                 missing := ["Content-Security-Policy"; "X-Frame-Options";
                             "Strict-Transport-Security"; "Permissions-Policy"];
                 issues := ["Missing critical security headers"] |}
    else headers signals in
  let* fingerprinting' :=
    (if len (techniques (fingerprinting signals)) =? 0 then
       let* t :=
         (if isTrusted then ret []
          else let* r := Math_random in
               ret (slice0 ["Canvas"; "WebGL"] (Math_floor (r * 2) + 1))) in
       ret {| techniques := t; risk := risk_of_techniques t |}
     else ret (fingerprinting signals)) in
  let* ssl' :=
    (if valid (ssl signals) && negb (truthy_string (issuer (ssl signals))) then
       let* r := Math_random in
       let* now := Date_now in
       ret {| valid := valid (ssl signals);
              issuer := index issuers (Math_floor (r * inject_Z (len issuers)));
              ssl_expiresAt := Some (now + 1000 * 60 * 60 * 24 * 90);
              protocol := Some "TLS 1.3" |}
     else ret (ssl signals)) in
  ret {| url := url signals; domain := domain signals;
         timestamp := timestamp signals; cookies := cookies signals;
         trackers := trackers'; fingerprinting := fingerprinting';
         headers := headers'; ssl := ssl' |}.

Definition simulateAnalysis (signals : PageSignals) : M AnalysisResult :=
  let d := toLowerCase (domain signals) in
  let isTrusted := isTrustedDomain d in
  let isSuspicious := isSuspiciousPage d (url signals) in
  let* enhancedSignals := enhanceSignals signals isTrusted in
  let scores := calculateSignalScores enhancedSignals isTrusted isSuspicious in
  let score := weightedTrustScore scores in
  let v := getVerdictFromScore (inject_Z score) in
  let* id := generateId in
  let* now := Date_now in
  ret {| ar_id := id; ar_url := url signals; ar_domain := domain signals;
         trustScore := score; verdict := v; signalScores := scores;
         ar_signals := enhancedSignals; analyzedAt := now;
         explanation := Some {| ex_status := pending; ex_text := None;
                                ex_generatedAt := None; ex_error := None |} |}.

(** ** Storage helpers and status ([src/background/index.ts]) *)

Definition initialStatus : ExtensionStatus := {|
  isAuthenticated := false;
  connectionStatus := offline;
  pendingAnalyses := 0;
  offlineQueueSize := 0
|}.

(** [Partial<ExtensionStatus>] *)
Record PartialStatus := {
  p_isAuthenticated : option bool;
  p_connectionStatus : option ConnectionStatus;
  p_pendingAnalyses : option Z;
  p_offlineQueueSize : option Z
}.

Definition only_offlineQueueSize (n : Z) : PartialStatus :=
  {| p_isAuthenticated := None; p_connectionStatus := None;
     p_pendingAnalyses := None; p_offlineQueueSize := Some n |}.

(** [{ ...extensionStatus, ...partial }] *)
Definition spread_status (s : ExtensionStatus) (p : PartialStatus) : ExtensionStatus :=
  {| isAuthenticated := default (isAuthenticated s) (p_isAuthenticated p);
     connectionStatus := default (connectionStatus s) (p_connectionStatus p);
     pendingAnalyses := default (pendingAnalyses s) (p_pendingAnalyses p);
     offlineQueueSize := default (offlineQueueSize s) (p_offlineQueueSize p) |}.

(** The status is replaced and broadcast; a rejected broadcast is ignored. *)
Definition updateStatus (partial : PartialStatus) : M unit :=
  fun w =>
    let s := spread_status (extensionStatus w) partial in
    (Returned tt, with_status s (broadcasts w ++ [s])%list w).

Definition no_settings : StoredSettings :=
  {| st_autoAnalyze := None; st_showNotifications := None;
     st_cacheExpiration := None; st_darkMode := None; st_dashboardUrl := None |}.

(** [{ ...DEFAULT_SETTINGS, ...s }] *)
Definition spread_settings (d : ExtensionSettings) (s : StoredSettings) : ExtensionSettings :=
  {| autoAnalyze := default (autoAnalyze d) (st_autoAnalyze s);
     showNotifications := default (showNotifications d) (st_showNotifications s);
     cacheExpiration := default (cacheExpiration d) (st_cacheExpiration s);
     darkMode := default (darkMode d) (st_darkMode s);
     dashboardUrl := default (dashboardUrl d) (st_dashboardUrl s) |}.

Definition getSettings : M ExtensionSettings :=
  try_catch
    (let* r := get_settings in
     ret (spread_settings DEFAULT_SETTINGS (default no_settings r)))
    (fun _ => ret DEFAULT_SETTINGS).

(** *** Plain objects used as maps

    [cachedResults] comes out of the store as a plain object.  [obj[key]]
    finds an own property or else a member of [Object.prototype], which is a
    function, or for [__proto__] the prototype itself: never a cache entry.
    The assignment [obj[key] = v] makes or changes an own property, except
    that for the key [__proto__] without an own property of that name it
    calls the setter of [Object.prototype]: the prototype of [obj] changes
    and no property is added, so that what is written to the store
    afterwards is the object as it was. *)

Definition Object_prototype_members : list string :=
  [ "constructor"; "__proto__"; "__defineGetter__"; "__defineSetter__";
    "__lookupGetter__"; "__lookupSetter__"; "hasOwnProperty"; "isPrototypeOf";
    "propertyIsEnumerable"; "toLocaleString"; "toString"; "valueOf" ].

Definition inherited_key (key : string) : bool :=
  existsb (String.eqb key) Object_prototype_members.

(** The own properties after [obj[key] = v]. *)
Definition js_assign {A} (key : string) (v : A) (obj : gmap string A)
    : gmap string A :=
  if String.eqb key "__proto__" && negb (bool_decide (is_Some (obj !! key)))
  then obj
  else <[key := v]> obj.

(** What [cached[domain]] can be when it is truthy. *)
Inductive CacheHit :=
| own_entry (c : CachedAnalysis)
| inherited_member (name : string).

Definition throw {A} (e : string) : M A := fun w => (Thrown e, w).

(** The time values of a [Date] lie within this many milliseconds of the
    epoch. *)
Definition Date_range : Z := 8640000000000000.

(** [new Date(t).toISOString()]: a RangeError when [t] is out of range. *)
Definition toISOString (t : Z) : M Z :=
  if Z.abs t <=? Date_range then ret t else throw "Invalid time value".

(** For an inherited member [cachedItem.expiresAt] is [undefined], the date
    made from it is invalid and compares false with the current one: the
    member is returned, after the clock was read for the comparison. *)
Definition getCachedResult (d : string) : M (option CacheHit) :=
  try_catch
    (let* r := get_cachedResults in
     match r with
     | None => ret None
     | Some cached =>
         match cached !! d with
         | Some cachedItem =>
             let* now := Date_now in
             if expiresAt cachedItem <? now then
               let* _ := set_cachedResults (delete d cached) in
               ret None
             else ret (Some (own_entry cachedItem))
         | None =>
             if inherited_key d then
               let* now := Date_now in
               ret (Some (inherited_member d))
             else ret None
         end
     end)
    (fun _ => ret None).

Definition setCachedResult (d : string) (res : AnalysisResult) : M unit :=
  try_catch
    (let* s := getSettings in
     let expirationHours := cacheExpiration s in
     let* existing := get_cachedResults in
     let cached := default ∅ existing in
     let* t_cached := Date_now in
     let* t_now := Date_now in
     let* t_expires := toISOString (t_now + expirationHours * 60 * 60 * 1000) in
     set_cachedResults
       (js_assign d {| result := res;
                       cachedAt := t_cached;
                       expiresAt := t_expires |} cached))
    (fun _ => ret tt).

Definition getOfflineQueue : M (list OfflineQueueItem) :=
  try_catch
    (let* r := get_offlineQueue in ret (default [] r))
    (fun _ => ret []).

Definition addToOfflineQueue (signals : PageSignals) : M unit :=
  try_catch
    (let* queue := getOfflineQueue in
     let* id := generateId in
     let* now := Date_now in
     let queue' :=
       (queue ++ [{| oq_id := id; oq_signals := signals;
                     queuedAt := now; retryCount := 0 |}])%list in
     let* _ := set_offlineQueue queue' in
     updateStatus (only_offlineQueueSize (len queue')))
    (fun _ => ret tt).

Definition removeFromOfflineQueue (id : string) : M unit :=
  try_catch
    (let* queue := getOfflineQueue in
     let filtered :=
       List.filter (fun item => negb (String.eqb (oq_id item) id)) queue in
     let* _ := set_offlineQueue filtered in
     updateStatus (only_offlineQueueSize (len filtered)))
    (fun _ => ret tt).

(** ** Signal collection ([src/background/index.ts])

    [collectSignalsFromTab] builds a promise, stores its [resolve] function in
    [pendingSignalCollections], sends COLLECT_SIGNALS and arms a ten-second
    timer that is never cleared.  Everything after the executor runs in
    callbacks, in whatever order the browser delivers them: they are the
    [Event]s below, each a function on the [Coordinator]. *)

Inductive PromiseState :=
| Pending
| Fulfilled (s : PageSignals)
| Rejected (e : string).

(** How far the delivery of COLLECT_SIGNALS has got. *)
Inductive SendPhase :=
| FirstSend        (* chrome.tabs.sendMessage not settled yet *)
| Injecting        (* it rejected; chrome.scripting.executeScript awaited *)
| Retrying         (* injected; second sendMessage not settled yet *)
| SendOver.        (* nothing more will come from the sending chain *)

(** One call of [collectSignalsFromTab]: its arguments, the promise it
    returned, how often the promise's [resolve] was called, and whether its
    timer is still to fire. *)
Record Request := {
  rq_tab : Z;
  rq_url : string;
  rq_state : PromiseState;
  rq_resolved : nat;
  rq_send : SendPhase;
  rq_timer : bool
}.

(** [pendingSignalCollections] maps a tab id to a [resolve] function, named
    here by the request whose promise it settles. *)
Record Coordinator := {
  pendingSignalCollections : gmap Z nat;
  requests : list Request
}.

Definition idle : Coordinator :=
  {| pendingSignalCollections := ∅; requests := [] |}.

Inductive Event :=
| Collect (tabId : Z) (u : string)
| SendResolved (i : nat)
| SendRejected (i : nat)
| InjectFailed (i : nat) (e : string)
| InjectOk (i : nat)
| RetryRejected (i : nat) (e : string)
| SignalsCollected (sender_tab : option Z) (signals : PageSignals)
| TimerFired (i : nat) (now : Z).

(** What the ANALYZE_PAGE case of the listener does with the promise it
    awaits: it goes on to [analyzeSignals] with the value of a fulfilled
    promise; a rejection leaves [handleAsync] rejected, and its [.catch]
    answers the requester with [{ error: error.message }]. *)
Inductive Continuation :=
| still_waiting
| analysis_of (s : PageSignals)
| error_response (message : string).

Definition settle_with (v : PromiseState) (r : Request) : Request :=
  {| rq_tab := rq_tab r; rq_url := rq_url r;
     rq_state := match rq_state r with Pending => v | s => s end;
     rq_resolved := rq_resolved r; rq_send := rq_send r; rq_timer := rq_timer r |}.

Definition count_resolve (r : Request) : Request :=
  {| rq_tab := rq_tab r; rq_url := rq_url r; rq_state := rq_state r;
     rq_resolved := S (rq_resolved r); rq_send := rq_send r;
     rq_timer := rq_timer r |}.

Definition with_send (p : SendPhase) (r : Request) : Request :=
  {| rq_tab := rq_tab r; rq_url := rq_url r; rq_state := rq_state r;
     rq_resolved := rq_resolved r; rq_send := p; rq_timer := rq_timer r |}.

Definition disarm (r : Request) : Request :=
  {| rq_tab := rq_tab r; rq_url := rq_url r; rq_state := rq_state r;
     rq_resolved := rq_resolved r; rq_send := rq_send r; rq_timer := false |}.

Definition on_request (f : Request -> Request) (i : nat) (c : Coordinator) : Coordinator :=
  {| pendingSignalCollections := pendingSignalCollections c;
     requests := alter f i (requests c) |}.

(** Calling the [resolve] of request [i]: a settled promise ignores it. *)
Definition resolve (i : nat) (s : PageSignals) (c : Coordinator) : Coordinator :=
  on_request (fun r => count_resolve (settle_with (Fulfilled s) r)) i c.

Definition reject (i : nat) (e : string) (c : Coordinator) : Coordinator :=
  on_request (settle_with (Rejected e)) i c.

Definition pending_delete (tabId : Z) (c : Coordinator) : Coordinator :=
  {| pendingSignalCollections := delete tabId (pendingSignalCollections c);
     requests := requests c |}.

Definition pending_set (tabId : Z) (i : nat) (c : Coordinator) : Coordinator :=
  {| pendingSignalCollections := <[tabId := i]> (pendingSignalCollections c);
     requests := requests c |}.

Definition state_of (i : nat) (c : Coordinator) : option PromiseState :=
  rq_state <$> requests c !! i.

Definition resolve_calls (i : nat) (c : Coordinator) : option nat :=
  rq_resolved <$> requests c !! i.

Definition ANALYZE_PAGE_continuation (st : PromiseState) : Continuation :=
  match st with
  | Pending => still_waiting
  | Fulfilled s => analysis_of s
  | Rejected e => error_response e
  end.

Section Collection.

(** [new URL(url).hostname], [None] when the constructor throws. *)
Variable URL_hostname : string -> option string.

Definition getDomainFromUrl (u : string) : string :=
  default u (URL_hostname u).

(** The bundle the timer resolves with. *)
Definition fallbackSignals (u : string) (now : Z) : PageSignals :=
  {| url := u;
     domain := getDomainFromUrl u;
     timestamp := now;
     cookies := {| count := 0; thirdPartyCount := 0; cookie_list := [] |};
     trackers := {| detected := []; blocked := 0; scripts := [] |};
     fingerprinting := {| techniques := []; risk := low |};
     headers := {| present := []; missing := []; issues := [] |};
     ssl := {| valid := startsWith u "https://"; issuer := None;
               ssl_expiresAt := None; protocol := None |} |}.

(** The executor of the promise: the part of [collectSignalsFromTab] that
    runs at the call.  Returns the name of the new request. *)
Definition collectSignalsFromTab (tabId : Z) (u : string) (c : Coordinator)
    : nat * Coordinator :=
  let i := List.length (requests c) in
  (i, {| pendingSignalCollections := <[tabId := i]> (pendingSignalCollections c);
         requests := (requests c ++
                      [{| rq_tab := tabId; rq_url := u; rq_state := Pending;
                          rq_resolved := 0; rq_send := FirstSend;
                          rq_timer := true |}])%list |}).

(** The [setTimeout] callback of request [i]. *)
Definition on_timeout (i : nat) (now : Z) (c : Coordinator) : Coordinator :=
  match requests c !! i with
  | Some r =>
      if rq_timer r then
        let c1 := on_request disarm i c in
        match pendingSignalCollections c1 !! rq_tab r with
        | Some _ =>
            resolve i (fallbackSignals (rq_url r) now)
                    (pending_delete (rq_tab r) c1)
        | None => c1
        end
      else c
  | None => c
  end.

(** The SIGNALS_COLLECTED case of the message listener. *)
Definition on_SIGNALS_COLLECTED (sender_tab : option Z) (signals : PageSignals)
    (c : Coordinator) : Coordinator :=
  match sender_tab with
  | Some tabId =>
      if negb (tabId =? 0) then
        match pendingSignalCollections c !! tabId with
        | Some resolver => pending_delete tabId (resolve resolver signals c)
        | None => c
        end
      else c
  | None => c
  end.

(** The [.catch] chain behind the first [chrome.tabs.sendMessage]. *)
Definition on_send (ev : Event) (r : Request) (i : nat) (c : Coordinator)
    : Coordinator :=
  match ev, rq_send r with
  | SendResolved _, FirstSend => on_request (with_send SendOver) i c
  | SendResolved _, Retrying => on_request (with_send SendOver) i c
  | SendRejected _, FirstSend => on_request (with_send Injecting) i c
  | InjectOk _, Injecting => on_request (with_send Retrying) i c
  | InjectFailed _ e, Injecting =>
      reject i e (pending_delete (rq_tab r) (on_request (with_send SendOver) i c))
  | RetryRejected _ e, Retrying =>
      reject i e (on_request (with_send SendOver) i c)
  | _, _ => c
  end.

Definition step (ev : Event) (c : Coordinator) : Coordinator :=
  match ev with
  | Collect tabId u => snd (collectSignalsFromTab tabId u c)
  | SignalsCollected sender_tab signals =>
      on_SIGNALS_COLLECTED sender_tab signals c
  | TimerFired i now => on_timeout i now c
  | SendResolved i | SendRejected i | InjectFailed i _ | InjectOk i
  | RetryRejected i _ =>
      match requests c !! i with
      | Some r => on_send ev r i c
      | None => c
      end
  end.

Definition run (evs : list Event) (c : Coordinator) : Coordinator :=
  fold_left (fun c ev => step ev c) evs c.

End Collection.

(** ** Reading outcomes, and some concrete inputs *)

Definition returned {A} (x : Outcome A * World) : option A :=
  match fst x with
  | Returned a => Some a
  | Thrown _ => None
  end.

Definition world_after {A} (x : Outcome A * World) : World := snd x.

(** A clock that advances one millisecond per reading, a constant random
    source, storage that never rejects. *)
Definition sample_oracles (t0 : Z) (r : Q) : Oracles :=
  {| clock := fun n => t0 + Z.of_nat n;
     random := fun _ => r;
     storage_fault := fun _ => false |}.

Definition empty_store : LocalStorage :=
  {| cachedResults := None; offlineQueue := None; settings := None |}.

Definition fresh_world (o : Oracles) : World :=
  {| oracles := o; clock_reads := 0; random_reads := 0; storage_log := [];
     local := empty_store; extensionStatus := initialStatus; broadcasts := [] |}.

(** The bundle the ten-second timer makes up for [http://bet.example/]:
    nothing detected, no TLS. *)
Definition sample_signals : PageSignals :=
  {| url := "http://bet.example/";
     domain := "bet.example";
     timestamp := 0;
     cookies := {| count := 0; thirdPartyCount := 0; cookie_list := [] |};
     trackers := {| detected := []; blocked := 0; scripts := [] |};
     fingerprinting := {| techniques := []; risk := low |};
     headers := {| present := []; missing := []; issues := [] |};
     ssl := {| valid := false; issuer := None; ssl_expiresAt := None;
               protocol := None |} |}.

(** The same page with a tracker and a fingerprinting technique detected. *)
Definition detected_signals : PageSignals :=
  {| url := url sample_signals; domain := domain sample_signals;
     timestamp := 0; cookies := cookies sample_signals;
     trackers := {| detected := ["Hotjar"]; blocked := 0; scripts := [] |};
     fingerprinting := {| techniques := ["Canvas"]; risk := medium |};
     headers := headers sample_signals; ssl := ssl sample_signals |}.

(** What [simulateAnalysis] returns for [sample_signals] when every random
    number is 0 and the clock reads 1000, then 1001. *)
Definition sample_result : AnalysisResult :=
  {| ar_id := "1000-"; ar_url := url sample_signals;
     ar_domain := domain sample_signals;
     trustScore := 40; verdict := warning;
     signalScores := {| sc_cookies := 51; sc_trackers := 48;
                        sc_fingerprinting := 42; sc_headers := 33;
                        sc_ssl := 30 |};
     ar_signals :=
       {| url := url sample_signals; domain := domain sample_signals;
          timestamp := 0; cookies := cookies sample_signals;
          trackers := {| detected := ["Google Analytics"; "Facebook Pixel"];
                         blocked := 0; scripts := [] |};
          fingerprinting := {| techniques := ["Canvas"]; risk := medium |};
          headers := {| present := ["X-Content-Type-Options"];
                        missing := ["Content-Security-Policy"; "X-Frame-Options";
                                    "Strict-Transport-Security";
                                    "Permissions-Policy"];
                        issues := ["Missing critical security headers"] |};
          ssl := ssl sample_signals |};
     analyzedAt := 1001;
     explanation := Some {| ex_status := pending; ex_text := None;
                            ex_generatedAt := None; ex_error := None |} |}.

(** A world whose cache holds one entry, for [bet.example], that expired at
    time 10; the clock reads [t0], [t0 + 1], ... *)
Definition world_with_entry (t0 : Z) : World :=
  {| oracles := sample_oracles t0 0; clock_reads := 0; random_reads := 0;
     storage_log := [];
     local := {| cachedResults :=
                   Some {[ "bet.example" :=
                             {| result := sample_result; cachedAt := 0;
                                expiresAt := 10 |} ]};
                 offlineQueue := None; settings := None |};
     extensionStatus := initialStatus; broadcasts := [] |}.

(** No call to [chrome.storage.local] rejects. *)
Definition storage_reliable (w : World) : Prop :=
  forall n, storage_fault (oracles w) n = false.

(** The settings [getSettings] computes from the store. *)
Definition effective_settings (w : World) : ExtensionSettings :=
  spread_settings DEFAULT_SETTINGS (default no_settings (settings (local w))).


(** A score between 0 and 100. *)
Definition in_range (z : Z) : Prop := 0 <= z <= 100.

Definition verdict_rank (v : Verdict) : Z :=
  match v with danger => 0 | warning => 1 | safe => 2 end.

(** ** Notions used in the statements *)

Definition store_with_cache (c : gmap string CachedAnalysis) (l : LocalStorage)
    : LocalStorage :=
  {| cachedResults := Some c; offlineQueue := offlineQueue l;
     settings := settings l |}.

(** A world that differs from [w] in its clock cursor, storage log and store. *)
Definition later_world (w : World) (reads : nat) (ops : list StorageOp)
    (l : LocalStorage) : World :=
  {| oracles := oracles w; clock_reads := (clock_reads w + reads)%nat;
     random_reads := random_reads w;
     storage_log := (storage_log w ++ ops)%list; local := l;
     extensionStatus := extensionStatus w; broadcasts := broadcasts w |}.

(** The own entry of the stored cache under [d]. *)
Definition cache_lookup (d : string) (w : World) : option CachedAnalysis :=
  match cachedResults (local w) with
  | Some cached => cached !! d
  | None => None
  end.

Definition new_entry (res : AnalysisResult) (ttl t_cached t_now : Z) : CachedAnalysis :=
  {| result := res; cachedAt := t_cached;
     expiresAt := t_now + ttl * 60 * 60 * 1000 |}.

(** The id [generateId] produces in world [w]. *)
Definition generated_id (w : World) : string :=
  pretty (clock (oracles w) (clock_reads w)) +:+ "-"
  +:+ base36_fraction 9 (random (oracles w) (random_reads w)).


(** A stand-in for the URL parser of the browser on the one URL used in the
    concrete runs below. *)
Definition sample_hostname (u : string) : option string :=
  if String.eqb u "http://bet.example/" then Some "bet.example" else None.

(** Request [i] can no longer be settled: its promise is pending, its timer
    has fired, its sending chain is over and no entry of
    [pendingSignalCollections] holds its [resolve]. *)
Definition stranded (i : nat) (c : Coordinator) : Prop :=
  (exists r, requests c !! i = Some r /\ rq_state r = Pending
             /\ rq_timer r = false /\ rq_send r = SendOver)
  /\ forall t, pendingSignalCollections c !! t <> Some i.

(** * More of the code *)

(** ** Utilities ([src/lib/utils.ts]), continued *)

(** [s.slice(0, e)] on a string, for an integer [e]: a negative end counts
    from the back.  Lengths are counted in the characters of the Rocq string,
    which are the UTF-16 units of the JavaScript string on ASCII text. *)
Definition str_slice0 (s : string) (e : Z) : string :=
  let n := Z.of_nat (String.length s) in
  String.substring 0 (Z.to_nat (if e <? 0 then Z.max (n + e) 0 else Z.min e n)) s.

Definition truncate (text : string) (maxLength : Z) : string :=
  if Z.of_nat (String.length text) <=? maxLength then text
  else str_slice0 text (maxLength - 3) +:+ "...".

Definition nonAnalyzableProtocols : list string :=
  [ "chrome://"; "chrome-extension://"; "moz-extension://"; "edge://";
    "about:"; "file://"; "data:"; "javascript:" ].

Definition isAnalyzableUrl (u : string) : bool :=
  if String.eqb u "" then false
  else negb (existsb (fun protocol => startsWith u protocol) nonAnalyzableProtocols).

Section RelativeTime.

(** [date.toLocaleDateString()], which depends on the locale of the browser. *)
Variable toLocaleDateString : Z -> string.

Definition formatRelativeTime (date : Z) : M string :=
  let* now := Date_now in
  let diffMs := now - date in
  let diffSecs := diffMs / 1000 in
  let diffMins := diffSecs / 60 in
  let diffHours := diffMins / 60 in
  let diffDays := diffHours / 24 in
  ret (if diffSecs <? 60 then "Just now"
       else if diffMins <? 60 then pretty diffMins +:+ "m ago"
       else if diffHours <? 24 then pretty diffHours +:+ "h ago"
       else if diffDays <? 7 then pretty diffDays +:+ "d ago"
       else toLocaleDateString date).

End RelativeTime.


(** ** Notions about bundles and environments *)

(** Every value of [Math.random] lies in [0, 1). *)
Definition random_in_unit_interval (w : World) : Prop :=
  forall n, (0 <= random (oracles w) n)%Q /\ (random (oracles w) n < 1)%Q.

(** The counts of a bundle are those of its lists: no more third-party
    cookies than cookies, no more listed cookies than the count, no header
    listed twice as present. *)
Definition plausible (signals : PageSignals) : Prop :=
  (0 <= thirdPartyCount (cookies signals))%Q
  /\ (inject_Z (len (cookie_list (cookies signals))) <= count (cookies signals))%Q
  /\ NoDup (present (headers signals)).

(** The headers [enhanceSignals] makes up for a bundle without any. *)
Definition backfilled_headers (isTrusted : bool) : HeaderSignal :=
  if isTrusted
  then {| present := requiredHeaders;
          missing := ["Permissions-Policy"];
          issues := [] |}
  else {| present := ["X-Content-Type-Options"];
          missing := ["Content-Security-Policy"; "X-Frame-Options";
                      "Strict-Transport-Security"; "Permissions-Policy"];
          issues := ["Missing critical security headers"] |}.


(** The score-relevant content of the timer's bundle after [enhanceSignals]:
    no cookies, the first [k] common trackers, the made-up fingerprinting
    and headers, and TLS as the scheme has it. *)
Definition backfilled_fallback (k : nat) (fp : FingerprintSignal)
    (isTrusted https : bool) : PageSignals :=
  {| url := ""; domain := ""; timestamp := 0;
     cookies := {| count := 0; thirdPartyCount := 0; cookie_list := [] |};
     trackers := {| detected := firstn k COMMON_TRACKERS; blocked := 0;
                    scripts := [] |};
     fingerprinting := fp;
     headers := backfilled_headers isTrusted;
     ssl := {| valid := https; issuer := None; ssl_expiresAt := None;
               protocol := None |} |}.


(** ** The content script ([src/content/index.ts])

    What the script reads from the page is a [Page]: the location, the cookie
    string, the script and image elements in document order, and the outcome
    of the probes for a canvas element, for WebGL renderer information and
    for the two [meta] elements. *)

Record ScriptElement := {
  script_src : option string;       (* the [src] attribute, if there is one *)
  script_text : string              (* [textContent || ''] *)
}.

Record ImageElement := {
  img_src : option string;
  img_width : Z;
  img_naturalWidth : Z;
  img_height : Z;
  img_naturalHeight : Z
}.

Record Page := {
  location_href : string;
  location_hostname : string;
  location_protocol : string;
  (** Reading [document.cookie] throws a SecurityError, as it does in a
      sandboxed or opaque-origin document; otherwise it gives
      [document_cookie]. *)
  cookie_denied : bool;
  document_cookie : string;
  script_elements : list ScriptElement;
  image_elements : list ImageElement;
  (** [document.querySelector('canvas')] found an element; [None] when the
      probe throws. *)
  canvas_probe : option bool;
  (** A WebGL context with the WEBGL_debug_renderer_info extension could be
      had; [None] when the probe throws. *)
  webgl_probe : option bool;
  csp_meta : bool;                  (* meta[http-equiv="Content-Security-Policy"] *)
  referrer_meta : bool              (* meta[name="referrer"] *)
}.

(** *** Strings, continued *)

(** [s.split(sep)] for a separator of one character. *)
Fixpoint split_on (sep : ascii) (s : string) : list string :=
  match s with
  | EmptyString => [EmptyString]
  | String c s' =>
      if Ascii.eqb c sep then EmptyString :: split_on sep s'
      else match split_on sep s' with
           | x :: xs => String c x :: xs
           | [] => [String c EmptyString]
           end
  end.

(** The ASCII white space and line terminators that [trim] removes. *)
Definition is_space (c : ascii) : bool :=
  let n := nat_of_ascii c in
  ((9 <=? n)%nat && (n <=? 13)%nat) || (n =? 32)%nat.

Fixpoint trim_left (s : string) : string :=
  match s with
  | EmptyString => EmptyString
  | String c s' => if is_space c then trim_left s' else s
  end.

Fixpoint trim_right (s : string) : string :=
  match s with
  | EmptyString => EmptyString
  | String c s' =>
      let r := trim_right s' in
      if is_space c && String.eqb r "" then EmptyString else String c r
  end.

Definition trim (s : string) : string := trim_right (trim_left s).

(** *** [collectCookies] *)

Definition cookie_of_pair (p : Page) (pair : string) : option CookieInfo :=
  let name := List.hd EmptyString (split_on "=" (trim pair)) in
  if String.eqb name "" then None
  else Some {| ck_name := trim name;
               ck_domain := location_hostname p;
               secure := String.eqb (location_protocol p) "https:";
               httpOnly := false |}.

(** [const cookieString = document.cookie], the first statement of
    [collectCookies]. *)
Definition read_document_cookie (p : Page) : M string :=
  if cookie_denied p then throw "SecurityError" else ret (document_cookie p).

(** The rest of [collectCookies], once the cookie string has been read. *)
Definition collectCookies (p : Page) : CookieSignal :=
  let found :=
    if String.eqb (document_cookie p) "" then []
    else omap (cookie_of_pair p) (split_on ";" (document_cookie p)) in
  {| count := inject_Z (len found);
     thirdPartyCount := inject_Z (Math_floor (inject_Z (len found) * (3 # 10)));
     cookie_list := found |}.

(** *** [detectTrackers] *)

(** The regular expressions of the catalog are alternatives of literal texts
    and of two literal texts with [.*] between them, all with the flag [i]
    and without the flag [g]. *)
Inductive Alternative :=
| literal (a : string)
| gap (a b : string).             (* a.*b *)

Record TrackerPattern := {
  tp_pattern : list Alternative;
  tp_name : string
}.

Definition trackerPatterns : list TrackerPattern :=
  [ {| tp_pattern := [literal "google-analytics.com"; literal "googletagmanager.com";
                      literal "ga.js"; literal "gtag"];
       tp_name := "Google Analytics" |};
    {| tp_pattern := [literal "facebook.net"; literal "fbevents.js";
                      literal "facebook.com/tr"];
       tp_name := "Facebook Pixel" |};
    {| tp_pattern := [literal "googletagmanager.com/gtm"];
       tp_name := "Google Tag Manager" |};
    {| tp_pattern := [literal "hotjar.com"]; tp_name := "Hotjar" |};
    {| tp_pattern := [literal "mixpanel.com"]; tp_name := "Mixpanel" |};
    {| tp_pattern := [literal "segment.com"; literal "segment.io"];
       tp_name := "Segment" |};
    {| tp_pattern := [literal "amplitude.com"]; tp_name := "Amplitude" |};
    {| tp_pattern := [literal "intercom.io"; literal "intercomcdn.com"];
       tp_name := "Intercom" |};
    {| tp_pattern := [literal "clarity.ms"]; tp_name := "Microsoft Clarity" |};
    {| tp_pattern := [literal "doubleclick.net"]; tp_name := "DoubleClick" |};
    {| tp_pattern := [literal "adsense"]; tp_name := "Google AdSense" |};
    {| tp_pattern := [literal "twitter.com/i/adsct"; literal "ads-twitter.com"];
       tp_name := "Twitter Ads" |};
    {| tp_pattern := [gap "linkedin.com" "/li.lms-analytics"];
       tp_name := "LinkedIn Insight" |};
    {| tp_pattern := [literal "snap.licdn.com"; literal "px.ads.linkedin.com"];
       tp_name := "LinkedIn Pixel" |};
    {| tp_pattern := [gap "tiktok.com" "analytics"; literal "analytics.tiktok.com"];
       tp_name := "TikTok Pixel" |};
    {| tp_pattern := [gap "pinterest.com" "tag"]; tp_name := "Pinterest Tag" |};
    {| tp_pattern := [literal "criteo.com"; literal "criteo.net"];
       tp_name := "Criteo" |};
    {| tp_pattern := [literal "taboola.com"]; tp_name := "Taboola" |};
    {| tp_pattern := [literal "outbrain.com"]; tp_name := "Outbrain" |};
    {| tp_pattern := [literal "quantserve.com"]; tp_name := "Quantcast" |};
    {| tp_pattern := [literal "scorecardresearch.com"]; tp_name := "comScore" |};
    {| tp_pattern := [literal "newrelic.com"; literal "nr-data.net"];
       tp_name := "New Relic" |};
    {| tp_pattern := [literal "sentry.io"; literal "sentry-cdn.com"];
       tp_name := "Sentry" |} ].

(** The text starts with a character that [.] does not match: a line feed,
    a carriage return, or U+2028 or U+2029 in UTF-8. *)
Definition at_line_terminator (s : string) : bool :=
  String.prefix (String (ascii_of_nat 10) EmptyString) s
  || String.prefix (String (ascii_of_nat 13) EmptyString) s
  || String.prefix (String (ascii_of_nat 226) (String (ascii_of_nat 128)
                      (String (ascii_of_nat 168) EmptyString))) s
  || String.prefix (String (ascii_of_nat 226) (String (ascii_of_nat 128)
                      (String (ascii_of_nat 169) EmptyString))) s.

(** [b] occurs in [s] with no line terminator before it. *)
Fixpoint same_line_includes (s b : string) : bool :=
  String.prefix b s
  || match s with
     | EmptyString => false
     | String _ s' => negb (at_line_terminator s) && same_line_includes s' b
     end.

Fixpoint includes_gap (s a b : string) : bool :=
  (String.prefix a s && same_line_includes (drop_chars (String.length a) s) b)
  || match s with
     | EmptyString => false
     | String _ s' => includes_gap s' a b
     end.

(** [pattern.test(s)]: the letters of the catalog are lower-case ASCII, so
    ignoring case is matching the lower-cased text. *)
Definition test (pattern : list Alternative) (s : string) : bool :=
  existsb (fun alt => match alt with
                      | literal a => includes (toLowerCase s) a
                      | gap a b => includes_gap (toLowerCase s) a b
                      end) pattern.

(** The [for (const tracker of trackerPatterns)] loop over one text. *)
Definition scan (detected_so_far : list string) (text : string) : list string :=
  fold_left
    (fun det tracker =>
       if test (tp_pattern tracker) text
          && negb (existsb (String.eqb (tp_name tracker)) det)
       then (det ++ [tp_name tracker])%list else det)
    trackerPatterns detected_so_far.

Definition script_srcs (p : Page) : list string :=
  omap script_src (script_elements p).

Definition inline_texts (p : Page) : list string :=
  script_text <$> List.filter (fun sc => negb (bool_decide (is_Some (script_src sc))))
                    (script_elements p).

Definition looks_like_pixel (img : ImageElement) : bool :=
  let src := default EmptyString (img_src img) in
  let width := if img_width img =? 0 then img_naturalWidth img else img_width img in
  let height := if img_height img =? 0 then img_naturalHeight img else img_height img in
  ((width <=? 1) && (height <=? 1)) || includes src "/pixel" || includes src "/beacon".

Definition pixel_srcs (p : Page) : list string :=
  (fun img => default EmptyString (img_src img))
    <$> List.filter looks_like_pixel (image_elements p).

Definition detectTrackers (p : Page) : TrackerSignal :=
  let d1 := fold_left scan (script_srcs p) [] in
  let d2 := fold_left scan (inline_texts p) d1 in
  let d3 := fold_left scan (pixel_srcs p) d2 in
  {| detected := d3; blocked := 0; scripts := firstn 20 (script_srcs p) |}.

(** *** [detectFingerprinting] *)

Definition detectFingerprinting (p : Page) : FingerprintSignal :=
  let texts := script_text <$> script_elements p in
  let t1 := if bool_decide (canvas_probe p = Some true) then ["Canvas"] else [] in
  let t2 :=
    if bool_decide (webgl_probe p = Some true)
       && existsb (fun c => includes c "WEBGL_debug_renderer_info") texts
    then (t1 ++ ["WebGL"])%list else t1 in
  let t3 :=
    if existsb (fun c => includes c "AudioContext" && includes c "createOscillator")
         texts
    then (t2 ++ ["Audio"])%list else t2 in
  let t4 :=
    if existsb (fun c => includes c "measureText" && includes c "font") texts
    then (t3 ++ ["Fonts"])%list else t3 in
  {| techniques := t4;
     risk := if 3 <=? len t4 then high else if 1 <=? len t4 then medium else low |}.

(** *** [analyzeHeaders], [checkSSL], [collectAllSignals] *)

Definition analyzeHeaders (p : Page) : HeaderSignal :=
  let p1 := if csp_meta p then ["Content-Security-Policy (meta)"] else [] in
  let p2 := if referrer_meta p then (p1 ++ ["Referrer-Policy (meta)"])%list else p1 in
  {| present := p2;
     missing := [];
     issues :=
       if len p2 =? 0
       then ["Header analysis limited - requires background script for full HTTP header inspection"]
       else [] |}.

Definition checkSSL (p : Page) : SSLSignal :=
  {| valid := String.eqb (location_protocol p) "https:";
     issuer := None; ssl_expiresAt := None; protocol := None |}.

(** The members of the object literal are evaluated in order: the clock is
    read before [collectCookies] reads the cookie string. *)
Definition collectAllSignals (p : Page) : M PageSignals :=
  let* now := Date_now in
  let* _ := read_document_cookie p in
  ret {| url := location_href p;
         domain := location_hostname p;
         timestamp := now;
         cookies := collectCookies p;
         trackers := detectTrackers p;
         fingerprinting := detectFingerprinting p;
         headers := analyzeHeaders p;
         ssl := checkSSL p |}.

(** What the sender of COLLECT_SIGNALS is answered. *)
Inductive ContentReply :=
| reply_success
| reply_failure (error : string).

(** The COLLECT_SIGNALS case of the listener of the content script: the
    answer, and the bundle sent as SIGNALS_COLLECTED when one is sent.  A
    failure of [chrome.runtime.sendMessage] itself is left out. *)
Definition on_COLLECT_SIGNALS (p : Page) : M (ContentReply * option PageSignals) :=
  try_catch
    (let* signals := collectAllSignals p in
     ret (reply_success, Some signals))
    (fun e => ret (reply_failure e, None)).

(** A page with four cookies, a tag-manager script, an inline analytics
    snippet and a one-pixel image. *)
Definition sample_page : Page :=
  {| location_href := "https://shop.example/cart";
     location_hostname := "shop.example";
     location_protocol := "https:";
     cookie_denied := false;
     document_cookie := "sid=abc; theme=dark;  lang = en ;=x; cart=3";
     script_elements :=
       [ {| script_src := Some "https://www.GoogleTagManager.com/gtm.js?id=G-1";
            script_text := "" |};
         {| script_src := None;
            script_text := "hj('init'); // static.hotjar.com" |};
         {| script_src := Some "/app.js"; script_text := "" |} ];
     image_elements :=
       [ {| img_src := Some "https://www.facebook.com/tr?id=1"; img_width := 1;
            img_naturalWidth := 1; img_height := 1; img_naturalHeight := 1 |};
         {| img_src := Some "https://px.ads.linkedin.com/logo.png";
            img_width := 120; img_naturalWidth := 120; img_height := 40;
            img_naturalHeight := 40 |} ];
     canvas_probe := Some true;
     webgl_probe := Some true;
     csp_meta := true;
     referrer_meta := false |}.

(** One step of the loop of [scan]: the tracker is appended when its pattern
    matches the text and its name is not in the list yet. *)
Definition scan_step (text : string) (det : list string) (tracker : TrackerPattern)
    : list string :=
  if test (tp_pattern tracker) text
     && negb (existsb (String.eqb (tp_name tracker)) det)
  then (det ++ [tp_name tracker])%list else det.

(** Every text [detectTrackers] scans, in the order it scans them. *)
Definition scanned_texts (p : Page) : list string :=
  (script_srcs p ++ inline_texts p ++ pixel_srcs p)%list.


(** ** The explanation text ([src/background/simulation.ts]) *)

(** [parts.join(sep)] *)
Definition join (sep : string) (parts : list string) : string :=
  match parts with
  | [] => EmptyString
  | x :: xs => fold_left (fun acc y => acc +:+ sep +:+ y) xs x
  end.

Definition newline : string := String (ascii_of_nat 10) EmptyString.

Section Explanation.

(** [String(n)] for a number that need not be an integer. *)
Variable Number_toString : Q -> string.

Definition opening (result : AnalysisResult) : string :=
  match verdict result with
  | safe =>
      ar_domain result
      +:+ " demonstrates strong security practices and can be considered trustworthy for most activities."
  | warning =>
      ar_domain result
      +:+ " shows mixed security signals. Exercise caution when sharing sensitive information."
  | danger =>
      ar_domain result
      +:+ " raises several security concerns. We recommend avoiding this site or proceeding with extreme caution."
  end.

Definition tls_sentence (signals : PageSignals) : string :=
  if valid (ssl signals) then
    "The site uses HTTPS with a valid SSL certificate"
    +:+ (if truthy_string (issuer (ssl signals))
         then " issued by " +:+ default EmptyString (issuer (ssl signals))
         else EmptyString)
    +:+ ", ensuring encrypted communication."
  else "⚠️ This site does not use HTTPS, meaning your data could be intercepted. Avoid entering sensitive information.".

Definition summary (result : AnalysisResult) : string :=
  newline +:+ "Overall trust score: " +:+ pretty (trustScore result) +:+ "/100.".

(** The array [parts] when [simulateExplanation] joins it. *)
Definition explanation_parts (result : AnalysisResult) : list string :=
  let signals := ar_signals result in
  let scores := signalScores result in
  ([opening result]
   ++ [tls_sentence signals]
   ++ (if 80 <=? sc_headers scores then
         ["Security headers are well-configured, including "
          +:+ join " and " (firstn 2 (present (headers signals))) +:+ "."]
       else if 0 <? len (missing (headers signals)) then
         ["Some security headers are missing ("
          +:+ join ", " (firstn 2 (missing (headers signals)))
          +:+ "), which could leave users vulnerable to certain attacks."]
       else [])
   ++ (if 0 <? len (detected (trackers signals)) then
         [if 70 <=? sc_trackers scores then
            "Standard analytics tools are present ("
            +:+ join ", " (firstn 2 (detected (trackers signals)))
            +:+ "), which is common for most websites."
          else
            "Multiple tracking scripts detected ("
            +:+ pretty (len (detected (trackers signals)))
            +:+ " total), which may impact your privacy."]
       else [])
   ++ (if Qltb 3 (thirdPartyCount (cookies signals)) then
         [Number_toString (thirdPartyCount (cookies signals))
          +:+ " third-party cookies were detected, suggesting extensive cross-site tracking."]
       else [])
   ++ (match risk (fingerprinting signals) with
       | low => []
       | _ =>
           ["Browser fingerprinting techniques detected ("
            +:+ join ", " (techniques (fingerprinting signals))
            +:+ "), which can be used to track you across websites."]
       end)
   ++ [summary result])%list.

Definition simulateExplanation (result : AnalysisResult) : string :=
  join " " (explanation_parts result).

End Explanation.

(** ** The rest of the service worker ([src/background/index.ts])

    Beside the [World], the worker has the session store, the ANALYSIS_RESULT
    messages it sent, the explanations it started without awaiting them and
    the tabs it opened. *)

Record Worker := {
  world : World;
  currentTabResults : option (gmap Z AnalysisResult);   (* chrome.storage.session *)
  session_fault : nat -> bool;      (* does the n-th session call reject? *)
  session_ops : nat;
  result_messages : list (AnalysisResult * bool);   (* result, fromCache *)
  explanations_started : list AnalysisResult;
  tabs_created : list string
}.

Definition with_world (w : World) (k : Worker) : Worker :=
  {| world := w; currentTabResults := currentTabResults k;
     session_fault := session_fault k; session_ops := session_ops k;
     result_messages := result_messages k;
     explanations_started := explanations_started k;
     tabs_created := tabs_created k |}.

Definition MW (A : Type) : Type := Worker -> Outcome A * Worker.

Definition retW {A} (a : A) : MW A := fun k => (Returned a, k).

Definition bindW {A B} (c : MW A) (f : A -> MW B) : MW B :=
  fun k => match c k with
           | (Returned a, k') => f a k'
           | (Thrown e, k') => (Thrown e, k')
           end.

Notation "'let+' x ':=' c 'in' f" := (bindW c (fun x => f))
  (at level 10, x name, c at level 100, f at level 200).

(** A computation on the world, run inside the worker. *)
Definition liftW {A} (c : M A) : MW A :=
  fun k => let (o, w) := c (world k) in (o, with_world w k).

(** [try { body } finally { cleanup }] *)
Definition try_finally {A} (body : MW A) (cleanup : MW unit) : MW A :=
  fun k => let (o, k1) := body k in
           match cleanup k1 with
           | (Returned _, k2) => (o, k2)
           | (Thrown e, k2) => (Thrown e, k2)
           end.

Definition session_call {A} (f : option (gmap Z AnalysisResult)
                                 -> A * option (gmap Z AnalysisResult)) : MW A :=
  fun k =>
    let k1 := {| world := world k; currentTabResults := currentTabResults k;
                 session_fault := session_fault k;
                 session_ops := S (session_ops k);
                 result_messages := result_messages k;
                 explanations_started := explanations_started k;
                 tabs_created := tabs_created k |} in
    if session_fault k (session_ops k) then (Thrown "session storage error", k1)
    else let (a, s) := f (currentTabResults k) in
         (Returned a,
          {| world := world k; currentTabResults := s;
             session_fault := session_fault k;
             session_ops := S (session_ops k);
             result_messages := result_messages k;
             explanations_started := explanations_started k;
             tabs_created := tabs_created k |}).

Definition get_currentTabResults : MW (option (gmap Z AnalysisResult)) :=
  session_call (fun s => (s, s)).

Definition set_currentTabResults (m : gmap Z AnalysisResult) : MW unit :=
  session_call (fun _ => (tt, Some m)).

(** [chrome.runtime.sendMessage({ type: 'ANALYSIS_RESULT', .. })], whose
    rejection is ignored. *)
Definition send_ANALYSIS_RESULT (r : AnalysisResult) (fromCache : bool) : MW unit :=
  fun k => (Returned tt,
            {| world := world k; currentTabResults := currentTabResults k;
               session_fault := session_fault k; session_ops := session_ops k;
               result_messages := (result_messages k ++ [(r, fromCache)])%list;
               explanations_started := explanations_started k;
               tabs_created := tabs_created k |}).

(** [chrome.tabs.create({ url })]; a rejection of it is left out. *)
Definition tabs_create (u : string) : MW unit :=
  fun k => (Returned tt,
            {| world := world k; currentTabResults := currentTabResults k;
               session_fault := session_fault k; session_ops := session_ops k;
               result_messages := result_messages k;
               explanations_started := explanations_started k;
               tabs_created := (tabs_created k ++ [u])%list |}).

Definition only_pendingAnalyses (n : Z) : PartialStatus :=
  {| p_isAuthenticated := None; p_connectionStatus := None;
     p_pendingAnalyses := Some n; p_offlineQueueSize := None |}.

(** [updateStatus({ pendingAnalyses: extensionStatus.pendingAnalyses + d })] *)
Definition bump_pendingAnalyses (d : Z) : M unit :=
  fun w => updateStatus
             (only_pendingAnalyses (pendingAnalyses (extensionStatus w) + d)) w.

Definition set_settings (s : StoredSettings) : M unit :=
  storage_call (op_set K_settings)
    (fun l => (tt, {| cachedResults := cachedResults l;
                      offlineQueue := offlineQueue l; settings := Some s |})).

Definition complete_explanation (text : string) (now : Z) : ExplanationStatus :=
  {| ex_status := complete; ex_text := Some text; ex_generatedAt := Some now;
     ex_error := None |}.

Definition with_explanation (e : ExplanationStatus) (r : AnalysisResult) : AnalysisResult :=
  {| ar_id := ar_id r; ar_url := ar_url r; ar_domain := ar_domain r;
     trustScore := trustScore r; verdict := verdict r;
     signalScores := signalScores r; ar_signals := ar_signals r;
     analyzedAt := analyzedAt r; explanation := Some e |}.

(** The call of [generateExplanationAsync], up to its first [await]: the
    delay is drawn and the rest is left for later. *)
Definition generateExplanationAsync_start (result : AnalysisResult) : MW unit :=
  let+ _ := liftW Math_random in
  fun k => (Returned tt,
            {| world := world k; currentTabResults := currentTabResults k;
               session_fault := session_fault k; session_ops := session_ops k;
               result_messages := result_messages k;
               explanations_started := (explanations_started k ++ [result])%list;
               tabs_created := tabs_created k |}).

Definition analyzeSignals (signals : PageSignals) (tabId : Z) : MW AnalysisResult :=
  let+ _ := liftW (bump_pendingAnalyses 1) in
  try_finally
    (let+ _ := liftW Math_random in         (* the simulated network delay *)
     let+ result := liftW (simulateAnalysis signals) in
     let+ _ := liftW (setCachedResult (domain signals) result) in
     let+ sessionResults := get_currentTabResults in
     let tabResults := <[tabId := result]> (default ∅ sessionResults) in
     let+ _ := set_currentTabResults tabResults in
     let+ _ := generateExplanationAsync_start result in
     retW result)
    (liftW (bump_pendingAnalyses (-1))).

(** ANALYZE_PAGE, GET_CACHED_RESULT, GET_STATUS, CLEAR_CACHE, OPEN_DASHBOARD
    and any other type, as the listener receives them. *)
Inductive Incoming :=
| ANALYZE_PAGE (tabId : Z) (u : string)
| GET_CACHED_RESULT (d : string)
| GET_STATUS
| CLEAR_CACHE
| OPEN_DASHBOARD
| other_type (type : string).

Inductive Response :=
| analysis_response (r : AnalysisResult) (fromCache : bool)
| cached_response (r : option AnalysisResult)
| status_response (s : ExtensionStatus)
| success_response
| error_message (message : string)
(** [{ result: undefined, fromCache }], which reaches the sender without a
    [result]. *)
| response_without_result (fromCache : bool)
(** ANALYZE_PAGE found nothing cached: the handler goes on to
    [collectSignalsFromTab] and answers when that promise settles. *)
| collecting (tabId : Z) (u : string).

Definition get_status : M ExtensionStatus :=
  fun w => (Returned (extensionStatus w), w).

Section Worker.

Variable Number_toString : Q -> string.
Variable URL_hostname : string -> option string.

(** The rest of [generateExplanationAsync], once the delay is over. *)
Definition generateExplanationAsync_resume (res : AnalysisResult) : MW unit :=
  let text := simulateExplanation Number_toString res in
  let+ cached := liftW (getCachedResult (ar_domain res)) in
  match cached with
  | Some (own_entry c) =>
      let+ now := liftW Date_now in
      let updated := with_explanation (complete_explanation text now) (result c) in
      let+ _ := liftW (setCachedResult (ar_domain res) updated) in
      send_ANALYSIS_RESULT updated true
  | Some (inherited_member _) =>
      (* [cached.result] is [undefined]: the object on the right is built,
         then the assignment to [cached.result.explanation] throws *)
      let+ now := liftW Date_now in
      liftW (throw "TypeError")
  | None => retW tt
  end.

(** [handleAsync], up to the point where ANALYZE_PAGE starts collecting. *)
Definition handleAsync (message : Incoming) : MW Response :=
  match message with
  | ANALYZE_PAGE tabId u =>
      let d := getDomainFromUrl URL_hostname u in
      let+ cached := liftW (getCachedResult d) in
      match cached with
      | Some (own_entry c) => retW (analysis_response (result c) true)
      | Some (inherited_member _) => retW (response_without_result true)
      | None => retW (collecting tabId u)
      end
  | GET_CACHED_RESULT d =>
      let+ cached := liftW (getCachedResult d) in
      retW (cached_response
              match cached with
              | Some (own_entry c) => Some (result c)
              | _ => None
              end)
  | GET_STATUS =>
      let+ s := liftW get_status in retW (status_response s)
  | CLEAR_CACHE =>
      let+ _ := liftW (set_cachedResults ∅) in retW success_response
  | OPEN_DASHBOARD =>
      let+ s := liftW getSettings in
      let+ _ := tabs_create (dashboardUrl s) in
      retW success_response
  | other_type _ => retW (error_message "Unknown message type")
  end.

(** ANALYZE_PAGE once the signals are there. *)
Definition finish_ANALYZE_PAGE (signals : PageSignals) (tabId : Z) : MW Response :=
  let+ r := analyzeSignals signals tabId in
  retW (analysis_response r false).

(** [handleAsync().then(sendResponse).catch(error => sendResponse({ error:
    error.message }))]: what the sender gets. *)
Definition respond (c : MW Response) : MW Response :=
  fun k => match c k with
           | (Returned r, k') => (Returned r, k')
           | (Thrown e, k') => (Returned (error_message e), k')
           end.

End Worker.

Definition settings_of (s : ExtensionSettings) : StoredSettings :=
  {| st_autoAnalyze := Some (autoAnalyze s);
     st_showNotifications := Some (showNotifications s);
     st_cacheExpiration := Some (cacheExpiration s);
     st_darkMode := Some (darkMode s);
     st_dashboardUrl := Some (dashboardUrl s) |}.

(** The [chrome.runtime.onInstalled] listener. *)
Definition onInstalled : M unit :=
  let* existing := get_settings in
  let* _ := (match existing with
             | None => set_settings (settings_of DEFAULT_SETTINGS)
             | Some _ => ret tt
             end) in
  let* cacheResult := get_cachedResults in
  match cacheResult with
  | None => set_cachedResults ∅
  | Some _ => ret tt
  end.

(** ** The popup ([src/popup/App.tsx]): the storage part of [toggleDarkMode] *)

Definition toggleDarkMode (isDarkMode : bool) : M unit :=
  let newMode := negb isDarkMode in
  try_catch
    (let* existing := get_settings in
     let s := default no_settings existing in
     set_settings {| st_autoAnalyze := st_autoAnalyze s;
                     st_showNotifications := st_showNotifications s;
                     st_cacheExpiration := st_cacheExpiration s;
                     st_darkMode := Some (if newMode then dm_dark else dm_light);
                     st_dashboardUrl := st_dashboardUrl s |})
    (fun _ => ret tt).

(** A worker around a world, with working session storage. *)
Definition fresh_worker (w : World) : Worker :=
  {| world := w; currentTabResults := None; session_fault := fun _ => false;
     session_ops := 0; result_messages := []; explanations_started := [];
     tabs_created := [] |}.

(** No call to [chrome.storage.session] rejects. *)
Definition session_reliable (k : Worker) : Prop :=
  forall n, session_fault k n = false.


(** ** Notions about the worker *)

(** [w'] has the oracles, the status and the broadcasts of [w]. *)
Definition same_status (w w' : World) : Prop :=
  oracles w' = oracles w
  /\ extensionStatus w' = extensionStatus w
  /\ broadcasts w' = broadcasts w.

(** A computation that calls neither [updateStatus] nor anything that does. *)
Definition keeps_status {A} (c : M A) : Prop :=
  forall w, same_status w (snd (c w)).

Definition keeps_statusW {A} (c : MW A) : Prop :=
  forall k, same_status (world k) (world (snd (c k))).

Definition with_pendingAnalyses (n : Z) (s : ExtensionStatus) : ExtensionStatus :=
  {| isAuthenticated := isAuthenticated s; connectionStatus := connectionStatus s;
     pendingAnalyses := n; offlineQueueSize := offlineQueueSize s |}.

Definition pending_explanation : ExplanationStatus :=
  {| ex_status := pending; ex_text := None; ex_generatedAt := None;
     ex_error := None |}.

(** A clock that advances one millisecond per reading, a constant random
    source, and storage that rejects the calls picked by [bad]. *)
Definition faulty_oracles (t0 : Z) (r : Q) (bad : nat -> bool) : Oracles :=
  {| clock := fun n => t0 + Z.of_nat n;
     random := fun _ => r;
     storage_fault := bad |}.

Definition world_with_store (o : Oracles) (l : LocalStorage) : World :=
  {| oracles := o; clock_reads := 0; random_reads := 0; storage_log := [];
     local := l; extensionStatus := initialStatus; broadcasts := [] |}.

(** The number of the next call to [chrome.storage.local]. *)
Definition next_storage_call (w : World) : nat := List.length (storage_log w).


(** ** Notions about the cache and the offline queue, continued *)

(** A time value that a [Date] holds. *)
Definition in_Date_range (t : Z) : Prop := Z.abs t <= Date_range.

(** The expiry [setCachedResult] computes when called in [w]: its second
    reading of the clock plus the hours in force. *)
Definition expiry_at (w : World) : Z :=
  clock (oracles w) (S (clock_reads w))
  + cacheExpiration (effective_settings w) * 60 * 60 * 1000.

(** The expiry is a time a [Date] holds, whichever of the next [n] readings
    of the clock it is counted from. *)
Definition expiry_in_range_for (n : nat) (w : World) : Prop :=
  forall i : nat, (i < n)%nat ->
    in_Date_range (clock (oracles w) (clock_reads w + i)
                   + cacheExpiration (effective_settings w) * 60 * 60 * 1000).










(** An entry for the host [constructor] that expired at 10. *)
Definition world_with_constructor_entry (t0 : Z) : World :=
  {| oracles := sample_oracles t0 0; clock_reads := 0; random_reads := 0;
     storage_log := [];
     local := {| cachedResults :=
                   Some {[ "constructor" :=
                             {| result := sample_result; cachedAt := 0;
                                expiresAt := 10 |} ]};
                 offlineQueue := None; settings := None |};
     extensionStatus := initialStatus; broadcasts := [] |}.

(** * Properties *)

(** ** The definitions at work *)

Example Math_round_ties_up :
  Math_round (5 # 2) = 3 /\ Math_round (- (5 # 2)) = -2 /\ Math_round (74 # 10) = 7.
Proof. repeat split. Qed.

Example slice0_samples :
  slice0 COMMON_TRACKERS 2 = ["Google Analytics"; "Facebook Pixel"]
  /\ slice0 ["Canvas"; "WebGL"] 5 = ["Canvas"; "WebGL"]
  /\ slice0 ["Canvas"; "WebGL"] (-1) = ["Canvas"].
Proof. repeat split. Qed.

Example reputation_samples :
  isTrustedDomain "github.com" = true
  /\ isTrustedDomain "mail.google.com" = true
  /\ isTrustedDomain "evilgoogle.com" = false
  /\ isSuspiciousPage "bet.example" "http://bet.example/" = true
  /\ isSuspiciousPage "shop.example" "https://shop.example/FREE" = true
  /\ isSuspiciousPage "shop.example" "https://shop.example/" = false.
Proof. repeat split. Qed.

(** Four cookies of which one counts as third-party: 85 - round(7.5) = 77.
    All four required headers present, one other missing: 80 + 20 - 5 = 95. *)
Example category_score_samples :
  cookieScore
    {| url := ""; domain := ""; timestamp := 0;
       cookies := {| count := 4; thirdPartyCount := 1; cookie_list := [] |};
       trackers := trackers sample_signals;
       fingerprinting := fingerprinting sample_signals;
       headers := headers sample_signals; ssl := ssl sample_signals |} = 77
  /\ Qeq (headerScore
            {| url := ""; domain := ""; timestamp := 0;
               cookies := cookies sample_signals;
               trackers := trackers sample_signals;
               fingerprinting := fingerprinting sample_signals;
               headers := {| present := requiredHeaders;
                             missing := ["Permissions-Policy"]; issues := [] |};
               ssl := ssl sample_signals |}) 95
  /\ trackerScore detected_signals = 85
  /\ fingerprintScore detected_signals = 70.
Proof. repeat split. Qed.

(** The run that [sample_result] records. *)
Example simulateAnalysis_sample :
  returned (simulateAnalysis sample_signals (fresh_world (sample_oracles 1000 0)))
  = Some sample_result.
Proof. vm_compute. reflexivity. Qed.

(** A trusted domain with nothing detected and valid TLS: every score is
    clamped to 100 and the verdict is [safe]. *)
Example simulateAnalysis_trusted_sample :
  (fun r => (trustScore r, verdict r)) <$>
    returned (simulateAnalysis
                {| url := "https://github.com/"; domain := "github.com";
                   timestamp := 0; cookies := cookies sample_signals;
                   trackers := trackers sample_signals;
                   fingerprinting := fingerprinting sample_signals;
                   headers := headers sample_signals;
                   ssl := {| valid := true; issuer := None;
                             ssl_expiresAt := None; protocol := None |} |}
                (fresh_world (sample_oracles 1000 0)))
  = Some (100, safe).
Proof. vm_compute. reflexivity. Qed.

Example generateId_sample :
  returned (generateId (fresh_world (sample_oracles 1700000000000 (1 # 2))))
  = Some "1700000000000-i".
Proof. vm_compute. reflexivity. Qed.

(** ** Rounding and comparison on numbers *)

Lemma Qle_bool_inject (a b : Z) : Qle_bool (inject_Z a) (inject_Z b) = (a <=? b).
Proof. unfold Qle_bool; simpl. now rewrite !Z.mul_1_r. Qed.

Lemma Math_round_bounds (q : Q) (lo hi : Z) :
  (inject_Z lo <= q)%Q -> (q <= inject_Z hi)%Q -> lo <= Math_round q <= hi.
Proof.
  intros Hlo Hhi; unfold Math_round; split.
  - rewrite <- (Qfloor_Z lo). apply Qfloor_resp_le. lra.
  - pose proof (Qfloor_le (q + (1 # 2))) as Hf.
    assert (Hlt : (inject_Z (Qfloor (q + (1 # 2))) < inject_Z (hi + 1))%Q).
    { rewrite inject_Z_plus. change (inject_Z 1) with 1%Q. lra. }
    rewrite <- Zlt_Qlt in Hlt. lia.
Qed.

Lemma Math_round_inject (z : Z) : Math_round (inject_Z z) = z.
Proof.
  pose proof (Math_round_bounds (inject_Z z) z z) as H.
  assert (z <= Math_round (inject_Z z) <= z) by (apply H; lra). lia.
Qed.

(** The idiom [Math.min(100, Math.max(0, n))]. *)
Lemma clamp_range (n : Z) : 0 <= Z.min 100 (Z.max 0 n) <= 100.
Proof. lia. Qed.

Lemma calculateSignalScores_range signals isTrusted isSuspicious :
  let s := calculateSignalScores signals isTrusted isSuspicious in
  in_range (sc_cookies s) /\ in_range (sc_trackers s)
  /\ in_range (sc_fingerprinting s) /\ in_range (sc_headers s)
  /\ in_range (sc_ssl s).
Proof. cbv zeta; unfold calculateSignalScores, in_range; cbn [sc_cookies sc_trackers sc_fingerprinting sc_headers sc_ssl]. repeat split; apply clamp_range. Qed.

Lemma weightedTrustScore_range (s : SignalScores) :
  in_range (sc_cookies s) -> in_range (sc_trackers s) ->
  in_range (sc_fingerprinting s) -> in_range (sc_headers s) ->
  in_range (sc_ssl s) ->
  in_range (weightedTrustScore s).
Proof.
  unfold in_range; intros [c0 c1] [t0 t1] [f0 f1] [h0 h1] [s0 s1].
  rewrite Zle_Qle in c0, c1, t0, t1, f0, f1, h0, h1, s0, s1.
  unfold weightedTrustScore; apply Math_round_bounds;
    change (inject_Z 0) with 0%Q in *; change (inject_Z 100) with 100%Q in *; lra.
Qed.

(** ** The verdict and the colour *)

Lemma getVerdictFromScore_cases (q : Q) :
  (getVerdictFromScore q = safe /\ (70 <= q)%Q)
  \/ (getVerdictFromScore q = warning /\ (40 <= q)%Q /\ (q < 70)%Q)
  \/ (getVerdictFromScore q = danger /\ (q < 40)%Q).
Proof.
  unfold getVerdictFromScore.
  destruct (Qle_bool 70 q) eqn:H70.
  - left; split; [reflexivity | now apply Qle_bool_iff].
  - assert (q < 70)%Q.
    { apply Qnot_le_lt; intro Hc; apply Qle_bool_iff in Hc; congruence. }
    destruct (Qle_bool 40 q) eqn:H40.
    + right; left; repeat split; [now apply Qle_bool_iff | assumption].
    + right; right; split; [reflexivity |].
      apply Qnot_le_lt; intro Hc; apply Qle_bool_iff in Hc; congruence.
Qed.

(** C2. [getVerdictFromScore] is a function of the score alone.  On every
    integer score it answers [safe] exactly
    from 70 up, [warning] exactly from 40 to 69 and [danger] exactly below 40;
    it is monotone in the score (danger < warning < safe); and the four
    boundary values 70, 69, 40, 39 give safe, warning, warning, danger. *)
Theorem getVerdictFromScore_step :
  (forall score : Z,
      (getVerdictFromScore (inject_Z score) = safe <-> 70 <= score)
      /\ (getVerdictFromScore (inject_Z score) = warning <-> 40 <= score < 70)
      /\ (getVerdictFromScore (inject_Z score) = danger <-> score < 40))
  /\ (forall a b : Z,
         a <= b ->
         verdict_rank (getVerdictFromScore (inject_Z a))
         <= verdict_rank (getVerdictFromScore (inject_Z b)))
  /\ getVerdictFromScore 70 = safe
  /\ getVerdictFromScore 69 = warning
  /\ getVerdictFromScore 40 = warning
  /\ getVerdictFromScore 39 = danger.
Proof.
  assert (E : forall z : Z,
             getVerdictFromScore (inject_Z z)
             = if 70 <=? z then safe else if 40 <=? z then warning else danger).
  { intro z; unfold getVerdictFromScore.
    change 70%Q with (inject_Z 70); change 40%Q with (inject_Z 40).
    now rewrite !Qle_bool_inject. }
  split; [| split; [| repeat split]].
  - intro score; rewrite E.
    destruct (Z.leb_spec 70 score); destruct (Z.leb_spec 40 score);
      repeat split; intros; try discriminate; try reflexivity; lia.
  - intros a b Hab; rewrite !E.
    destruct (Z.leb_spec 70 a); destruct (Z.leb_spec 40 a);
      destruct (Z.leb_spec 70 b); destruct (Z.leb_spec 40 b);
      simpl; lia.
Qed.

Lemma getVerdictFromScore_step_witness :
  verdict_rank (getVerdictFromScore (inject_Z 39))
  <= verdict_rank (getVerdictFromScore (inject_Z 70)).
Proof.
  apply (proj1 (proj2 getVerdictFromScore_step) 39 70). lia.
Defined.

(** C10. For every score, the label of [getScoreColor] is ["Safe"] exactly
    when [getVerdictFromScore] answers [safe], ["Caution"] exactly when it
    answers [warning], and ["Risk"] exactly when it answers [danger]. *)
Theorem getScoreColor_agrees_with_verdict (score : Q) :
  (label (getScoreColor score) = "Safe" <-> getVerdictFromScore score = safe)
  /\ (label (getScoreColor score) = "Caution"
      <-> getVerdictFromScore score = warning)
  /\ (label (getScoreColor score) = "Risk"
      <-> getVerdictFromScore score = danger).
Proof.
  unfold getScoreColor, getVerdictFromScore.
  destruct (Qle_bool 70 score); [| destruct (Qle_bool 40 score)];
    cbn [label]; repeat split; intros; try reflexivity; discriminate.
Qed.

(** ** Category scores *)

Lemma sslScore_valid (signals : PageSignals) :
  sslScore signals = if valid (ssl signals) then 100 else 30.
Proof.
  unfold sslScore.
  destruct (valid (ssl signals)); cbn [andb]; [| reflexivity].
  destruct (truthy_string (issuer (ssl signals))); [| reflexivity].
  now destruct (existsb _ trustedCAs).
Qed.

(** C9. The ssl score of [calculateSignalScores] is 100 when
    [signals.ssl.valid] holds and 30 when it does not, whatever the issuer
    and whatever the reputation flags: no multiplier reaches it. *)
Theorem ssl_score_is_100_or_30 (signals : PageSignals) (isTrusted isSuspicious : bool) :
  sc_ssl (calculateSignalScores signals isTrusted isSuspicious)
  = if valid (ssl signals) then 100 else 30.
Proof.
  unfold calculateSignalScores; cbn [sc_ssl].
  rewrite Math_round_inject, sslScore_valid.
  now destruct (valid (ssl signals)).
Qed.

(** ** The simulated analysis *)

Ltac run_monad :=
  unfold bind, ret, try_catch, Math_random, Date_now; cbn beta iota.

(** [enhanceSignals] always returns; it keeps the cookies and the validity
    of the certificate. *)
Lemma enhanceSignals_returns (signals : PageSignals) (isTrusted : bool) (w : World) :
  exists e w',
    enhanceSignals signals isTrusted w = (Returned e, w')
    /\ cookies e = cookies signals
    /\ valid (ssl e) = valid (ssl signals).
Proof.
  unfold enhanceSignals; run_monad.
  destruct (len (detected (trackers signals)) =? 0);
    destruct (len (techniques (fingerprinting signals)) =? 0);
    destruct isTrusted;
    destruct (valid (ssl signals) && negb (truthy_string (issuer (ssl signals))))
             eqn:Hssl;
    cbn; eexists _, _; (split; [reflexivity |]); cbn; split; try reflexivity.
  all: try (apply andb_prop in Hssl; destruct Hssl as [-> _]; reflexivity).
Qed.

(** Two runs of [enhanceSignals] on one bundle differ only where a random
    number was drawn. *)
Lemma enhanceSignals_two_runs (signals : PageSignals) (isTrusted : bool)
    (w1 w2 w1' w2' : World) (e1 e2 : PageSignals) :
  enhanceSignals signals isTrusted w1 = (Returned e1, w1') ->
  enhanceSignals signals isTrusted w2 = (Returned e2, w2') ->
  cookies e1 = cookies e2
  /\ headers e1 = headers e2
  /\ valid (ssl e1) = valid (ssl e2)
  /\ ((len (detected (trackers signals)) =? 0) = false ->
      trackers e1 = trackers e2)
  /\ ((len (techniques (fingerprinting signals)) =? 0) && negb isTrusted = false ->
      fingerprinting e1 = fingerprinting e2).
Proof.
  unfold enhanceSignals; run_monad.
  destruct (len (detected (trackers signals)) =? 0) eqn:Ht;
    destruct (len (techniques (fingerprinting signals)) =? 0) eqn:Hf;
    destruct isTrusted;
    destruct (valid (ssl signals) && negb (truthy_string (issuer (ssl signals))));
    cbn; intros H1 H2; inversion H1; inversion H2; subst; cbn;
    repeat split; try reflexivity; intros; discriminate.
Qed.

(** The scores read the bundle only through these five components. *)
Lemma calculateSignalScores_ext (e1 e2 : PageSignals) (t s : bool) :
  cookies e1 = cookies e2 -> trackers e1 = trackers e2 ->
  fingerprinting e1 = fingerprinting e2 -> headers e1 = headers e2 ->
  valid (ssl e1) = valid (ssl e2) ->
  calculateSignalScores e1 t s = calculateSignalScores e2 t s.
Proof.
  intros Hc Ht Hf Hh Hv.
  unfold calculateSignalScores, cookieScore, trackerScore, fingerprintScore,
    headerScore.
  now rewrite !sslScore_valid, Hc, Ht, Hf, Hh, Hv.
Qed.

(** What [simulateAnalysis] returns: it never throws, and its scores, trust
    score and verdict are those of the enhanced bundle. *)
Lemma simulateAnalysis_returns (signals : PageSignals) (w : World) :
  exists r w' e we,
    simulateAnalysis signals w = (Returned r, w')
    /\ enhanceSignals signals (isTrustedDomain (toLowerCase (domain signals))) w
       = (Returned e, we)
    /\ signalScores r
       = calculateSignalScores e
           (isTrustedDomain (toLowerCase (domain signals)))
           (isSuspiciousPage (toLowerCase (domain signals)) (url signals))
    /\ trustScore r = weightedTrustScore (signalScores r)
    /\ verdict r = getVerdictFromScore (inject_Z (trustScore r)).
Proof.
  destruct (enhanceSignals_returns signals
              (isTrustedDomain (toLowerCase (domain signals))) w)
    as (e & we & He & _ & _).
  unfold simulateAnalysis, generateId; run_monad. rewrite He. cbn.
  eexists _, _, e, we. repeat split.
Qed.

(** C1. Whatever the bundle and the reputation flags, the five scores of
    [calculateSignalScores] are integers between 0 and 100; and
    [simulateAnalysis] returns, on every bundle and in every environment, a
    result whose five scores and whose [trustScore] are integers between 0
    and 100. *)
Theorem scores_within_0_100 (signals : PageSignals) :
  (forall isTrusted isSuspicious : bool,
      let s := calculateSignalScores signals isTrusted isSuspicious in
      in_range (sc_cookies s) /\ in_range (sc_trackers s)
      /\ in_range (sc_fingerprinting s) /\ in_range (sc_headers s)
      /\ in_range (sc_ssl s)
      /\ in_range (weightedTrustScore s))
  /\ (forall w : World,
         exists r w',
           simulateAnalysis signals w = (Returned r, w')
           /\ in_range (sc_cookies (signalScores r))
           /\ in_range (sc_trackers (signalScores r))
           /\ in_range (sc_fingerprinting (signalScores r))
           /\ in_range (sc_headers (signalScores r))
           /\ in_range (sc_ssl (signalScores r))
           /\ in_range (trustScore r)).
Proof.
  split.
  - intros t s; cbv zeta.
    destruct (calculateSignalScores_range signals t s) as (Hc & Ht & Hf & Hh & Hs).
    repeat split; try apply Hc; try apply Ht; try apply Hf; try apply Hh;
      try apply Hs; now apply weightedTrustScore_range.
  - intro w.
    destruct (simulateAnalysis_returns signals w)
      as (r & w' & e & we & Hr & _ & Hsc & Hts & _).
    exists r, w'. split; [exact Hr |].
    rewrite Hts, Hsc.
    destruct (calculateSignalScores_range e
                (isTrustedDomain (toLowerCase (domain signals)))
                (isSuspiciousPage (toLowerCase (domain signals)) (url signals)))
      as (Hc & Ht & Hf & Hh & Hs).
    repeat split; try apply Hc; try apply Ht; try apply Hf; try apply Hh;
      try apply Hs; now apply weightedTrustScore_range.
Qed.

Lemma simulateAnalysis_depends_on_random_draws :
  let w1 := fresh_world (sample_oracles 1000 0) in
  let w2 := fresh_world (sample_oracles 1000 (9 # 10)) in
  exists r1 r2,
    returned (simulateAnalysis sample_signals w1) = Some r1
    /\ returned (simulateAnalysis sample_signals w2) = Some r2
    /\ sc_trackers (signalScores r1) = 48
    /\ sc_trackers (signalScores r2) = 36
    /\ sc_fingerprinting (signalScores r1) = 42
    /\ sc_fingerprinting (signalScores r2) = 27
    /\ trustScore r1 = 40 /\ trustScore r2 = 36
    /\ verdict r1 = warning /\ verdict r2 = danger.
Proof.
  cbv zeta. eexists _, _.
  split; [vm_compute; reflexivity |].
  split; [vm_compute; reflexivity |].
  vm_compute. repeat split.
Qed.

(** C3, as the code has it.  When the bundle lists a detected tracker, and
    either lists a fingerprinting technique or belongs to a trusted domain,
    no value of [Math.random] reaches the scores: in any two environments
    [simulateAnalysis] returns results with equal [signalScores], equal
    [trustScore] and equal [verdict]. *)
Theorem simulateAnalysis_deterministic_without_backfill
    (signals : PageSignals) (w1 w2 : World) :
  (len (detected (trackers signals)) =? 0) = false ->
  (len (techniques (fingerprinting signals)) =? 0)
  && negb (isTrustedDomain (toLowerCase (domain signals))) = false ->
  exists r1 r2 w1' w2',
    simulateAnalysis signals w1 = (Returned r1, w1')
    /\ simulateAnalysis signals w2 = (Returned r2, w2')
    /\ signalScores r1 = signalScores r2
    /\ trustScore r1 = trustScore r2
    /\ verdict r1 = verdict r2.
Proof.
  intros Ht Hf.
  destruct (simulateAnalysis_returns signals w1)
    as (r1 & w1' & e1 & we1 & Hr1 & He1 & Hs1 & Hts1 & Hv1).
  destruct (simulateAnalysis_returns signals w2)
    as (r2 & w2' & e2 & we2 & Hr2 & He2 & Hs2 & Hts2 & Hv2).
  destruct (enhanceSignals_two_runs _ _ _ _ _ _ _ _ He1 He2)
    as (Hc & Hh & Hv & Htr & Hfp).
  assert (Hs : signalScores r1 = signalScores r2).
  { rewrite Hs1, Hs2. apply calculateSignalScores_ext; auto. }
  exists r1, r2, w1', w2'. repeat split; try assumption.
  - now rewrite Hts1, Hts2, Hs.
  - now rewrite Hv1, Hv2, Hts1, Hts2, Hs.
Qed.

Lemma simulateAnalysis_deterministic_without_backfill_witness :
  exists r1 r2 w1' w2',
    simulateAnalysis detected_signals (fresh_world (sample_oracles 1000 0))
    = (Returned r1, w1')
    /\ simulateAnalysis detected_signals
         (fresh_world (sample_oracles 2000 (9 # 10)))
       = (Returned r2, w2')
    /\ signalScores r1 = signalScores r2
    /\ trustScore r1 = trustScore r2
    /\ verdict r1 = verdict r2.
Proof.
  apply (simulateAnalysis_deterministic_without_backfill detected_signals
           (fresh_world (sample_oracles 1000 0))
           (fresh_world (sample_oracles 2000 (9 # 10))));
    reflexivity.
Defined.

(** ** The result cache *)

#[local] Arguments inherited_key : simpl never.
#[local] Arguments js_assign : simpl never.
#[local] Arguments toISOString : simpl never.

Ltac run_storage H :=
  unfold getCachedResult, setCachedResult, addToOfflineQueue,
    removeFromOfflineQueue, getSettings, getOfflineQueue, updateStatus,
    get_cachedResults, set_cachedResults, get_offlineQueue, set_offlineQueue,
    get_settings, storage_call, try_catch, bind, ret, Date_now, Math_random;
  repeat (first [ progress cbn | rewrite H ]).

Lemma later_world_reliable w reads ops l :
  storage_reliable w -> storage_reliable (later_world w reads ops l).
Proof. intros H n; apply H. Qed.

Lemma js_assign_insert {A} (key : string) (v : A) (obj : gmap string A) :
  key <> "__proto__" \/ is_Some (obj !! key) ->
  js_assign key v obj = <[key := v]> obj.
Proof.
  intros H. unfold js_assign.
  destruct (String.eqb_spec key "__proto__") as [E | E]; [| reflexivity].
  destruct H as [H | H]; [contradiction |].
  now rewrite bool_decide_eq_true_2.
Qed.


(** No own entry under a name that [Object.prototype] does not have: one
    read of the store, nothing else. *)
Lemma getCachedResult_absent (d : string) (w : World) :
  storage_reliable w ->
  cache_lookup d w = None ->
  inherited_key d = false ->
  getCachedResult d w
  = (Returned None, later_world w 0 [op_get K_cachedResults] (local w)).
Proof.
  intros H Hl Hi. unfold cache_lookup in Hl. run_storage H.
  unfold later_world; rewrite Nat.add_0_r.
  destruct (cachedResults (local w)) as [cached|]; [rewrite Hl, Hi |]; reflexivity.
Qed.

(** No own entry under a name that [Object.prototype] has, in a store that
    holds a cache: the inherited member comes back, after one read of the
    store and one of the clock. *)
Lemma getCachedResult_inherited (d : string) (w : World)
    (cached : gmap string CachedAnalysis) :
  storage_reliable w ->
  cachedResults (local w) = Some cached ->
  cached !! d = None ->
  inherited_key d = true ->
  getCachedResult d w
  = (Returned (Some (inherited_member d)),
     later_world w 1 [op_get K_cachedResults] (local w)).
Proof.
  intros H Hc Hl Hi. run_storage H. rewrite Hc, Hl, Hi; cbn.
  unfold later_world; rewrite Nat.add_1_r. reflexivity.
Qed.

(** An entry that has not expired: one read of the store, one of the clock. *)
Lemma getCachedResult_live (d : string) (w : World) (entry : CachedAnalysis) :
  storage_reliable w ->
  cache_lookup d w = Some entry ->
  clock (oracles w) (clock_reads w) <= expiresAt entry ->
  getCachedResult d w
  = (Returned (Some (own_entry entry)),
     later_world w 1 [op_get K_cachedResults] (local w)).
Proof.
  intros H Hl Hle. unfold cache_lookup in Hl. run_storage H.
  destruct (cachedResults (local w)) as [cached|]; [| discriminate].
  rewrite Hl; cbn.
  assert (Hb : (expiresAt entry <? clock (oracles w) (clock_reads w)) = false)
    by (apply Z.ltb_ge; lia).
  rewrite Hb. unfold later_world; rewrite Nat.add_1_r. reflexivity.
Qed.

(** An expired entry: the store is read, the clock is read, and the map
    without the entry is written back. *)
Lemma getCachedResult_expired (d : string) (w : World)
    (cached : gmap string CachedAnalysis) (entry : CachedAnalysis) :
  storage_reliable w ->
  cachedResults (local w) = Some cached ->
  cached !! d = Some entry ->
  expiresAt entry < clock (oracles w) (clock_reads w) ->
  getCachedResult d w
  = (Returned None,
     later_world w 1 [op_get K_cachedResults; op_set K_cachedResults]
       (store_with_cache (delete d cached) (local w))).
Proof.
  intros H Hc Hl Hlt. run_storage H. rewrite Hc, Hl; cbn.
  apply Z.ltb_lt in Hlt; rewrite Hlt; cbn. rewrite H; cbn.
  unfold later_world; rewrite Nat.add_1_r, <- app_assoc. reflexivity.
Qed.

(** [setCachedResult] reads the settings and the map, reads the clock twice
    and, when the expiry is a time a [Date] holds, writes the map after the
    assignment of the new entry to the domain. *)
Lemma setCachedResult_writes (d : string) (res : AnalysisResult) (w : World) :
  storage_reliable w ->
  in_Date_range (expiry_at w) ->
  setCachedResult d res w
  = (Returned tt,
     later_world w 2
       [op_get K_settings; op_get K_cachedResults; op_set K_cachedResults]
       (store_with_cache
          (js_assign d
             (new_entry res (cacheExpiration (effective_settings w))
                (clock (oracles w) (clock_reads w))
                (clock (oracles w) (S (clock_reads w))))
             (default ∅ (cachedResults (local w))))
          (local w))).
Proof.
  intros H Hin.
  run_storage H. unfold toISOString.
  match goal with
  | |- context [Z.abs ?t <=? Date_range] =>
      replace (Z.abs t <=? Date_range) with true
        by (symmetry; apply Z.leb_le; exact Hin)
  end.
  run_storage H.
  unfold later_world, store_with_cache, new_entry, effective_settings.
  rewrite <- !app_assoc. cbn.
  replace (clock_reads w + 2)%nat with (S (S (clock_reads w))) by lia.
  reflexivity.
Qed.

(** When the expiry is out of range, [toISOString] throws, the [catch] of
    [setCachedResult] swallows the error, and nothing is written. *)
Lemma setCachedResult_out_of_range (d : string) (res : AnalysisResult) (w : World) :
  storage_reliable w ->
  ~ in_Date_range (expiry_at w) ->
  setCachedResult d res w
  = (Returned tt,
     later_world w 2 [op_get K_settings; op_get K_cachedResults] (local w)).
Proof.
  intros H Hout.
  run_storage H. unfold toISOString.
  match goal with
  | |- context [Z.abs ?t <=? Date_range] =>
      replace (Z.abs t <=? Date_range) with false
        by (symmetry; apply Z.leb_nle; exact Hout)
  end.
  unfold throw, later_world. rewrite <- !app_assoc. cbn.
  replace (clock_reads w + 2)%nat with (S (S (clock_reads w))) by lia.
  reflexivity.
Qed.

(** An empty cache read for the host [constructor] gives the inherited
    member, a store without a cache gives null; the assignment to
    [__proto__] adds no entry; with 2.4e12 hours stored as [cacheExpiration]
    the expiry is no time a [Date] holds and nothing is written. *)
Example cache_samples :
  returned (getCachedResult "constructor"
              (world_with_store (sample_oracles 1000 0)
                 {| cachedResults := Some ∅; offlineQueue := None;
                    settings := None |}))
  = Some (Some (inherited_member "constructor"))
  /\ returned (getCachedResult "constructor" (fresh_world (sample_oracles 1000 0)))
     = Some None
  /\ cachedResults
       (local (world_after (setCachedResult "__proto__" sample_result
                              (fresh_world (sample_oracles 1000 0)))))
     = Some ∅
  /\ cachedResults
       (local (world_after
                 (setCachedResult "bet.example" sample_result
                    (world_with_store (sample_oracles 1000 0)
                       {| cachedResults := None; offlineQueue := None;
                          settings :=
                            Some {| st_autoAnalyze := None;
                                    st_showNotifications := None;
                                    st_cacheExpiration := Some 2400000000000;
                                    st_darkMode := None;
                                    st_dashboardUrl := None |} |}))))
     = None.
Proof. repeat split; vm_compute; reflexivity. Qed.

(** The claim that the span of a cache entry is the time-to-live, at a
    concrete run: with the default 24 hours and a clock that advances by one
    millisecond between the two readings [setCachedResult] takes, the entry
    read back right away spans 24 hours and one millisecond. *)
Lemma cache_entry_span_is_not_the_ttl :
  exists entry,
    returned ((let* _ := setCachedResult "bet.example" sample_result in
               getCachedResult "bet.example")
                (fresh_world (sample_oracles 1000 0)))
    = Some (Some (own_entry entry))
    /\ result entry = sample_result
    /\ cachedAt entry = 1000
    /\ expiresAt entry = 1001 + 24 * 60 * 60 * 1000
    /\ expiresAt entry - cachedAt entry <> 24 * 60 * 60 * 1000.
Proof.
  eexists. split; [vm_compute; reflexivity |].
  cbn. repeat split; discriminate.
Qed.

(** C4, as the code has it.  For a domain other than [__proto__], when
    storage works and the expiry is a time a [Date] holds, [getCachedResult]
    after [setCachedResult], made before the entry expires, returns an entry
    holding the stored result, stamped with the first clock reading, and
    whose [expiresAt] minus [cachedAt] is the time-to-live in hours plus what
    the clock advanced between the two readings [setCachedResult] takes.  A
    second [setCachedResult] for the same domain replaces the entry: the map
    then holds the later result under the domain and has the same keys as
    after the first. *)
Theorem cache_round_trip_and_overwrite (d : string) (res : AnalysisResult) (w : World) :
  storage_reliable w ->
  d <> "__proto__" ->
  in_Date_range (expiry_at w) ->
  let ttl := cacheExpiration (effective_settings w) in
  let t_cached := clock (oracles w) (clock_reads w) in
  let t_now := clock (oracles w) (S (clock_reads w)) in
  let t_read := clock (oracles w) (S (S (clock_reads w))) in
  let w1 := world_after (setCachedResult d res w) in
  (t_read <= t_now + ttl * 60 * 60 * 1000 ->
   exists entry,
     returned (getCachedResult d w1) = Some (Some (own_entry entry))
     /\ result entry = res
     /\ cachedAt entry = t_cached
     /\ expiresAt entry - cachedAt entry
        = ttl * 60 * 60 * 1000 + (t_now - t_cached))
  /\ (forall res2 : AnalysisResult,
         in_Date_range (expiry_at w1) ->
         let w2 := world_after (setCachedResult d res2 w1) in
         exists cached1 cached2 entry2,
           cachedResults (local w1) = Some cached1
           /\ cachedResults (local w2) = Some cached2
           /\ cached2 !! d = Some entry2
           /\ result entry2 = res2
           /\ dom cached2 = dom cached1
           /\ size cached2 = size cached1
           /\ (forall d', d' <> d -> cached2 !! d' = cached1 !! d')).
Proof.
  intros H Hd Hin; cbv zeta.
  rewrite (setCachedResult_writes d res w H Hin); unfold world_after; cbn [snd].
  rewrite js_assign_insert by now left.
  set (e1 := new_entry res _ _ _).
  set (l1 := store_with_cache _ _).
  set (w1 := later_world w 2 _ l1).
  assert (H1 : storage_reliable w1) by now apply later_world_reliable.
  split.
  - intros Hread. exists e1.
    rewrite (getCachedResult_live d w1 e1 H1).
    + repeat split. subst e1; cbn. lia.
    + unfold cache_lookup; cbn. apply lookup_insert_eq.
    + subst w1 e1; cbn.
      replace (clock_reads w + 2)%nat with (S (S (clock_reads w))) by lia.
      exact Hread.
  - intros res2 Hin2.
    rewrite (setCachedResult_writes d res2 w1 H1 Hin2); cbn [snd].
    rewrite js_assign_insert by now left.
    subst w1 l1; cbn.
    eexists _, _, _. split; [reflexivity |]. split; [reflexivity |].
    rewrite insert_insert_eq.
    split; [apply lookup_insert_eq |]. split; [reflexivity |].
    split; [| split].
    + now rewrite !dom_insert_L.
    + now rewrite !map_size_insert.
    + intros d' Hne. now rewrite !lookup_insert_ne by congruence.
Qed.

Lemma cache_round_trip_and_overwrite_witness :
  exists entry,
    returned (getCachedResult "bet.example"
                (world_after (setCachedResult "bet.example" sample_result
                                (fresh_world (sample_oracles 1000 0)))))
    = Some (Some (own_entry entry))
    /\ result entry = sample_result
    /\ cachedAt entry = 1000
    /\ expiresAt entry - cachedAt entry = 24 * 60 * 60 * 1000 + (1001 - 1000).
Proof.
  apply (proj1 (cache_round_trip_and_overwrite "bet.example" sample_result
                  (fresh_world (sample_oracles 1000 0))
                  (fun n => eq_refl) ltac:(discriminate)
                  ltac:(vm_compute; discriminate))).
  vm_compute. discriminate.
Defined.

(** C5, at every domain.  When storage works and the entry cached for a
    domain has an [expiresAt] earlier than the clock, [getCachedResult]
    returns null and writes the map without that entry back to the store.
    A second [getCachedResult] for the domain leaves the store as it is and
    only reads it; it returns null again, unless the domain is the name of a
    member of [Object.prototype], such as [constructor]: then
    [cached[domain]] finds that member and the call returns it. *)
Theorem eviction_then_lookup (d : string) (w : World)
    (cached : gmap string CachedAnalysis) (entry : CachedAnalysis) :
  storage_reliable w ->
  cachedResults (local w) = Some cached ->
  cached !! d = Some entry ->
  expiresAt entry < clock (oracles w) (clock_reads w) ->
  let w1 := world_after (getCachedResult d w) in
  let w2 := world_after (getCachedResult d w1) in
  returned (getCachedResult d w) = Some None
  /\ cachedResults (local w1) = Some (delete d cached)
  /\ storage_log w1
     = (storage_log w ++ [op_get K_cachedResults; op_set K_cachedResults])%list
  /\ returned (getCachedResult d w1)
     = Some (if inherited_key d then Some (inherited_member d) else None)
  /\ local w2 = local w1
  /\ storage_log w2 = (storage_log w1 ++ [op_get K_cachedResults])%list.
Proof.
  intros H Hc Hl Hlt; cbv zeta.
  rewrite (getCachedResult_expired d w cached entry H Hc Hl Hlt).
  unfold world_after; cbn [snd].
  set (w1 := later_world w 1 _ _).
  assert (H1 : storage_reliable w1) by now apply later_world_reliable.
  destruct (inherited_key d) eqn:Hi.
  - rewrite (getCachedResult_inherited d w1 (delete d cached) H1);
      [repeat split | reflexivity | apply lookup_delete_eq | exact Hi].
  - rewrite (getCachedResult_absent d w1 H1);
      [repeat split | | exact Hi].
    unfold cache_lookup; cbn. apply lookup_delete_eq.
Qed.

(** The host [constructor]: the entry is evicted, and the next lookup
    returns [Object.prototype.constructor] instead of null. *)
Lemma eviction_then_lookup_witness :
  returned (getCachedResult "constructor" (world_with_constructor_entry 1000))
  = Some None
  /\ returned (getCachedResult "constructor"
                 (world_after (getCachedResult "constructor"
                                 (world_with_constructor_entry 1000))))
     = Some (Some (inherited_member "constructor")).
Proof.
  pose proof (eviction_then_lookup "constructor" (world_with_constructor_entry 1000)
                {[ "constructor" := {| result := sample_result; cachedAt := 0;
                                       expiresAt := 10 |} ]}
                {| result := sample_result; cachedAt := 0; expiresAt := 10 |}
                (fun n => eq_refl) eq_refl eq_refl eq_refl) as (H1 & _ & _ & H4 & _).
  exact (conj H1 H4).
Defined.

(** ** The offline queue *)



#[local] Arguments generateId : simpl never.

Lemma generateId_eq (w : World) :
  generateId w
  = (Returned (generated_id w),
     with_random_reads (S (random_reads w))
       (with_clock_reads (S (clock_reads w)) w)).
Proof. reflexivity. Qed.

(** *** Ids generated at different times differ *)




(** *** One operation *)



(** *** Runs of operations *)











(** ** Signal collection *)

Lemma lookup_on_request_ne (f : Request -> Request) (i j : nat) (c : Coordinator) :
  i <> j -> requests (on_request f i c) !! j = requests c !! j.
Proof. intros Hne. unfold on_request; cbn. now apply list_lookup_alter_ne. Qed.

Lemma lookup_on_request_eq (f : Request -> Request) (i : nat) (c : Coordinator) :
  requests (on_request f i c) !! i = f <$> requests c !! i.
Proof. unfold on_request; cbn. apply list_lookup_alter_eq. Qed.

Section CollectionFacts.

Variable URL_hostname : string -> option string.

(** SIGNALS_COLLECTED with no resolver registered for the sender's tab, or
    from a sender without a tab, changes nothing. *)
Lemma on_SIGNALS_COLLECTED_no_waiter (sender_tab : option Z)
    (signals : PageSignals) (c : Coordinator) :
  (forall t, sender_tab = Some t -> pendingSignalCollections c !! t = None) ->
  on_SIGNALS_COLLECTED sender_tab signals c = c.
Proof.
  intros H. unfold on_SIGNALS_COLLECTED.
  destruct sender_tab as [t|]; [| reflexivity].
  rewrite (H t eq_refl). now destruct (negb (t =? 0)).
Qed.

(** SIGNALS_COLLECTED from a tab with a registered resolver calls it once
    with the signals of the message and removes it: a second message from
    that tab changes nothing. *)
Lemma on_SIGNALS_COLLECTED_resolves (t : Z) (i : nat) (r : Request)
    (signals later : PageSignals) (c : Coordinator) :
  t <> 0 ->
  pendingSignalCollections c !! t = Some i ->
  requests c !! i = Some r ->
  rq_state r = Pending ->
  let c' := on_SIGNALS_COLLECTED (Some t) signals c in
  state_of i c' = Some (Fulfilled signals)
  /\ resolve_calls i c' = Some (S (rq_resolved r))
  /\ pendingSignalCollections c' !! t = None
  /\ on_SIGNALS_COLLECTED (Some t) later c' = c'.
Proof.
  intros Ht Hp Hr Hs; cbv zeta.
  assert (Hb : negb (t =? 0) = true)
    by (apply negb_true_iff, Z.eqb_neq; exact Ht).
  assert (E : on_SIGNALS_COLLECTED (Some t) signals c
              = pending_delete t (resolve i signals c)).
  { unfold on_SIGNALS_COLLECTED. now rewrite Hb, Hp. }
  rewrite E. repeat split.
  - unfold state_of, pending_delete, resolve; cbn.
    rewrite list_lookup_alter_eq, Hr; cbn. now rewrite Hs.
  - unfold resolve_calls, pending_delete, resolve; cbn.
    now rewrite list_lookup_alter_eq, Hr.
  - apply lookup_delete_eq.
  - apply on_SIGNALS_COLLECTED_no_waiter.
    intros t' [= <-]. apply lookup_delete_eq.
Qed.

Lemma stranded_step (i : nat) (ev : Event) (c : Coordinator) :
  stranded i c -> stranded i (step URL_hostname ev c).
Proof.
  intros [(r & Hr & Hs & Ht & Hd) Hp].
  assert (Hlt : (i < List.length (requests c))%nat)
    by (eapply lookup_lt_Some; exact Hr).
  destruct ev as [tabId u | j | j | j e | j | j e | sender signals | j now]; cbn.
  - (* Collect *)
    split; cbn.
    + exists r. rewrite lookup_app_l by exact Hlt. auto.
    + intros t Hin. destruct (decide (tabId = t)) as [-> | Hne].
      * rewrite lookup_insert_eq in Hin. injection Hin as Hin. lia.
      * rewrite lookup_insert_ne in Hin by exact Hne. now apply (Hp t).
  - (* SendResolved *)
    destruct (requests c !! j) as [rj|] eqn:Hj; [| now split; eauto].
    destruct (decide (j = i)) as [-> | Hne].
    + assert (rj = r) by congruence; subst rj.
      unfold on_send; rewrite Hd. now split; eauto.
    + unfold on_send; destruct (rq_send rj); try (now split; eauto);
        (split; [exists r; rewrite lookup_on_request_ne by exact Hne; auto
                | exact Hp]).
  - (* SendRejected *)
    destruct (requests c !! j) as [rj|] eqn:Hj; [| now split; eauto].
    destruct (decide (j = i)) as [-> | Hne].
    + assert (rj = r) by congruence; subst rj.
      unfold on_send; rewrite Hd. now split; eauto.
    + unfold on_send; destruct (rq_send rj); try (now split; eauto);
        (split; [exists r; rewrite lookup_on_request_ne by exact Hne; auto
                | exact Hp]).
  - (* InjectFailed *)
    destruct (requests c !! j) as [rj|] eqn:Hj; [| now split; eauto].
    destruct (decide (j = i)) as [-> | Hne].
    + assert (rj = r) by congruence; subst rj.
      unfold on_send; rewrite Hd. now split; eauto.
    + unfold on_send; destruct (rq_send rj); try (now split; eauto).
      split.
      * exists r. unfold reject. rewrite lookup_on_request_ne by exact Hne.
        unfold pending_delete; cbn [requests].
        rewrite lookup_on_request_ne by exact Hne. auto.
      * intros t Hin. cbn in Hin.
        apply lookup_delete_Some in Hin as [_ Hin]. now apply (Hp t).
  - (* InjectOk *)
    destruct (requests c !! j) as [rj|] eqn:Hj; [| now split; eauto].
    destruct (decide (j = i)) as [-> | Hne].
    + assert (rj = r) by congruence; subst rj.
      unfold on_send; rewrite Hd. now split; eauto.
    + unfold on_send; destruct (rq_send rj); try (now split; eauto);
        (split; [exists r; rewrite lookup_on_request_ne by exact Hne; auto
                | exact Hp]).
  - (* RetryRejected *)
    destruct (requests c !! j) as [rj|] eqn:Hj; [| now split; eauto].
    destruct (decide (j = i)) as [-> | Hne].
    + assert (rj = r) by congruence; subst rj.
      unfold on_send; rewrite Hd. now split; eauto.
    + unfold on_send; destruct (rq_send rj); try (now split; eauto).
      split; [| exact Hp].
      exists r. unfold reject. rewrite !lookup_on_request_ne by exact Hne. auto.
  - (* SignalsCollected *)
    unfold on_SIGNALS_COLLECTED.
    destruct sender as [t|]; [| now split; eauto].
    destruct (negb (t =? 0)); [| now split; eauto].
    destruct (pendingSignalCollections c !! t) as [k|] eqn:Hk;
      [| now split; eauto].
    assert (Hne : k <> i) by (intros ->; now apply (Hp t)).
    split.
    + exists r. unfold pending_delete, resolve; cbn [requests].
      rewrite lookup_on_request_ne by exact Hne. auto.
    + intros t' Hin. cbn in Hin.
      apply lookup_delete_Some in Hin as [_ Hin]. now apply (Hp t').
  - (* TimerFired *)
    unfold on_timeout.
    destruct (requests c !! j) as [rj|] eqn:Hj; [| now split; eauto].
    destruct (decide (j = i)) as [-> | Hne].
    + assert (rj = r) by congruence; subst rj. rewrite Ht. now split; eauto.
    + destruct (rq_timer rj); [| now split; eauto].
      cbn [on_request pendingSignalCollections].
      destruct (pendingSignalCollections c !! rq_tab rj) as [k|] eqn:Hk.
      * split.
        -- exists r. unfold resolve, pending_delete; cbn [requests on_request].
           rewrite !list_lookup_alter_ne by exact Hne. auto.
        -- intros t Hin. cbn in Hin.
           apply lookup_delete_Some in Hin as [_ Hin]. now apply (Hp t).
      * split; [| exact Hp].
        exists r. rewrite lookup_on_request_ne by exact Hne. auto.
Qed.

Lemma stranded_forever (i : nat) (evs : list Event) (c : Coordinator) :
  stranded i c ->
  stranded i (run URL_hostname evs c)
  /\ state_of i (run URL_hostname evs c) = Some Pending.
Proof.
  revert c; induction evs as [| ev evs IH]; intros c Hc; cbn.
  - split; [exact Hc |].
    destruct Hc as [(r & Hr & Hs & _) _]. unfold state_of. rewrite Hr; cbn.
    now rewrite Hs.
  - apply IH. now apply stranded_step.
Qed.

End CollectionFacts.

(** The claim that every failed collection ends in the fallback bundle, at a
    concrete run: tab 7 cannot be reached and the content script cannot be
    injected.  The promise is rejected, the ANALYZE_PAGE handler answers with
    the error, and the timer that fires later changes nothing. *)
Lemma injection_failure_reaches_the_requester :
  let u := "http://bet.example/" in
  let e := "Cannot access contents of the page" in
  let c := run sample_hostname
             [Collect 7 u; SendRejected 0; InjectFailed 0 e] idle in
  state_of 0 c = Some (Rejected e)
  /\ ANALYZE_PAGE_continuation <$> state_of 0 c = Some (error_response e)
  /\ pendingSignalCollections c !! 7 = None
  /\ (forall now,
         state_of 0 c <> Some (Fulfilled (fallbackSignals sample_hostname u now)))
  /\ (forall now,
         state_of 0 (run sample_hostname [TimerFired 0 now] c)
         = Some (Rejected e)).
Proof.
  cbv zeta. repeat split; try (intros now; vm_compute; congruence).
Qed.

(** C6, as the code has it.  For a request whose promise is pending:
    when its timer fires while a resolver is registered for its tab, the
    resolver is removed and the promise is fulfilled with the fallback
    bundle (TLS validity read off the URL scheme, every other category
    empty), which the ANALYZE_PAGE handler goes on to analyse; when the
    injection of the content script fails, the resolver is removed, the
    promise is rejected and the handler answers the requester with the
    error; when the second COLLECT_SIGNALS is rejected, the promise is
    rejected and the handler answers with the error. *)
Theorem collection_failure_paths (URL_hostname : string -> option string)
    (c : Coordinator) (i j : nat) (r : Request) :
  requests c !! i = Some r ->
  rq_state r = Pending ->
  (rq_timer r = true ->
   pendingSignalCollections c !! rq_tab r = Some j ->
   forall now,
     let c' := step URL_hostname (TimerFired i now) c in
     let fb := fallbackSignals URL_hostname (rq_url r) now in
     state_of i c' = Some (Fulfilled fb)
     /\ ANALYZE_PAGE_continuation <$> state_of i c' = Some (analysis_of fb)
     /\ pendingSignalCollections c' !! rq_tab r = None
     /\ valid (ssl fb) = startsWith (rq_url r) "https://"
     /\ issuer (ssl fb) = None
     /\ cookies fb = {| count := 0; thirdPartyCount := 0; cookie_list := [] |}
     /\ trackers fb = {| detected := []; blocked := 0; scripts := [] |}
     /\ fingerprinting fb = {| techniques := []; risk := low |}
     /\ headers fb = {| present := []; missing := []; issues := [] |})
  /\ (rq_send r = Injecting ->
      forall e,
        let c' := step URL_hostname (InjectFailed i e) c in
        state_of i c' = Some (Rejected e)
        /\ ANALYZE_PAGE_continuation <$> state_of i c' = Some (error_response e)
        /\ pendingSignalCollections c' !! rq_tab r = None)
  /\ (rq_send r = Retrying ->
      forall e,
        let c' := step URL_hostname (RetryRejected i e) c in
        state_of i c' = Some (Rejected e)
        /\ ANALYZE_PAGE_continuation <$> state_of i c' = Some (error_response e)).
Proof.
  intros Hr Hs. split; [| split].
  - intros Ht Hp now; cbv zeta.
    assert (E : state_of i (step URL_hostname (TimerFired i now) c)
                = Some (Fulfilled (fallbackSignals URL_hostname (rq_url r) now))).
    { cbn. unfold on_timeout. rewrite Hr, Ht.
      cbn [on_request pendingSignalCollections]. rewrite Hp.
      unfold state_of, resolve, pending_delete, on_request; cbn.
      rewrite !list_lookup_alter_eq, Hr; cbn. now rewrite Hs. }
    rewrite E. repeat split.
    cbn. unfold on_timeout. rewrite Hr, Ht.
    cbn [on_request pendingSignalCollections]. rewrite Hp.
    cbn. apply lookup_delete_eq.
  - intros Hd e; cbv zeta.
    assert (E : state_of i (step URL_hostname (InjectFailed i e) c)
                = Some (Rejected e)).
    { cbn. rewrite Hr. unfold on_send. rewrite Hd.
      unfold state_of, reject, pending_delete, on_request; cbn.
      rewrite !list_lookup_alter_eq, Hr; cbn. now rewrite Hs. }
    rewrite E. repeat split.
    cbn. rewrite Hr. unfold on_send. rewrite Hd. cbn. apply lookup_delete_eq.
  - intros Hd e; cbv zeta.
    assert (E : state_of i (step URL_hostname (RetryRejected i e) c)
                = Some (Rejected e)).
    { cbn. rewrite Hr. unfold on_send. rewrite Hd.
      unfold state_of, reject, on_request; cbn.
      rewrite !list_lookup_alter_eq, Hr; cbn. now rewrite Hs. }
    rewrite E. repeat split.
Qed.

Lemma collection_failure_paths_witness :
  let u := "http://bet.example/" in
  let c0 := run sample_hostname [Collect 7 u; SendRejected 0] idle in
  let fb := fallbackSignals sample_hostname u 10000 in
  (state_of 0 (step sample_hostname (TimerFired 0 10000) c0)
   = Some (Fulfilled fb)
   /\ valid (ssl fb) = false)
  /\ state_of 0 (step sample_hostname (InjectFailed 0 "no access") c0)
     = Some (Rejected "no access").
Proof.
  cbv zeta.
  pose proof (collection_failure_paths sample_hostname
                (run sample_hostname [Collect 7 "http://bet.example/";
                                      SendRejected 0] idle)
                0 0
                {| rq_tab := 7; rq_url := "http://bet.example/";
                   rq_state := Pending; rq_resolved := 0;
                   rq_send := Injecting; rq_timer := true |}
                eq_refl eq_refl) as (Htimer & Hinject & _).
  split.
  - destruct (Htimer eq_refl eq_refl 10000) as (H1 & _ & _ & H4 & _).
    split; [exact H1 | exact H4].
  - destruct (Hinject eq_refl "no access") as (H1 & _). exact H1.
Defined.

(** C7, where the code departs from it.  The timer of a request is never
    cleared and its callback tests only whether some resolver is registered
    for the tab.  Two runs from the idle coordinator:

    - tab 7 is asked twice within the ten seconds and no signals arrive: the
      first timer fulfils the first promise and deletes the resolver of the
      second request, the second timer finds nothing, and no later event
      settles the second promise;
    - the first request is resolved by SIGNALS_COLLECTED, a second request
      for the tab is registered, the first timer fires before the second
      answer arrives: the [resolve] of the first promise is called a second
      time, the second answer is dropped, and no later event settles the
      second promise. *)
Theorem stale_timer_strands_a_later_request :
  let u := "http://bet.example/" in
  (let c := run sample_hostname
              [Collect 7 u; SendResolved 0; Collect 7 u; SendResolved 1;
               TimerFired 0 10000; TimerFired 1 10500] idle in
   state_of 0 c = Some (Fulfilled (fallbackSignals sample_hostname u 10000))
   /\ resolve_calls 0 c = Some 1%nat
   /\ state_of 1 c = Some Pending
   /\ resolve_calls 1 c = Some 0%nat
   /\ pendingSignalCollections c = ∅
   /\ forall evs, state_of 1 (run sample_hostname evs c) = Some Pending)
  /\ (let c := run sample_hostname
                 [Collect 7 u; SignalsCollected (Some 7) sample_signals;
                  SendResolved 0; Collect 7 "http://other.example/";
                  TimerFired 0 10000;
                  SignalsCollected (Some 7) sample_signals; SendResolved 1;
                  TimerFired 1 19990] idle in
      state_of 0 c = Some (Fulfilled sample_signals)
      /\ resolve_calls 0 c = Some 2%nat
      /\ state_of 1 c = Some Pending
      /\ resolve_calls 1 c = Some 0%nat
      /\ pendingSignalCollections c = ∅
      /\ forall evs, state_of 1 (run sample_hostname evs c) = Some Pending).
Proof.
  cbv zeta. split.
  - repeat split; try (vm_compute; reflexivity).
    intros evs. apply stranded_forever. split.
    + eexists. split; [vm_compute; reflexivity |]. repeat split.
    + intros t.
      match goal with
      | |- pendingSignalCollections ?c !! _ <> _ =>
          replace (pendingSignalCollections c) with (∅ : gmap Z nat)
            by (vm_compute; reflexivity)
      end.
      rewrite lookup_empty. discriminate.
  - repeat split; try (vm_compute; reflexivity).
    intros evs. apply stranded_forever. split.
    + eexists. split; [vm_compute; reflexivity |]. repeat split.
    + intros t.
      match goal with
      | |- pendingSignalCollections ?c !! _ <> _ =>
          replace (pendingSignalCollections c) with (∅ : gmap Z nat)
            by (vm_compute; reflexivity)
      end.
      rewrite lookup_empty. discriminate.
Qed.

(** * More properties *)

(** ** Utilities *)

Lemma length_substring_0 (n : nat) (s : string) :
  String.length (String.substring 0 n s) = Nat.min n (String.length s).
Proof.
  revert n; induction s as [| c s IH]; intros [| n]; cbn; try reflexivity.
  now rewrite IH.
Qed.

Lemma length_string_app (a b : string) :
  String.length (a +:+ b) = (String.length a + String.length b)%nat.
Proof. induction a as [| c a IH]; simpl; [reflexivity | now f_equal]. Qed.

Lemma length_str_slice0 (s : string) (e : Z) :
  Z.of_nat (String.length (str_slice0 s e))
  = if e <? 0 then Z.max (Z.of_nat (String.length s) + e) 0
    else Z.min e (Z.of_nat (String.length s)).
Proof.
  unfold str_slice0; cbv zeta. rewrite length_substring_0.
  destruct (Z.ltb_spec e 0); lia.
Qed.

(** X1. With room for the ellipsis ([maxLength] at least 3), [truncate]
    returns the text itself when it fits, and otherwise exactly [maxLength]
    characters: the first [maxLength - 3] of the text and three dots. *)
Theorem truncate_fits (text : string) (maxLength : Z) :
  3 <= maxLength ->
  Z.of_nat (String.length (truncate text maxLength)) <= maxLength
  /\ (Z.of_nat (String.length text) <= maxLength -> truncate text maxLength = text)
  /\ (maxLength < Z.of_nat (String.length text) ->
      Z.of_nat (String.length (truncate text maxLength)) = maxLength
      /\ truncate text maxLength
         = String.substring 0 (Z.to_nat (maxLength - 3)) text +:+ "...").
Proof.
  intros Hm. unfold truncate.
  destruct (Z.leb_spec (Z.of_nat (String.length text)) maxLength) as [Hle | Hgt].
  - repeat split; try lia; auto.
  - assert (Hlen : Z.of_nat (String.length (str_slice0 text (maxLength - 3) +:+ "..."))
                   = maxLength).
    { rewrite length_string_app, Nat2Z.inj_add, length_str_slice0.
      destruct (Z.ltb_spec (maxLength - 3) 0); cbn; lia. }
    repeat split; try lia.
    unfold str_slice0; cbv zeta.
    destruct (Z.ltb_spec (maxLength - 3) 0); [lia |].
    now rewrite Z.min_l by lia.
Qed.

Lemma truncate_fits_witness :
  truncate "bet.example" 6 = "bet..." /\ truncate "bet" 6 = "bet".
Proof.
  destruct (truncate_fits "bet.example" 6 ltac:(lia)) as (_ & _ & H).
  destruct (truncate_fits "bet" 6 ltac:(lia)) as (_ & H' & _).
  split; [apply H; cbn; lia | apply H'; cbn; lia].
Defined.

(** X2. Without room for the ellipsis ([maxLength] below 3), a text longer
    than [maxLength] is not shortened to it: [slice] takes the negative end
    from the back, and the result has [max(length + maxLength - 3, 0) + 3]
    characters, more than [maxLength]. *)
Theorem truncate_overshoots (text : string) (maxLength : Z) :
  maxLength < 3 ->
  maxLength < Z.of_nat (String.length text) ->
  Z.of_nat (String.length (truncate text maxLength))
  = Z.max (Z.of_nat (String.length text) + maxLength - 3) 0 + 3
  /\ maxLength < Z.of_nat (String.length (truncate text maxLength)).
Proof.
  intros Hm Hgt. unfold truncate.
  destruct (Z.leb_spec (Z.of_nat (String.length text)) maxLength); [lia |].
  rewrite length_string_app, Nat2Z.inj_add, length_str_slice0.
  destruct (Z.ltb_spec (maxLength - 3) 0); cbn; lia.
Qed.

Lemma truncate_overshoots_witness :
  Z.of_nat (String.length (truncate "bet.example" 2))
  = Z.max (Z.of_nat (String.length "bet.example") + 2 - 3) 0 + 3
  /\ 2 < Z.of_nat (String.length (truncate "bet.example" 2)).
Proof.
  apply (truncate_overshoots "bet.example" 2); cbn; lia.
Defined.

Lemma prefix_head (c d : ascii) (p s : string) :
  String.prefix (String c p) (String d s) = true -> c = d.
Proof. simpl. destruct (ascii_dec c d); [auto | discriminate]. Qed.

(** X3. Every URL that starts with [http://] or [https://] is analyzable;
    the empty URL and every URL that starts with one of the eight listed
    schemes is not. *)
Theorem isAnalyzableUrl_schemes (u : string) :
  (startsWith u "http://" = true \/ startsWith u "https://" = true ->
   isAnalyzableUrl u = true)
  /\ isAnalyzableUrl "" = false
  /\ (forall protocol, In protocol nonAnalyzableProtocols ->
        startsWith u protocol = true -> isAnalyzableUrl u = false).
Proof.
  split; [| split].
  - intros H. destruct u as [| a rest].
    + destruct H as [H | H]; discriminate H.
    + assert (Ha : "h"%char = a)
        by (destruct H as [H | H]; eapply prefix_head; exact H).
      subst a. reflexivity.
  - reflexivity.
  - intros protocol Hin Hp. unfold isAnalyzableUrl.
    destruct (String.eqb_spec u "") as [-> | _]; [reflexivity |].
    apply negb_false_iff, existsb_exists. now exists protocol.
Qed.

Lemma isAnalyzableUrl_schemes_witness :
  isAnalyzableUrl "https://bet.example/" = true
  /\ isAnalyzableUrl "chrome://extensions/" = false.
Proof.
  split.
  - apply (proj1 (isAnalyzableUrl_schemes "https://bet.example/")).
    right; reflexivity.
  - apply (proj2 (proj2 (isAnalyzableUrl_schemes "chrome://extensions/"))
             "chrome://"); [cbn; auto | reflexivity].
Defined.

(** X4. [formatRelativeTime] reads the clock once and answers by the age of
    the date: "Just now" below one minute (also for a date in the future),
    whole minutes from 1 to 59 below one hour, whole hours from 1 to 23 below
    one day, whole days from 1 to 6 below one week, and the locale's date
    from one week on. *)
Theorem formatRelativeTime_bands (toLocaleDateString : Z -> string)
    (date : Z) (w : World) :
  let age := clock (oracles w) (clock_reads w) - date in
  exists r,
    returned (formatRelativeTime toLocaleDateString date w) = Some r
    /\ clock_reads (world_after (formatRelativeTime toLocaleDateString date w))
       = S (clock_reads w)
    /\ (age < 60000 -> r = "Just now")
    /\ (60000 <= age < 3600000 ->
        r = pretty (age / 60000) +:+ "m ago" /\ 1 <= age / 60000 <= 59)
    /\ (3600000 <= age < 86400000 ->
        r = pretty (age / 3600000) +:+ "h ago" /\ 1 <= age / 3600000 <= 23)
    /\ (86400000 <= age < 604800000 ->
        r = pretty (age / 86400000) +:+ "d ago" /\ 1 <= age / 86400000 <= 6)
    /\ (604800000 <= age -> r = toLocaleDateString date).
Proof.
  cbv zeta. set (age := clock (oracles w) (clock_reads w) - date).
  eexists. split; [reflexivity |]. split; [reflexivity |].
  fold age.
  assert (Em : age / 1000 / 60 = age / 60000)
    by (rewrite Z.div_div by lia; reflexivity).
  assert (Eh : age / 1000 / 60 / 60 = age / 3600000)
    by (rewrite !Z.div_div by lia; reflexivity).
  assert (Ed : age / 1000 / 60 / 60 / 24 = age / 86400000)
    by (rewrite !Z.div_div by lia; reflexivity).
  rewrite Ed, Eh, Em.
  pose proof (Z.div_mod age 1000 ltac:(lia)).
  pose proof (Z.mod_pos_bound age 1000 ltac:(lia)).
  pose proof (Z.div_mod age 60000 ltac:(lia)).
  pose proof (Z.mod_pos_bound age 60000 ltac:(lia)).
  pose proof (Z.div_mod age 3600000 ltac:(lia)).
  pose proof (Z.mod_pos_bound age 3600000 ltac:(lia)).
  pose proof (Z.div_mod age 86400000 ltac:(lia)).
  pose proof (Z.mod_pos_bound age 86400000 ltac:(lia)).
  repeat split; intros;
    repeat match goal with
           | |- context [?a <? ?b] => destruct (Z.ltb_spec a b)
           end; try reflexivity; try lia.
Qed.


(** ** Backfilling *)

Lemma Math_floor_bounds (q : Q) (lo hi : Z) :
  (inject_Z lo <= q)%Q -> (q < inject_Z (hi + 1))%Q -> lo <= Math_floor q <= hi.
Proof.
  intros Hlo Hhi; unfold Math_floor; split.
  - rewrite <- (Qfloor_Z lo). now apply Qfloor_resp_le.
  - pose proof (Qfloor_le q) as Hf.
    assert (Hlt : (inject_Z (Qfloor q) < inject_Z (hi + 1))%Q) by lra.
    rewrite <- Zlt_Qlt in Hlt. lia.
Qed.

Lemma eta_PageSignals (s : PageSignals) :
  {| url := url s; domain := domain s; timestamp := timestamp s;
     cookies := cookies s; trackers := trackers s;
     fingerprinting := fingerprinting s; headers := headers s; ssl := ssl s |}
  = s.
Proof. now destruct s. Qed.

(** X5. A bundle that lists a tracker, a header (present or missing) and a
    fingerprinting technique, and whose certificate is invalid or has an
    issuer, passes through [enhanceSignals] unchanged, and no random number
    and no clock reading is consumed. *)
Theorem enhanceSignals_keeps_complete_bundle (signals : PageSignals)
    (isTrusted : bool) (w : World) :
  (len (detected (trackers signals)) =? 0) = false ->
  (len (present (headers signals)) =? 0)
  && (len (missing (headers signals)) =? 0) = false ->
  (len (techniques (fingerprinting signals)) =? 0) = false ->
  valid (ssl signals) && negb (truthy_string (issuer (ssl signals))) = false ->
  enhanceSignals signals isTrusted w = (Returned signals, w).
Proof.
  intros Ht Hh Hf Hs. unfold enhanceSignals; run_monad.
  rewrite Ht, Hh, Hf, Hs; cbn. now rewrite eta_PageSignals.
Qed.

Lemma enhanceSignals_keeps_complete_bundle_witness :
  enhanceSignals
    {| url := url sample_signals; domain := domain sample_signals;
       timestamp := 0; cookies := cookies sample_signals;
       trackers := trackers detected_signals;
       fingerprinting := fingerprinting detected_signals;
       headers := backfilled_headers false; ssl := ssl sample_signals |}
    true (fresh_world (sample_oracles 1000 0))
  = (Returned
       {| url := url sample_signals; domain := domain sample_signals;
          timestamp := 0; cookies := cookies sample_signals;
          trackers := trackers detected_signals;
          fingerprinting := fingerprinting detected_signals;
          headers := backfilled_headers false; ssl := ssl sample_signals |},
     fresh_world (sample_oracles 1000 0)).
Proof.
  apply enhanceSignals_keeps_complete_bundle; reflexivity.
Defined.

(** What [enhanceSignals] does to the headers, whatever is drawn. *)
Lemma enhanceSignals_headers (signals : PageSignals) (isTrusted : bool)
    (w w' : World) (e : PageSignals) :
  enhanceSignals signals isTrusted w = (Returned e, w') ->
  headers e
  = if (len (present (headers signals)) =? 0)
       && (len (missing (headers signals)) =? 0)
    then backfilled_headers isTrusted else headers signals.
Proof.
  unfold enhanceSignals, backfilled_headers; run_monad.
  destruct (len (detected (trackers signals)) =? 0);
    destruct (len (techniques (fingerprinting signals)) =? 0);
    destruct isTrusted;
    destruct (valid (ssl signals) && negb (truthy_string (issuer (ssl signals))));
    destruct ((len (present (headers signals)) =? 0)
              && (len (missing (headers signals)) =? 0));
    cbn; intros [= <- _]; reflexivity.
Qed.

#[local] Arguments Math_floor : simpl never.
#[local] Arguments slice0 : simpl never.
#[local] Arguments index : simpl never.
#[local] Arguments risk_of_techniques : simpl never.

(** The components of the bundle [enhanceSignals] returns, and which random
    numbers they are made of. *)
Lemma enhanceSignals_components (signals : PageSignals) (isTrusted : bool)
    (w : World) :
  let no_tracker := len (detected (trackers signals)) =? 0 in
  let no_technique := len (techniques (fingerprinting signals)) =? 0 in
  let no_issuer :=
    valid (ssl signals) && negb (truthy_string (issuer (ssl signals))) in
  let n0 := random_reads w in
  let n1 := ((if no_tracker then 1 else 0) + n0)%nat in
  let n2 := ((if no_technique && negb isTrusted then 1 else 0) + n1)%nat in
  exists e w',
    enhanceSignals signals isTrusted w = (Returned e, w')
    /\ detected (trackers e)
       = (if no_tracker
          then slice0 COMMON_TRACKERS
                 (if isTrusted then Math_floor (random (oracles w) n0 * 3)
                  else Math_floor (random (oracles w) n0 * 5) + 2)
          else detected (trackers signals))
    /\ fingerprinting e
       = (if no_technique
          then if isTrusted then {| techniques := []; risk := low |}
               else {| techniques :=
                         slice0 ["Canvas"; "WebGL"]
                           (Math_floor (random (oracles w) n1 * 2) + 1);
                       risk :=
                         risk_of_techniques
                           (slice0 ["Canvas"; "WebGL"]
                              (Math_floor (random (oracles w) n1 * 2) + 1)) |}
          else fingerprinting signals)
    /\ issuer (ssl e)
       = (if no_issuer
          then index issuers (Math_floor (random (oracles w) n2 * 4))
          else issuer (ssl signals)).
Proof.
  cbv zeta. unfold enhanceSignals; run_monad.
  destruct (len (detected (trackers signals)) =? 0);
    destruct (len (techniques (fingerprinting signals)) =? 0);
    destruct isTrusted;
    destruct (valid (ssl signals) && negb (truthy_string (issuer (ssl signals))));
    cbn; eexists _, _; repeat split.
Qed.

Lemma enhanceSignals_backfill_facts (signals : PageSignals)
    (isTrusted : bool) (w : World) :
  random_in_unit_interval w ->
  exists e w',
    enhanceSignals signals isTrusted w = (Returned e, w')
    /\ ((len (detected (trackers signals)) =? 0) = true ->
        exists k : nat,
          detected (trackers e) = firstn k COMMON_TRACKERS
          /\ len (detected (trackers e)) = Z.of_nat k
          /\ (if isTrusted then (k <= 2)%nat else (2 <= k <= 6)%nat))
    /\ ((len (techniques (fingerprinting signals)) =? 0) = true ->
        if isTrusted
        then fingerprinting e = {| techniques := []; risk := low |}
        else fingerprinting e = {| techniques := ["Canvas"]; risk := medium |}
             \/ fingerprinting e
                = {| techniques := ["Canvas"; "WebGL"]; risk := high |})
    /\ (valid (ssl signals) && negb (truthy_string (issuer (ssl signals))) = true ->
        exists i, issuer (ssl e) = Some i /\ In i issuers
                  /\ existsb (includes i) trustedCAs = true).
Proof.
  intros Hr.
  assert (F3 : forall n, 0 <= Math_floor (random (oracles w) n * 3) <= 2)
    by (intros n; destruct (Hr n); apply Math_floor_bounds;
        [change (inject_Z 0) with 0%Q | change (inject_Z (2 + 1)) with 3%Q];
        lra).
  assert (F5 : forall n, 0 <= Math_floor (random (oracles w) n * 5) <= 4)
    by (intros n; destruct (Hr n); apply Math_floor_bounds;
        [change (inject_Z 0) with 0%Q | change (inject_Z (4 + 1)) with 5%Q];
        lra).
  assert (F2 : forall n, 0 <= Math_floor (random (oracles w) n * 2) <= 1)
    by (intros n; destruct (Hr n); apply Math_floor_bounds;
        [change (inject_Z 0) with 0%Q | change (inject_Z (1 + 1)) with 2%Q];
        lra).
  assert (F4 : forall n, 0 <= Math_floor (random (oracles w) n * 4) <= 3)
    by (intros n; destruct (Hr n); apply Math_floor_bounds;
        [change (inject_Z 0) with 0%Q | change (inject_Z (3 + 1)) with 4%Q];
        lra).
  assert (Hslice : forall z, 0 <= z <= 8 ->
            slice0 COMMON_TRACKERS z = firstn (Z.to_nat z) COMMON_TRACKERS
            /\ len (firstn (Z.to_nat z) COMMON_TRACKERS) = Z.of_nat (Z.to_nat z)).
  { intros z Hz. unfold slice0. destruct (Z.ltb_spec z 0); [lia |].
    split; [reflexivity |]. unfold len. rewrite length_firstn.
    change (List.length COMMON_TRACKERS) with 8%nat. lia. }
  destruct (enhanceSignals_components signals isTrusted w)
    as (e & w' & He & Htr & Hfp & Hiss).
  exists e, w'. split; [exact He |]. split; [| split].
  - intros Hno. rewrite Hno in Htr. rewrite Htr.
    destruct isTrusted.
    + pose proof (F3 (random_reads w)) as Hb.
      destruct (Hslice (Math_floor (random (oracles w) (random_reads w) * 3)))
        as [E1 E2]; [lia |].
      eexists. rewrite E1. split; [reflexivity |]. split; [exact E2 | lia].
    + pose proof (F5 (random_reads w)) as Hb.
      destruct (Hslice (Math_floor (random (oracles w) (random_reads w) * 5) + 2))
        as [E1 E2]; [lia |].
      eexists. rewrite E1. split; [reflexivity |]. split; [exact E2 | lia].
  - intros Hno. rewrite Hno in Hfp. rewrite Hfp.
    destruct isTrusted; [reflexivity |].
    match goal with
    | |- context [Math_floor (random (oracles w) ?n * 2)] =>
        pose proof (F2 n) as Hb;
        set (z := Math_floor (random (oracles w) n * 2)) in *
    end.
    assert (z = 0 \/ z = 1) as [-> | ->] by lia; [left | right]; reflexivity.
  - intros Hno. rewrite Hno in Hiss. rewrite Hiss.
    match goal with
    | |- context [Math_floor (random (oracles w) ?n * 4)] =>
        pose proof (F4 n) as Hb;
        set (z := Math_floor (random (oracles w) n * 4)) in *
    end.
    assert (z = 0 \/ z = 1 \/ z = 2 \/ z = 3) as [-> | [-> | [-> | ->]]] by lia;
      eexists; (split; [reflexivity |]); split; cbn; auto 8.
Qed.

(** X6. With every random number in [0, 1), what [enhanceSignals] makes up
    stays in fixed ranges.  Without a detected tracker the bundle gets the
    first [k] names of COMMON_TRACKERS, with [k] from 0 to 2 on a trusted
    domain and from 2 to 6 otherwise.  Without a detected technique it gets
    none (risk low) on a trusted domain, and otherwise Canvas (risk medium)
    or Canvas and WebGL (risk high).  A valid certificate without issuer
    gets one of the four listed issuers, each of which contains the name of
    a trusted CA. *)
Theorem enhanceSignals_backfill_ranges (signals : PageSignals)
    (isTrusted : bool) (w : World) :
  random_in_unit_interval w ->
  exists e w',
    enhanceSignals signals isTrusted w = (Returned e, w')
    /\ ((len (detected (trackers signals)) =? 0) = true ->
        exists k : nat,
          detected (trackers e) = firstn k COMMON_TRACKERS
          /\ len (detected (trackers e)) = Z.of_nat k
          /\ (if isTrusted then (k <= 2)%nat else (2 <= k <= 6)%nat))
    /\ ((len (techniques (fingerprinting signals)) =? 0) = true ->
        if isTrusted
        then fingerprinting e = {| techniques := []; risk := low |}
        else fingerprinting e = {| techniques := ["Canvas"]; risk := medium |}
             \/ fingerprinting e
                = {| techniques := ["Canvas"; "WebGL"]; risk := high |})
    /\ (valid (ssl signals) && negb (truthy_string (issuer (ssl signals))) = true ->
        exists i, issuer (ssl e) = Some i /\ In i issuers
                  /\ existsb (includes i) trustedCAs = true).
Proof. exact (enhanceSignals_backfill_facts signals isTrusted w). Qed.

Lemma enhanceSignals_backfill_ranges_witness :
  exists e w',
    enhanceSignals sample_signals false (fresh_world (sample_oracles 1000 (9 # 10)))
    = (Returned e, w')
    /\ exists k : nat,
         detected (trackers e) = firstn k COMMON_TRACKERS /\ (2 <= k <= 6)%nat.
Proof.
  destruct (enhanceSignals_backfill_ranges sample_signals false
              (fresh_world (sample_oracles 1000 (9 # 10))))
    as (e & w' & He & Ht & _).
  - intros n. split; reflexivity || (cbn; lra).
  - exists e, w'. split; [exact He |].
    destruct (Ht eq_refl) as (k & Hk & _ & Hb). exists k. split; assumption.
Defined.

(** ** Reputation and the verdict *)

#[local] Arguments Math_round : simpl never.

Lemma Math_round_lower (q : Q) (lo : Z) :
  (inject_Z lo <= q)%Q -> lo <= Math_round q.
Proof.
  intros H. unfold Math_round. rewrite <- (Qfloor_Z lo).
  apply Qfloor_resp_le. lra.
Qed.

Lemma Math_round_upper (q : Q) (hi : Z) :
  (q < inject_Z hi + (1 # 2))%Q -> Math_round q <= hi.
Proof.
  intros H. unfold Math_round.
  pose proof (Qfloor_le (q + (1 # 2))) as Hf.
  assert (Hlt : (inject_Z (Qfloor (q + (1 # 2))) < inject_Z (hi + 1))%Q).
  { rewrite inject_Z_plus. change (inject_Z 1) with 1%Q. lra. }
  rewrite <- Zlt_Qlt in Hlt. lia.
Qed.

Lemma len_nonneg {A} (l : list A) : 0 <= len l.
Proof. unfold len; lia. Qed.

Lemma len_filter_le {A} (f : A -> bool) (l : list A) :
  len (List.filter f l) <= len l.
Proof.
  unfold len. apply inj_le. induction l as [| a l IH]; cbn; [lia |].
  destruct (f a); cbn; lia.
Qed.

(** Among headers listed once each, at most four are required ones. *)
Lemma presentRequired_le_4 (l : list string) :
  NoDup l ->
  len (List.filter (fun x => existsb (String.eqb x) requiredHeaders) l) <= 4.
Proof.
  intros Hnd. unfold len.
  change 4 with (Z.of_nat (List.length requiredHeaders)). apply inj_le.
  apply List.NoDup_incl_length.
  - apply List.NoDup_filter. now apply NoDup_ListNoDup.
  - intros x Hx. apply List.filter_In in Hx as [_ Hx].
    apply existsb_exists in Hx as (y & Hy & Hxy).
    apply String.eqb_eq in Hxy. now subst.
Qed.

Lemma cookieScore_le_100 (signals : PageSignals) :
  (0 <= thirdPartyCount (cookies signals))%Q ->
  (inject_Z (len (cookie_list (cookies signals))) <= count (cookies signals))%Q ->
  cookieScore signals <= 100.
Proof.
  intros Htp Hlen. unfold cookieScore; cbv zeta.
  unfold Qltb. destruct (Qle_bool (count (cookies signals)) 0) eqn:Hc; cbn [negb];
    [lia |].
  assert (Hpos : (0 < count (cookies signals))%Q).
  { apply Qnot_le_lt. intros Hle. apply Qle_bool_iff in Hle. congruence. }
  assert (H1 : 0 <= Math_round
                      (thirdPartyCount (cookies signals) / count (cookies signals) * 30)).
  { apply Math_round_lower. change (inject_Z 0) with 0%Q.
    assert (0 <= thirdPartyCount (cookies signals) / count (cookies signals))%Q.
    { apply Qle_shift_div_l; [exact Hpos | lra]. }
    lra. }
  assert (H2 : Math_round
                 (inject_Z (len (List.filter (fun k => secure k && httpOnly k)
                                   (cookie_list (cookies signals))))
                  / Qmax (count (cookies signals)) 1 * 15) <= 15).
  { apply Math_round_upper. change (inject_Z 15) with 15%Q.
    pose proof (len_filter_le (fun k => secure k && httpOnly k)
                  (cookie_list (cookies signals))) as Hf.
    rewrite Zle_Qle in Hf.
    pose proof (Q.le_max_l (count (cookies signals)) 1) as Hm.
    pose proof (Q.le_max_r (count (cookies signals)) 1) as Hm1.
    set (sc := inject_Z (len (List.filter _ _))) in *.
    set (mx := Qmax (count (cookies signals)) 1) in *.
    assert (sc / mx <= 1)%Q.
    { apply Qle_shift_div_r; lra. }
    lra. }
  lia.
Qed.

Lemma headerScore_le_100 (signals : PageSignals) :
  NoDup (present (headers signals)) -> (headerScore signals <= 100)%Q.
Proof.
  intros Hnd. unfold headerScore; cbv zeta.
  pose proof (presentRequired_le_4 _ Hnd) as Hp.
  pose proof (len_nonneg (missing (headers signals))) as Hm.
  pose proof (len_nonneg (issues (headers signals))) as Hi.
  rewrite Zle_Qle in Hp, Hm, Hi.
  change (inject_Z (len requiredHeaders)) with 4%Q.
  change (inject_Z 4) with 4%Q in Hp. change (inject_Z 0) with 0%Q in Hm, Hi.
  set (p := inject_Z (len (List.filter _ _))) in *.
  assert (p / 4 <= 1)%Q by (apply Qle_shift_div_r; lra).
  lra.
Qed.

(** The trust score of a plausible bundle under the multiplier 0.6. *)
Lemma suspicious_trust_score_bound (signals : PageSignals) :
  plausible signals ->
  weightedTrustScore (calculateSignalScores signals false true) <= 68.
Proof.
  intros (Htp & Hlen & Hnd).
  pose proof (cookieScore_le_100 signals Htp Hlen) as Hc.
  pose proof (headerScore_le_100 signals Hnd) as Hh.
  assert (Ht : trackerScore signals <= 90).
  { unfold trackerScore. pose proof (len_nonneg (detected (trackers signals))). lia. }
  assert (Hf : fingerprintScore signals <= 95).
  { unfold fingerprintScore.
    pose proof (len_nonneg (techniques (fingerprinting signals))).
    destruct (risk (fingerprinting signals)); cbn; lia. }
  pose proof (calculateSignalScores_range signals false true) as Hr.
  cbv zeta in Hr. destruct Hr as (Rc & Rt & Rf & Rh & Rs).
  assert (Bc : sc_cookies (calculateSignalScores signals false true) <= 60).
  { cbn. rewrite Zle_Qle in Hc. change (inject_Z 100) with 100%Q in Hc.
    assert (Math_round (inject_Z (cookieScore signals) * (6 # 10)) <= 60)
      by (apply Math_round_upper; change (inject_Z 60) with 60%Q; lra).
    lia. }
  assert (Bt : sc_trackers (calculateSignalScores signals false true) <= 54).
  { cbn. rewrite Zle_Qle in Ht. change (inject_Z 90) with 90%Q in Ht.
    assert (Math_round (inject_Z (trackerScore signals) * (6 # 10)) <= 54)
      by (apply Math_round_upper; change (inject_Z 54) with 54%Q; lra).
    lia. }
  assert (Bf : sc_fingerprinting (calculateSignalScores signals false true) <= 57).
  { cbn. rewrite Zle_Qle in Hf. change (inject_Z 95) with 95%Q in Hf.
    assert (Math_round (inject_Z (fingerprintScore signals) * (6 # 10)) <= 57)
      by (apply Math_round_upper; change (inject_Z 57) with 57%Q; lra).
    lia. }
  assert (Bh : sc_headers (calculateSignalScores signals false true) <= 60).
  { cbn.
    assert (Math_round (headerScore signals * (6 # 10)) <= 60)
      by (apply Math_round_upper; change (inject_Z 60) with 60%Q; lra).
    lia. }
  unfold in_range in Rs.
  set (s := calculateSignalScores signals false true) in *.
  destruct Rs as [_ Bs].
  rewrite Zle_Qle in Bc, Bt, Bf, Bh, Bs.
  unfold weightedTrustScore. apply Math_round_upper.
  change (inject_Z 60) with 60%Q in *. change (inject_Z 54) with 54%Q in *.
  change (inject_Z 57) with 57%Q in *. change (inject_Z 100) with 100%Q in *.
  change (inject_Z 68) with 68%Q. lra.
Qed.

(** X7. [simulateAnalysis] never rates a suspicious page safe: for a
    plausible bundle whose domain is not trusted and whose domain or URL
    matches a suspicious pattern, the trust score is at most 68 and the
    verdict is not [safe], whatever the random numbers. *)
Theorem suspicious_page_is_never_safe (signals : PageSignals) (w : World) :
  plausible signals ->
  isTrustedDomain (toLowerCase (domain signals)) = false ->
  isSuspiciousPage (toLowerCase (domain signals)) (url signals) = true ->
  exists r w',
    simulateAnalysis signals w = (Returned r, w')
    /\ trustScore r <= 68
    /\ verdict r <> safe.
Proof.
  intros (Htp & Hlen & Hnd) Ht Hs.
  destruct (simulateAnalysis_returns signals w)
    as (r & w' & e & we & Hr & He & Hsc & Hts & Hv).
  rewrite Ht in He. rewrite Ht, Hs in Hsc.
  destruct (enhanceSignals_returns signals false w) as (e' & we' & He' & Hc & _).
  rewrite He in He'. injection He' as <- <-.
  pose proof (enhanceSignals_headers _ _ _ _ _ He) as Hh.
  assert (Hpl : plausible e).
  { unfold plausible. rewrite Hc, Hh. repeat split; try assumption.
    destruct (_ && _); [| assumption].
    cbn. apply NoDup_ListNoDup. repeat constructor. intros []. }
  pose proof (suspicious_trust_score_bound e Hpl) as Hb.
  exists r, w'. split; [exact Hr |].
  assert (Hle : trustScore r <= 68) by (rewrite Hts, Hsc; exact Hb).
  split; [exact Hle |].
  rewrite Hv. unfold getVerdictFromScore.
  change 70%Q with (inject_Z 70). rewrite Qle_bool_inject.
  destruct (Z.leb_spec 70 (trustScore r)); [lia |].
  destruct (Qle_bool 40 (inject_Z (trustScore r))); discriminate.
Qed.

Lemma suspicious_page_is_never_safe_witness :
  exists r w',
    simulateAnalysis sample_signals (fresh_world (sample_oracles 1000 0))
    = (Returned r, w')
    /\ trustScore r <= 68
    /\ verdict r <> safe.
Proof.
  apply suspicious_page_is_never_safe.
  - split; [| split].
    + vm_compute; discriminate.
    + vm_compute; discriminate.
    + apply NoDup_nil_2.
  - reflexivity.
  - reflexivity.
Defined.


(** ** The timer's bundle, analysed *)

Lemma calculateSignalScores_ext_detected (e1 e2 : PageSignals) (t s : bool) :
  cookies e1 = cookies e2 ->
  detected (trackers e1) = detected (trackers e2) ->
  fingerprinting e1 = fingerprinting e2 -> headers e1 = headers e2 ->
  valid (ssl e1) = valid (ssl e2) ->
  calculateSignalScores e1 t s = calculateSignalScores e2 t s.
Proof.
  intros Hc Ht Hf Hh Hv.
  unfold calculateSignalScores, cookieScore, trackerScore, fingerprintScore,
    headerScore.
  now rewrite !sslScore_valid, Hc, Ht, Hf, Hh, Hv.
Qed.

(** X8. When collection times out, the verdict follows from the reputation
    of the domain and the scheme of the URL alone, except for a suspicious
    page without TLS.  With every random number in [0, 1), the analysis of
    the fallback bundle gives: for a trusted domain, [safe] with a score of
    at least 82 (at least 99 over https); for a domain neither trusted nor
    suspicious, [safe] with a score from 72 to 80 over https and [warning]
    with a score from 54 to 62 otherwise; for a suspicious one, [warning]
    with a score from 53 to 58 over https, and a score from 36 to 40, never
    [safe], otherwise. *)
Theorem fallback_bundle_verdict (URL_hostname : string -> option string)
    (u : string) (now : Z) (w : World) :
  random_in_unit_interval w ->
  let signals := fallbackSignals URL_hostname u now in
  let t := isTrustedDomain (toLowerCase (domain signals)) in
  let s := isSuspiciousPage (toLowerCase (domain signals)) u in
  let https := startsWith u "https://" in
  exists r w',
    simulateAnalysis signals w = (Returned r, w')
    /\ (t = true ->
        verdict r = safe /\ 82 <= trustScore r
        /\ (https = true -> 99 <= trustScore r))
    /\ (t = false -> s = false -> https = true ->
        verdict r = safe /\ 72 <= trustScore r <= 80)
    /\ (t = false -> s = false -> https = false ->
        verdict r = warning /\ 54 <= trustScore r <= 62)
    /\ (t = false -> s = true -> https = true ->
        verdict r = warning /\ 53 <= trustScore r <= 58)
    /\ (t = false -> s = true -> https = false ->
        verdict r <> safe /\ 36 <= trustScore r <= 40).
Proof.
  intros Hr; cbv zeta.
  set (signals := fallbackSignals URL_hostname u now).
  change (url signals) with u in *.
  destruct (simulateAnalysis_returns signals w)
    as (r & w' & e & we & Hrun & He & Hsc & Hts & Hv).
  change (url signals) with u in Hsc.
  set (t := isTrustedDomain (toLowerCase (domain signals))) in *.
  set (s := isSuspiciousPage (toLowerCase (domain signals)) u) in *.
  destruct (enhanceSignals_backfill_facts signals t w Hr)
    as (e' & we' & He' & Htr & Hfp & _).
  rewrite He in He'. injection He' as <- <-.
  destruct (Htr eq_refl) as (k & Hk & _ & Hkb). specialize (Hfp eq_refl).
  destruct (enhanceSignals_returns signals t w) as (e' & we' & He' & Hc & Hval).
  rewrite He in He'. injection He' as <- <-.
  pose proof (enhanceSignals_headers _ _ _ _ _ He) as Hh.
  change ((len (present (headers signals)) =? 0)
          && (len (missing (headers signals)) =? 0)) with true in Hh.
  cbv iota in Hh.
  change (valid (ssl signals)) with (startsWith u "https://") in Hval.
  assert (Hcanon : signalScores r
                   = calculateSignalScores
                       (backfilled_fallback k (fingerprinting e) t
                          (startsWith u "https://")) t s).
  { rewrite Hsc. apply calculateSignalScores_ext_detected; auto. }
  exists r, w'. split; [exact Hrun |].
  rewrite Hv, Hts, Hcanon. clear Hv Hts Hcanon Hsc Hrun He Hh Hc Hval Hk.
  destruct t.
  - rewrite Hfp.
    assert (k = 0 \/ k = 1 \/ k = 2)%nat as [-> | [-> | ->]] by lia;
      destruct s; destruct (startsWith u "https://");
      vm_compute; repeat split; intros; discriminate.
  - assert (k = 2 \/ k = 3 \/ k = 4 \/ k = 5 \/ k = 6)%nat
      as [-> | [-> | [-> | [-> | ->]]]] by lia;
      destruct Hfp as [-> | ->];
      destruct s; destruct (startsWith u "https://");
      vm_compute; repeat split; intros; discriminate.
Qed.

Lemma fallback_bundle_verdict_witness :
  exists r w',
    simulateAnalysis (fallbackSignals sample_hostname "http://bet.example/" 10000)
      (fresh_world (sample_oracles 1000 (9 # 10)))
    = (Returned r, w')
    /\ verdict r <> safe /\ 36 <= trustScore r <= 40.
Proof.
  destruct (fallback_bundle_verdict sample_hostname "http://bet.example/" 10000
              (fresh_world (sample_oracles 1000 (9 # 10))))
    as (r & w' & Hrun & _ & _ & _ & _ & H).
  - intros n. split; vm_compute; [discriminate | reflexivity].
  - exists r, w'. split; [exact Hrun |]. apply H; reflexivity.
Defined.

(** ** The content script *)

Lemma cookie_of_pair_shape (p : Page) (pair : string) (k : CookieInfo) :
  cookie_of_pair p pair = Some k ->
  httpOnly k = false
  /\ ck_domain k = location_hostname p
  /\ secure k = String.eqb (location_protocol p) "https:".
Proof.
  unfold cookie_of_pair; cbv zeta.
  destruct (String.eqb _ ""); [discriminate |]. now intros [= <-].
Qed.

Lemma omap_cookie_shape (p : Page) (pairs : list string) :
  Forall (fun k => httpOnly k = false
                   /\ ck_domain k = location_hostname p
                   /\ secure k = String.eqb (location_protocol p) "https:")
         (omap (cookie_of_pair p) pairs)
  /\ len (omap (cookie_of_pair p) pairs) <= len pairs.
Proof.
  unfold len. induction pairs as [| pair pairs [IH1 IH2]]; cbn.
  - split; [constructor | lia].
  - destruct (cookie_of_pair p pair) as [k|] eqn:Hk; cbn.
    + split; [| lia]. constructor; [| exact IH1].
      now apply (cookie_of_pair_shape p pair).
    + split; [exact IH1 | lia].
Qed.

Lemma collectCookies_facts (p : Page) :
  let c := collectCookies p in
  let n := len (cookie_list c) in
  count c = inject_Z n
  /\ thirdPartyCount c = inject_Z (n * 3 / 10)
  /\ 0 <= n * 3 / 10 <= n
  /\ Forall (fun k => httpOnly k = false
                      /\ ck_domain k = location_hostname p
                      /\ secure k = String.eqb (location_protocol p) "https:")
            (cookie_list c)
  /\ n <= len (split_on ";" (document_cookie p))
  /\ (document_cookie p = "" -> cookie_list c = []).
Proof.
  cbv zeta. unfold collectCookies; cbv zeta; cbn [count thirdPartyCount cookie_list].
  set (found := if String.eqb (document_cookie p) "" then [] else _).
  pose proof (len_nonneg found) as Hn.
  pose proof (Z.div_mod (len found * 3) 10 ltac:(lia)) as Hd.
  pose proof (Z.mod_pos_bound (len found * 3) 10 ltac:(lia)) as Hm.
  split; [reflexivity |]. split; [reflexivity |]. split; [lia |].
  subst found.
  destruct (String.eqb_spec (document_cookie p) "") as [E | E].
  - split; [constructor |]. split; [| reflexivity].
    pose proof (len_nonneg (split_on ";" (document_cookie p))).
    change (len (@nil CookieInfo)) with 0. lia.
  - destruct (omap_cookie_shape p (split_on ";" (document_cookie p))) as [H1 H2].
    split; [exact H1 |]. split; [exact H2 | congruence].
Qed.

(** X9. Whatever the cookie string, [collectCookies] reports as [count] the
    number of cookies it lists and as [thirdPartyCount] three tenths of it,
    rounded down; every listed cookie is marked not http-only, carries the
    host name of the page and is marked secure exactly on an https page;
    there are at most as many cookies as pieces between semicolons, and
    none for the empty cookie string. *)
Theorem collectCookies_shape (p : Page) :
  let c := collectCookies p in
  let n := len (cookie_list c) in
  count c = inject_Z n
  /\ thirdPartyCount c = inject_Z (n * 3 / 10)
  /\ 0 <= n * 3 / 10 <= n
  /\ Forall (fun k => httpOnly k = false
                      /\ ck_domain k = location_hostname p
                      /\ secure k = String.eqb (location_protocol p) "https:")
            (cookie_list c)
  /\ n <= len (split_on ";" (document_cookie p))
  /\ (document_cookie p = "" -> cookie_list c = []).
Proof. exact (collectCookies_facts p). Qed.

Lemma no_secure_httpOnly (p : Page) (l : list CookieInfo) :
  Forall (fun k => httpOnly k = false
                   /\ ck_domain k = location_hostname p
                   /\ secure k = String.eqb (location_protocol p) "https:") l ->
  List.filter (fun k => secure k && httpOnly k) l = [].
Proof.
  induction 1 as [| k l (Hk & _) _ IH]; cbn; [reflexivity |].
  now rewrite Hk, andb_false_r.
Qed.

(** X10. For a bundle whose cookies were collected by the content script, the
    cookie score before the multiplier lies between 76 and 85: the estimate
    of third-party cookies costs at most 9 points, and the bonus for secure
    http-only cookies is never earned, because no collected cookie is marked
    http-only. *)
Theorem collected_cookieScore_range (p : Page) (signals : PageSignals) :
  cookies signals = collectCookies p ->
  76 <= cookieScore signals <= 85
  /\ List.filter (fun k => secure k && httpOnly k) (cookie_list (cookies signals))
     = [].
Proof.
  intros Hc.
  destruct (collectCookies_facts p) as (Hcount & Htp & Hb & Hall & _).
  cbv zeta in *. rewrite <- Hc in *.
  pose proof (no_secure_httpOnly p _ Hall) as Hsec.
  split; [| exact Hsec].
  unfold cookieScore; cbv zeta. rewrite Hsec, Hcount, Htp.
  set (n := len (cookie_list (cookies signals))) in *.
  unfold Qltb. change 0%Q with (inject_Z 0). rewrite Qle_bool_inject.
  destruct (Z.leb_spec n 0) as [Hn | Hn]; cbn [negb]; [lia |].
  change (inject_Z (len (@nil CookieInfo))) with 0%Q.
  assert (E0 : Math_round (0 / Qmax (inject_Z n) 1 * 15) = 0).
  { unfold Math_round. apply Z.le_antisymm.
    - assert (H : (0 / Qmax (inject_Z n) 1 * 15 + (1 # 2) == 1 # 2)%Q)
        by (unfold Qdiv; rewrite Qmult_0_l; ring).
      rewrite H. now vm_compute.
    - assert (H : (0 / Qmax (inject_Z n) 1 * 15 + (1 # 2) == 1 # 2)%Q)
        by (unfold Qdiv; rewrite Qmult_0_l; ring).
      rewrite H. now vm_compute. }
  rewrite E0.
  assert (Hpos : (0 < inject_Z n)%Q)
    by (change 0%Q with (inject_Z 0); rewrite <- Zlt_Qlt; lia).
  pose proof (Z.div_mod (n * 3) 10 ltac:(lia)) as Hd.
  pose proof (Z.mod_pos_bound (n * 3) 10 ltac:(lia)) as Hm.
  assert (Hq : (0 <= inject_Z (n * 3 / 10) / inject_Z n)%Q
               /\ (inject_Z (n * 3 / 10) / inject_Z n <= 3 # 10)%Q).
  { split.
    - apply Qle_shift_div_l; [exact Hpos |]. rewrite Qmult_0_l.
      change 0%Q with (inject_Z 0). rewrite <- Zle_Qle. lia.
    - apply Qle_shift_div_r; [exact Hpos |].
      assert (H10 : (inject_Z (n * 3 / 10) * inject_Z 10
                     <= inject_Z n * inject_Z 3)%Q).
      { rewrite <- !inject_Z_mult, <- Zle_Qle. lia. }
      change (inject_Z 10) with 10%Q in H10.
      change (inject_Z 3) with 3%Q in H10. lra. }
  destruct Hq as [Hq0 Hq1].
  assert (0 <= Math_round (inject_Z (n * 3 / 10) / inject_Z n * 30) <= 9).
  { apply Math_round_bounds;
      [change (inject_Z 0) with 0%Q | change (inject_Z 9) with 9%Q]; lra. }
  lia.
Qed.

Lemma collected_cookieScore_range_witness :
  76 <= cookieScore
          {| url := location_href sample_page; domain := location_hostname sample_page;
             timestamp := 0; cookies := collectCookies sample_page;
             trackers := detectTrackers sample_page;
             fingerprinting := detectFingerprinting sample_page;
             headers := analyzeHeaders sample_page; ssl := checkSSL sample_page |}
  <= 85.
Proof.
  apply (proj1 (collected_cookieScore_range sample_page
                  {| url := location_href sample_page;
                     domain := location_hostname sample_page;
                     timestamp := 0; cookies := collectCookies sample_page;
                     trackers := detectTrackers sample_page;
                     fingerprinting := detectFingerprinting sample_page;
                     headers := analyzeHeaders sample_page;
                     ssl := checkSSL sample_page |} eq_refl)).
Defined.

(** *** Tracker detection *)

Lemma existsb_eqb_In (x : string) (l : list string) :
  existsb (String.eqb x) l = true <-> In x l.
Proof.
  rewrite existsb_exists. split.
  - intros (y & Hy & E). apply String.eqb_eq in E. now subst.
  - intros H. exists x. split; [exact H | apply String.eqb_refl].
Qed.

Lemma scan_fold (text : string) (trs : list TrackerPattern) (det : list string) :
  let out := fold_left (scan_step text) trs det in
  (List.NoDup det -> List.NoDup out)
  /\ (forall x, In x det -> In x out)
  /\ (forall x, In x out ->
        In x det \/ exists tr, In tr trs /\ tp_name tr = x
                               /\ test (tp_pattern tr) text = true)
  /\ (forall tr, In tr trs -> test (tp_pattern tr) text = true ->
        In (tp_name tr) out).
Proof.
  cbv zeta. revert det.
  induction trs as [| t trs IH]; intros det; cbn [fold_left In].
  - repeat split; auto. intros tr [].
  - destruct (IH (scan_step text det t)) as (I1 & I2 & I3 & I4).
    assert (Hstep_in : forall x, In x det -> In x (scan_step text det t)).
    { intros x Hx. unfold scan_step. destruct (_ && _); [| exact Hx].
      apply in_or_app. now left. }
    repeat split.
    + intros Hnd. apply I1. unfold scan_step.
      destruct (test (tp_pattern t) text); cbn [andb]; [| exact Hnd].
      destruct (existsb (String.eqb (tp_name t)) det) eqn:E; cbn [negb];
        [exact Hnd |].
      apply List.NoDup_app; [exact Hnd | repeat constructor; intros [] |].
      intros x Hx [<- | []].
      apply existsb_eqb_In in Hx. congruence.
    + intros x Hx. apply I2, Hstep_in, Hx.
    + intros x Hx. destruct (I3 x Hx) as [Hin | (tr & Htr & Hn & Ht)].
      * unfold scan_step in Hin.
        destruct (test (tp_pattern t) text) eqn:Et; cbn [andb] in Hin;
          [| now left].
        destruct (negb _); [| now left].
        apply in_app_or in Hin as [Hin | [<- | []]]; [now left |].
        right. exists t. auto.
      * right. exists tr. auto.
    + intros tr [<- | Htr] Ht.
      * apply I2. unfold scan_step. rewrite Ht; cbn [andb].
        destruct (existsb (String.eqb (tp_name t)) det) eqn:E; cbn [negb].
        -- now apply existsb_eqb_In.
        -- apply in_or_app. right. now left.
      * now apply I4.
Qed.

Lemma scan_facts (text : string) (det : list string) :
  (List.NoDup det -> List.NoDup (scan det text))
  /\ (forall x, In x det -> In x (scan det text))
  /\ (forall x, In x (scan det text) ->
        In x det \/ exists tr, In tr trackerPatterns /\ tp_name tr = x
                               /\ test (tp_pattern tr) text = true)
  /\ (forall tr, In tr trackerPatterns -> test (tp_pattern tr) text = true ->
        In (tp_name tr) (scan det text)).
Proof. exact (scan_fold text trackerPatterns det). Qed.

Lemma fold_left_cons {A B : Type} (f : A -> B -> A) (x : B) (l : list B) (a : A) :
  fold_left f (x :: l) a = fold_left f l (f a x).
Proof. reflexivity. Qed.

Lemma scan_texts (texts : list string) (det : list string) :
  let out := fold_left scan texts det in
  (List.NoDup det -> List.NoDup out)
  /\ (forall x, In x det -> In x out)
  /\ (forall x, In x out ->
        In x det \/ exists tr text, In tr trackerPatterns /\ tp_name tr = x
                                    /\ In text texts
                                    /\ test (tp_pattern tr) text = true)
  /\ (forall tr text, In tr trackerPatterns -> In text texts ->
        test (tp_pattern tr) text = true -> In (tp_name tr) out).
Proof.
  cbv zeta. revert det.
  induction texts as [| text texts IH]; intros det.
  - change (fold_left scan [] det) with det.
    repeat split; try (intros; assumption).
    + intros x Hx. left. exact Hx.
    + intros tr text _ Hin. destruct (in_nil Hin).
  - rewrite fold_left_cons.
    destruct (IH (scan det text)) as (I1 & I2 & I3 & I4).
    destruct (scan_facts text det) as (S1 & S2 & S3 & S4).
    repeat split.
    + intros Hnd. apply I1, S1, Hnd.
    + intros x Hx. apply I2, S2, Hx.
    + intros x Hx. destruct (I3 x Hx) as [Hin | (tr & t' & H1 & H2 & H3 & H4)].
      * destruct (S3 x Hin) as [Hd | (tr & H1 & H2 & H3)]; [left; exact Hd |].
        right. exists tr, text. repeat split; try assumption.
        apply in_eq.
      * right. exists tr, t'. repeat split; try assumption.
        apply in_cons, H3.
    + intros tr t' Htr Hin Ht. apply in_inv in Hin as [<- | Hin].
      * apply I2, S4; assumption.
      * apply (I4 tr t'); assumption.
Qed.

Lemma detected_is_a_scan (p : Page) :
  detected (detectTrackers p) = fold_left scan (scanned_texts p) [].
Proof.
  unfold detectTrackers, scanned_texts; cbn [detected].
  now rewrite !fold_left_app.
Qed.

Lemma detectTrackers_facts (p : Page) :
  let t := detectTrackers p in
  List.NoDup (detected t)
  /\ (forall name,
         In name (detected t)
         <-> exists tr text, In tr trackerPatterns /\ tp_name tr = name
                             /\ In text (scanned_texts p)
                             /\ test (tp_pattern tr) text = true)
  /\ len (detected t) <= 23
  /\ len (scripts t) <= 20
  /\ scripts t = firstn 20 (script_srcs p)
  /\ blocked t = 0%Q.
Proof.
  cbv zeta.
  destruct (scan_texts (scanned_texts p) []) as (S1 & _ & S3 & S4).
  cbv zeta in *. rewrite <- detected_is_a_scan in *.
  assert (Hnd : List.NoDup (detected (detectTrackers p)))
    by (apply S1; constructor).
  split; [exact Hnd |]. split; [| split; [| split; [| split]]].
  - intros name. split.
    + intros Hin. destruct (S3 name Hin) as [[] | H]. exact H.
    + intros (tr & text & H1 & <- & H3 & H4). now apply (S4 tr text).
  - unfold len. change 23 with (Z.of_nat (List.length (tp_name <$> trackerPatterns))).
    apply inj_le, List.NoDup_incl_length; [exact Hnd |].
    intros x Hx. destruct (S3 x Hx) as [[] | (tr & _ & Htr & <- & _)].
    now apply in_map.
  - unfold len, detectTrackers; cbn [scripts]. rewrite length_firstn. lia.
  - reflexivity.
  - reflexivity.
Qed.

(** X11. [detectTrackers] lists a tracker exactly when its pattern matches
    one of the scanned texts (the [src] of a script, the text of an inline
    script, the [src] of an image that is at most one pixel large or whose
    [src] contains [/pixel] or [/beacon]); no name is listed twice, so at
    most 23 are; at most 20 script sources are reported and [blocked] is 0. *)
Theorem detectTrackers_sound_and_complete (p : Page) :
  let t := detectTrackers p in
  List.NoDup (detected t)
  /\ (forall name,
         In name (detected t)
         <-> exists tr text, In tr trackerPatterns /\ tp_name tr = name
                             /\ In text (scanned_texts p)
                             /\ test (tp_pattern tr) text = true)
  /\ len (detected t) <= 23
  /\ len (scripts t) <= 20
  /\ scripts t = firstn 20 (script_srcs p)
  /\ blocked t = 0%Q.
Proof. exact (detectTrackers_facts p). Qed.

Lemma prefix_app_l (a b s : string) :
  String.prefix (a +:+ b) s = true -> String.prefix a s = true.
Proof.
  revert s; induction a as [| c a IH]; intros s; [now destruct s |].
  destruct s as [| d s]; simpl; [discriminate |].
  destruct (ascii_dec c d); [apply IH | discriminate].
Qed.

Lemma includes_app_l (s a b : string) :
  includes s (a +:+ b) = true -> includes s a = true.
Proof.
  induction s as [| c s IH]; cbn [includes].
  - rewrite !orb_false_r. apply prefix_app_l.
  - intros H. apply orb_true_iff in H as [H | H]; apply orb_true_iff.
    + left. exact (prefix_app_l _ _ _ H).
    + right. now apply IH.
Qed.

Lemma two_distinct_members (a b : string) (l : list string) :
  a <> b -> In a l -> In b l -> 2 <= len l.
Proof.
  intros Hne Ha Hb. unfold len.
  destruct l as [| x [| y l]].
  - destruct Ha.
  - destruct Ha as [<- | []], Hb as [<- | []]. congruence.
  - change (List.length (x :: y :: l)) with (S (S (List.length l))). lia.
Qed.

(** X12. A page on which Google Tag Manager is detected has Google Analytics
    detected as well, since every text that matches
    [googletagmanager\.com\/gtm] matches [googletagmanager\.com]: such a
    page counts two trackers and its tracker score before the multiplier is
    at most 80. *)
Theorem tag_manager_counts_as_analytics (p : Page) (signals : PageSignals) :
  trackers signals = detectTrackers p ->
  In "Google Tag Manager" (detected (trackers signals)) ->
  In "Google Analytics" (detected (trackers signals))
  /\ trackerScore signals <= 80.
Proof.
  intros Ht Hgtm. rewrite Ht in *.
  destruct (detectTrackers_facts p) as (_ & Hiff & _).
  cbv zeta in Hiff.
  assert (Hga : In "Google Analytics" (detected (detectTrackers p))).
  { apply Hiff in Hgtm as (tr & text & Htr & Hname & Htext & Htest).
    apply Hiff.
    exists {| tp_pattern := [literal "google-analytics.com";
                             literal "googletagmanager.com";
                             literal "ga.js"; literal "gtag"];
              tp_name := "Google Analytics" |}, text.
    split; [cbn; auto |]. split; [reflexivity |]. split; [exact Htext |].
    assert (tp_pattern tr = [literal "googletagmanager.com/gtm"]) as Hp.
    { cbn in Htr.
      repeat (destruct Htr as [<- | Htr]; [try discriminate Hname; try reflexivity |]).
      destruct Htr. }
    rewrite Hp in Htest. unfold test in *. cbn [existsb tp_pattern] in *.
    rewrite orb_false_r in Htest.
    change "googletagmanager.com/gtm" with ("googletagmanager.com" +:+ "/gtm")
      in Htest.
    apply includes_app_l in Htest. rewrite Htest.
    now rewrite orb_true_r. }
  split; [exact Hga |].
  unfold trackerScore. rewrite Ht.
  pose proof (two_distinct_members "Google Analytics" "Google Tag Manager"
                (detected (detectTrackers p)) ltac:(discriminate) Hga Hgtm).
  lia.
Qed.

Lemma tag_manager_counts_as_analytics_witness :
  In "Google Analytics" (detected (detectTrackers sample_page)).
Proof.
  refine (proj1 (tag_manager_counts_as_analytics sample_page
                   {| url := ""; domain := ""; timestamp := 0;
                      cookies := collectCookies sample_page;
                      trackers := detectTrackers sample_page;
                      fingerprinting := detectFingerprinting sample_page;
                      headers := analyzeHeaders sample_page;
                      ssl := checkSSL sample_page |} eq_refl _)).
  vm_compute. auto.
Defined.

(** *** Fingerprinting, headers and the whole bundle *)

Lemma detectFingerprinting_techniques (p : Page) :
  let t := techniques (detectFingerprinting p) in
  sublist t ["Canvas"; "WebGL"; "Audio"; "Fonts"]
  /\ (canvas_probe p <> Some true -> ~ In "Canvas" t)
  /\ (webgl_probe p <> Some true -> ~ In "WebGL" t).
Proof.
  cbv zeta. unfold detectFingerprinting; cbv zeta; cbn [techniques].
  destruct (bool_decide (canvas_probe p = Some true)) eqn:Hc;
    destruct (bool_decide (webgl_probe p = Some true)) eqn:Hw;
    destruct (existsb (fun c => includes c "WEBGL_debug_renderer_info") _);
    destruct (existsb (fun c => includes c "AudioContext"
                                && includes c "createOscillator") _);
    destruct (existsb (fun c => includes c "measureText" && includes c "font") _);
    cbn [andb app];
    (split;
     [ repeat first [ apply sublist_nil | apply sublist_skip | apply sublist_cons ]
     | split; intros Hp Hin;
       first [ apply bool_decide_eq_true in Hc; exact (Hp Hc)
             | apply bool_decide_eq_true in Hw; exact (Hp Hw)
             | cbn [In] in Hin; intuition discriminate ] ]).
Qed.

Lemma detectFingerprinting_risk (p : Page) :
  risk (detectFingerprinting p)
  = let n := len (techniques (detectFingerprinting p)) in
    if 3 <=? n then high else if 1 <=? n then medium else low.
Proof. reflexivity. Qed.

(** X13. [detectFingerprinting] reports some of Canvas, WebGL, Audio and
    Fonts, in that order and each at most once, with risk [low] for none,
    [medium] for one or two and [high] for three or four; a probe that throws
    adds nothing.  The fingerprint score before the multiplier of a bundle
    collected that way is 95, 70, 65, 40 or 35. *)
Theorem detectFingerprinting_tiers (p : Page) (signals : PageSignals) :
  fingerprinting signals = detectFingerprinting p ->
  let f := fingerprinting signals in
  sublist (techniques f) ["Canvas"; "WebGL"; "Audio"; "Fonts"]
  /\ (risk f = low <-> techniques f = [])
  /\ (risk f = medium <-> 1 <= len (techniques f) <= 2)
  /\ (risk f = high <-> 3 <= len (techniques f))
  /\ (canvas_probe p <> Some true -> ~ In "Canvas" (techniques f))
  /\ (webgl_probe p <> Some true -> ~ In "WebGL" (techniques f))
  /\ In (fingerprintScore signals) [95; 70; 65; 40; 35].
Proof.
  intros Hf; cbv zeta. unfold fingerprintScore. rewrite Hf.
  destruct (detectFingerprinting_techniques p) as (Hsub & Hcanvas & Hwebgl).
  cbv zeta in Hsub, Hcanvas, Hwebgl.
  pose proof (detectFingerprinting_risk p) as Hrisk. cbv zeta in Hrisk.
  pose proof (sublist_length _ _ Hsub) as Hlen.
  change (List.length ["Canvas"; "WebGL"; "Audio"; "Fonts"]) with 4%nat in Hlen.
  assert (Hnil : techniques (detectFingerprinting p) = []
                 <-> len (techniques (detectFingerprinting p)) = 0).
  { unfold len. rewrite <- length_zero_iff_nil. lia. }
  revert Hrisk Hlen Hnil. unfold len.
  generalize (List.length (techniques (detectFingerprinting p))) as n.
  intros n Hrisk Hlen Hnil.
  split; [exact Hsub |].
  rewrite Hrisk, Hnil.
  destruct (Z.leb_spec 3 (Z.of_nat n)), (Z.leb_spec 1 (Z.of_nat n));
    cbn [riskPenalty In];
    (repeat split; try assumption; intros; try discriminate; try lia).
Qed.

Lemma detectFingerprinting_tiers_witness :
  In (fingerprintScore
        {| url := ""; domain := ""; timestamp := 0;
           cookies := collectCookies sample_page;
           trackers := detectTrackers sample_page;
           fingerprinting := detectFingerprinting sample_page;
           headers := analyzeHeaders sample_page; ssl := checkSSL sample_page |})
     [95; 70; 65; 40; 35].
Proof.
  apply (detectFingerprinting_tiers sample_page
           {| url := ""; domain := ""; timestamp := 0;
              cookies := collectCookies sample_page;
              trackers := detectTrackers sample_page;
              fingerprinting := detectFingerprinting sample_page;
              headers := analyzeHeaders sample_page;
              ssl := checkSSL sample_page |} eq_refl).
Defined.

(** X14. The header findings of the content script never count as required
    headers: its two names carry the suffix [(meta)].  After
    [enhanceSignals], the header score before the multiplier of a collected
    bundle is 80 when a CSP or referrer [meta] element was found, and
    otherwise that of the made-up headers: 95 on a trusted domain, 55 on any
    other. *)
Theorem collected_headerScore_values (p : Page) (signals : PageSignals)
    (isTrusted : bool) (w : World) :
  headers signals = analyzeHeaders p ->
  List.filter (fun x => existsb (String.eqb x) requiredHeaders)
    (present (headers signals)) = []
  /\ exists e w',
       enhanceSignals signals isTrusted w = (Returned e, w')
       /\ (headerScore e
           == if csp_meta p || referrer_meta p then 80
              else if isTrusted then 95 else 55)%Q.
Proof.
  intros Hh. split.
  - rewrite Hh. unfold analyzeHeaders; cbv zeta.
    destruct (csp_meta p), (referrer_meta p); reflexivity.
  - destruct (enhanceSignals_returns signals isTrusted w) as (e & w' & He & _ & _).
    exists e, w'. split; [exact He |].
    pose proof (enhanceSignals_headers _ _ _ _ _ He) as Hhe.
    unfold headerScore; cbv zeta. rewrite Hhe, Hh.
    unfold analyzeHeaders; cbv zeta.
    destruct (csp_meta p), (referrer_meta p), isTrusted; vm_compute; reflexivity.
Qed.

Lemma collected_headerScore_values_witness :
  exists e w',
    enhanceSignals
      {| url := ""; domain := ""; timestamp := 0;
         cookies := collectCookies sample_page;
         trackers := detectTrackers sample_page;
         fingerprinting := detectFingerprinting sample_page;
         headers := analyzeHeaders sample_page; ssl := checkSSL sample_page |}
      false (fresh_world (sample_oracles 1000 0))
    = (Returned e, w')
    /\ (headerScore e == 80)%Q.
Proof.
  apply (proj2 (collected_headerScore_values sample_page
                  {| url := ""; domain := ""; timestamp := 0;
                     cookies := collectCookies sample_page;
                     trackers := detectTrackers sample_page;
                     fingerprinting := detectFingerprinting sample_page;
                     headers := analyzeHeaders sample_page;
                     ssl := checkSSL sample_page |}
                  false (fresh_world (sample_oracles 1000 0)) eq_refl)).
Defined.

(** X15. The COLLECT_SIGNALS case of the content script reads the clock
    once.  On a page that lets [document.cookie] be read, [collectAllSignals]
    returns, the bundle is sent as SIGNALS_COLLECTED and the answer is
    [{ success: true }]; the bundle carries that clock reading and its counts
    are plausible (the count of cookies is the number listed, the
    third-party estimate lies between 0 and the count, no header is listed
    twice).  On a page where reading [document.cookie] throws, as in a
    sandboxed document, [collectAllSignals] throws after the clock was read,
    nothing is sent as SIGNALS_COLLECTED and the answer is
    [{ success: false }] with the message of the error. *)
Theorem COLLECT_SIGNALS_reply (p : Page) (w : World) :
  let w' := with_clock_reads (S (clock_reads w)) w in
  (cookie_denied p = false ->
   exists b,
     collectAllSignals p w = (Returned b, w')
     /\ on_COLLECT_SIGNALS p w = (Returned (reply_success, Some b), w')
     /\ timestamp b = clock (oracles w) (clock_reads w)
     /\ cookies b = collectCookies p
     /\ count (cookies b) = inject_Z (len (cookie_list (cookies b)))
     /\ (thirdPartyCount (cookies b) <= count (cookies b))%Q
     /\ plausible b)
  /\ (cookie_denied p = true ->
      exists e,
        collectAllSignals p w = (Thrown e, w')
        /\ on_COLLECT_SIGNALS p w = (Returned (reply_failure e, None), w')).
Proof.
  cbv zeta. unfold on_COLLECT_SIGNALS, collectAllSignals, read_document_cookie.
  unfold try_catch, bind, ret, throw, Date_now.
  split; intros Hc; rewrite Hc.
  - eexists. split; [reflexivity |]. split; [reflexivity |].
    cbn [url domain timestamp ssl cookies headers].
    unfold plausible; cbn [cookies headers].
    unfold collectCookies; cbv zeta; cbn [count thirdPartyCount cookie_list].
    set (found := if String.eqb (document_cookie p) "" then [] else _).
    pose proof (len_nonneg found) as Hn.
    pose proof (Z.div_mod (len found * 3) 10 ltac:(lia)) as Hd.
    pose proof (Z.mod_pos_bound (len found * 3) 10 ltac:(lia)) as Hm.
    assert (Hf : Math_floor (inject_Z (len found) * (3 # 10)) = len found * 3 / 10)
      by reflexivity.
    rewrite Hf.
    do 3 (split; [reflexivity |]).
    split; [rewrite <- Zle_Qle; lia |].
    split; [change 0%Q with (inject_Z 0); rewrite <- Zle_Qle; lia |].
    split; [apply Qle_refl |].
    unfold analyzeHeaders; cbv zeta; cbn [present].
    destruct (csp_meta p), (referrer_meta p); cbn [app];
      apply NoDup_ListNoDup; repeat constructor; cbn [In]; intuition discriminate.
  - eexists. split; reflexivity.
Qed.

(** ** The service worker *)

(** *** What leaves the status alone *)

Lemma same_status_refl (w : World) : same_status w w.
Proof. repeat split. Qed.

Lemma same_status_trans (w1 w2 w3 : World) :
  same_status w1 w2 -> same_status w2 w3 -> same_status w1 w3.
Proof.
  intros (A1 & A2 & A3) (B1 & B2 & B3).
  repeat split; etransitivity; eassumption.
Qed.

Lemma keeps_ret {A} (a : A) : keeps_status (ret a).
Proof. intros w. apply same_status_refl. Qed.

Lemma keeps_bind {A B} (c : M A) (f : A -> M B) :
  keeps_status c -> (forall a, keeps_status (f a)) -> keeps_status (bind c f).
Proof.
  intros Hc Hf w. unfold bind. pose proof (Hc w) as H.
  destruct (c w) as [[a | e] w1]; cbn [snd] in *; [| exact H].
  exact (same_status_trans _ _ _ H (Hf a w1)).
Qed.

Lemma keeps_try_catch {A} (body : M A) (handler : string -> M A) :
  keeps_status body -> (forall e, keeps_status (handler e)) ->
  keeps_status (try_catch body handler).
Proof.
  intros Hc Hf w. unfold try_catch. pose proof (Hc w) as H.
  destruct (body w) as [[a | e] w1]; cbn [snd] in *; [exact H |].
  exact (same_status_trans _ _ _ H (Hf e w1)).
Qed.

Lemma keeps_Date_now : keeps_status Date_now.
Proof. intros w. repeat split. Qed.

Lemma keeps_Math_random : keeps_status Math_random.
Proof. intros w. repeat split. Qed.

Lemma keeps_storage_call {A} (op : StorageOp) (f : LocalStorage -> A * LocalStorage) :
  keeps_status (storage_call op f).
Proof.
  intros w. unfold storage_call; cbv zeta.
  destruct (storage_fault _ _); [repeat split |].
  destruct (f (local w)); repeat split.
Qed.

Lemma keeps_throw {A} (e : string) : keeps_status (@throw A e).
Proof. intros w. apply same_status_refl. Qed.

Ltac frame :=
  repeat first
    [ apply keeps_ret | apply keeps_throw | apply keeps_Date_now
    | apply keeps_Math_random
    | apply keeps_storage_call
    | apply keeps_bind; [| intros ?]
    | apply keeps_try_catch; [| intros ?]
    | match goal with
      | |- keeps_status (if ?b then _ else _) => destruct b
      | |- keeps_status (match ?x with _ => _ end) => destruct x
      end ].

Lemma keeps_simulateAnalysis (signals : PageSignals) :
  keeps_status (simulateAnalysis signals).
Proof.
  unfold simulateAnalysis, enhanceSignals, generateId; cbv zeta. frame.
Qed.

Lemma keeps_getSettings : keeps_status getSettings.
Proof. unfold getSettings, get_settings. frame. Qed.

Lemma keeps_setCachedResult (d : string) (res : AnalysisResult) :
  keeps_status (setCachedResult d res).
Proof.
  unfold setCachedResult. apply keeps_try_catch; [| intros; apply keeps_ret].
  apply keeps_bind; [apply keeps_getSettings | intros s].
  cbv zeta. unfold get_cachedResults, set_cachedResults, toISOString. frame.
Qed.

Lemma keeps_getCachedResult (d : string) : keeps_status (getCachedResult d).
Proof.
  unfold getCachedResult, get_cachedResults, set_cachedResults. frame.
Qed.

Lemma keepsW_ret {A} (a : A) : keeps_statusW (retW a).
Proof. intros k. apply same_status_refl. Qed.

Lemma keepsW_bind {A B} (c : MW A) (f : A -> MW B) :
  keeps_statusW c -> (forall a, keeps_statusW (f a)) -> keeps_statusW (bindW c f).
Proof.
  intros Hc Hf k. unfold bindW. pose proof (Hc k) as H.
  destruct (c k) as [[a | e] k1]; cbn [snd] in *; [| exact H].
  exact (same_status_trans _ _ _ H (Hf a k1)).
Qed.

Lemma keepsW_lift {A} (c : M A) : keeps_status c -> keeps_statusW (liftW c).
Proof.
  intros Hc k. unfold liftW. pose proof (Hc (world k)) as H.
  destruct (c (world k)) as [o w]. exact H.
Qed.

Lemma keepsW_session_call {A}
    (f : option (gmap Z AnalysisResult) -> A * option (gmap Z AnalysisResult)) :
  keeps_statusW (session_call f).
Proof.
  intros k. unfold session_call; cbv zeta.
  destruct (session_fault _ _); [repeat split |].
  destruct (f (currentTabResults k)); repeat split.
Qed.

Lemma keepsW_generateExplanationAsync_start (r : AnalysisResult) :
  keeps_statusW (generateExplanationAsync_start r).
Proof.
  unfold generateExplanationAsync_start.
  apply keepsW_bind; [apply keepsW_lift, keeps_Math_random |].
  intros _ k. repeat split.
Qed.

Lemma keepsW_send_ANALYSIS_RESULT (r : AnalysisResult) (b : bool) :
  keeps_statusW (send_ANALYSIS_RESULT r b).
Proof. intros k. repeat split. Qed.

(** The body of the [try] in [analyzeSignals]. *)
Lemma keepsW_analyzeSignals_body (signals : PageSignals) (tabId : Z) :
  keeps_statusW
    (let+ _ := liftW Math_random in
     let+ result := liftW (simulateAnalysis signals) in
     let+ _ := liftW (setCachedResult (domain signals) result) in
     let+ sessionResults := get_currentTabResults in
     let tabResults := <[tabId := result]> (default ∅ sessionResults) in
     let+ _ := set_currentTabResults tabResults in
     let+ _ := generateExplanationAsync_start result in
     retW result).
Proof.
  repeat first
    [ apply keepsW_ret
    | apply keepsW_generateExplanationAsync_start
    | apply keepsW_session_call
    | apply keepsW_lift;
      first [ apply keeps_Math_random | apply keeps_simulateAnalysis
            | apply keeps_setCachedResult ]
    | apply keepsW_bind; [| intros ?]
    | progress cbv zeta ].
Qed.

Lemma with_pendingAnalyses_same (s : ExtensionStatus) :
  with_pendingAnalyses (pendingAnalyses s) s = s.
Proof. now destruct s. Qed.

(** X16. A call of [analyzeSignals] that runs without another handler in
    between leaves [extensionStatus] as it found it, on the way out through
    [return] and on the way out through an exception alike, and broadcasts
    exactly two statuses: the one with [pendingAnalyses] raised by one, then
    the original. *)
Theorem analyzeSignals_restores_pendingAnalyses (signals : PageSignals)
    (tabId : Z) (k : Worker) :
  let k' := snd (analyzeSignals signals tabId k) in
  let s := extensionStatus (world k) in
  extensionStatus (world k') = s
  /\ broadcasts (world k')
     = (broadcasts (world k)
        ++ [with_pendingAnalyses (pendingAnalyses s + 1) s; s])%list.
Proof.
  cbv zeta.
  destruct (analyzeSignals signals tabId k) as [o k'] eqn:E. cbn [snd].
  unfold analyzeSignals in E.
  pose proof (keepsW_analyzeSignals_body signals tabId) as Hbody.
  cbv zeta in Hbody.
  set (body := bindW (liftW Math_random) _) in *.
  unfold bindW at 1 in E.
  unfold liftW at 1, bump_pendingAnalyses at 1, updateStatus at 1 in E.
  cbv zeta in E. unfold try_finally in E.
  set (k1 := with_world _ k) in E.
  destruct (Hbody k1) as (_ & H2 & H3).
  destruct (body k1) as [o2 k2]. cbn [snd] in H2, H3.
  unfold liftW, bump_pendingAnalyses, updateStatus in E; cbv zeta in E.
  injection E as _ <-.
  cbn [world with_world extensionStatus broadcasts with_status].
  rewrite H2, H3. subst k1.
  cbn [world with_world extensionStatus broadcasts with_status].
  destruct (extensionStatus (world k)) as [a c p q]; cbn.
  replace (p + 1 + -1) with p by lia.
  split; [reflexivity |]. now rewrite <- app_assoc.
Qed.

(** *** [analyzeSignals] *)

#[local] Arguments simulateAnalysis : simpl never.
#[local] Arguments setCachedResult : simpl never.
#[local] Arguments getCachedResult : simpl never.

Lemma setCachedResult_returns (d : string) (res : AnalysisResult) (w : World) :
  exists w', setCachedResult d res w = (Returned tt, w').
Proof.
  unfold setCachedResult, try_catch.
  match goal with |- context [match ?c w with _ => _ end] => destruct (c w) as [[[] | e] w1] end;
    eexists; reflexivity.
Qed.

Lemma simulateAnalysis_fields (signals : PageSignals) (w w' : World)
    (r : AnalysisResult) :
  simulateAnalysis signals w = (Returned r, w') ->
  ar_domain r = domain signals /\ ar_url r = url signals
  /\ explanation r = Some pending_explanation.
Proof.
  destruct (enhanceSignals_returns signals
              (isTrustedDomain (toLowerCase (domain signals))) w)
    as (e & we & He & _ & _).
  unfold simulateAnalysis; run_monad. rewrite He.
  destruct (generateId we) as [[id | e1] w1]; [| discriminate].
  cbv beta iota zeta.
  intros H. apply (f_equal fst) in H. cbn [fst] in H.
  assert (Hr : forall x y : AnalysisResult, Returned x = Returned y -> x = y)
    by (intros x y [=]; assumption).
  apply Hr in H. rewrite <- H. repeat split.
Qed.

(** [enhanceSignals] and [simulateAnalysis] leave the store alone;
    [simulateAnalysis] reads the clock twice, and a third time when it makes
    up the certificate. *)
Lemma enhanceSignals_world (signals : PageSignals) (isTrusted : bool) (w : World) :
  let w' := snd (enhanceSignals signals isTrusted w) in
  local w' = local w
  /\ storage_log w' = storage_log w
  /\ (clock_reads w' = clock_reads w \/ clock_reads w' = S (clock_reads w)).
Proof.
  cbv zeta. unfold enhanceSignals; run_monad.
  destruct (len (detected (trackers signals)) =? 0);
    destruct (len (techniques (fingerprinting signals)) =? 0);
    destruct isTrusted;
    destruct (valid (ssl signals) && negb (truthy_string (issuer (ssl signals))));
    cbn; auto.
Qed.

Lemma simulateAnalysis_world (signals : PageSignals) (w : World) :
  let w' := snd (simulateAnalysis signals w) in
  local w' = local w
  /\ storage_log w' = storage_log w
  /\ (clock_reads w' = S (S (clock_reads w))
      \/ clock_reads w' = S (S (S (clock_reads w)))).
Proof.
  cbv zeta.
  pose proof (enhanceSignals_world signals
                (isTrustedDomain (toLowerCase (domain signals))) w) as Hw.
  destruct (enhanceSignals_returns signals
              (isTrustedDomain (toLowerCase (domain signals))) w)
    as (e & we & He & _ & _).
  cbv zeta in Hw. rewrite He in Hw; cbn [snd] in Hw.
  destruct Hw as (A & B & C).
  unfold simulateAnalysis; run_monad. rewrite He, generateId_eq.
  cbn [snd local storage_log clock_reads with_clock_reads with_random_reads].
  rewrite A, B. destruct C as [-> | ->]; auto.
Qed.

(** What [setCachedResult] needs to store an entry when it runs after
    [simulateAnalysis]. *)
Lemma setCachedResult_after_simulateAnalysis (signals : PageSignals)
    (w w3 : World) (r : AnalysisResult) :
  simulateAnalysis signals w = (Returned r, w3) ->
  storage_reliable w ->
  expiry_in_range_for 5 w ->
  storage_reliable w3 /\ in_Date_range (expiry_at w3).
Proof.
  intros Hsim Hr Hexp.
  pose proof (keeps_simulateAnalysis signals w) as (Ho & _).
  pose proof (simulateAnalysis_world signals w) as (Hl & _ & Hc).
  cbv zeta in Hl, Hc. rewrite Hsim in Ho, Hl, Hc; cbn [snd] in Ho, Hl, Hc.
  split; [intros n; rewrite Ho; apply Hr |].
  unfold expiry_at, effective_settings. rewrite Ho, Hl.
  destruct Hc as [-> | ->].
  - replace (S (S (S (clock_reads w)))) with (clock_reads w + 3)%nat by lia.
    apply (Hexp 3%nat). lia.
  - replace (S (S (S (S (clock_reads w))))) with (clock_reads w + 4)%nat by lia.
    apply (Hexp 4%nat). lia.
Qed.

Ltac worker_step :=
  cbn [world with_world currentTabResults session_fault session_ops
       result_messages explanations_started tabs_created fst snd
       oracles clock_reads random_reads storage_log local extensionStatus
       broadcasts with_status with_random_reads with_clock_reads with_storage
       cachedResults offlineQueue settings from_option id].

(** X17. When no call to the session store rejects, [analyzeSignals] returns
    the result of [simulateAnalysis] for the bundle: a result for the
    bundle's domain and URL whose explanation is pending.  It has put that
    result under the tab id in [currentTabResults], keeping what was there
    for other tabs, has started one explanation for it and has sent no
    ANALYSIS_RESULT message.  When no call to the local store rejects
    either, the domain is not [__proto__] and the expiry is a time a [Date]
    holds, the cache holds the result under the bundle's domain. *)
Theorem analyzeSignals_success (signals : PageSignals) (tabId : Z) (k : Worker) :
  session_reliable k ->
  exists r k',
    analyzeSignals signals tabId k = (Returned r, k')
    /\ ar_domain r = domain signals
    /\ ar_url r = url signals
    /\ explanation r = Some pending_explanation
    /\ currentTabResults k'
       = Some (<[tabId := r]> (default ∅ (currentTabResults k)))
    /\ (forall t, t <> tabId ->
          default ∅ (currentTabResults k') !! t
          = default ∅ (currentTabResults k) !! t)
    /\ explanations_started k' = (explanations_started k ++ [r])%list
    /\ result_messages k' = result_messages k
    /\ (storage_reliable (world k) ->
        domain signals <> "__proto__" ->
        expiry_in_range_for 5 (world k) ->
        result <$> cache_lookup (domain signals) (world k') = Some r).
Proof.
  intros Hs.
  unfold analyzeSignals, bindW, try_finally, liftW, bump_pendingAnalyses,
    updateStatus, Math_random, get_currentTabResults, set_currentTabResults,
    session_call, generateExplanationAsync_start, bindW, liftW, retW.
  cbv zeta. worker_step.
  match goal with
  | |- context [simulateAnalysis signals ?W] =>
      set (w2 := W);
      destruct (simulateAnalysis_returns signals w2) as (r & w3 & _ & _ & Hsim & _)
  end.
  rewrite Hsim. worker_step.
  destruct (setCachedResult_returns (domain signals) r w3) as (w4 & Hset).
  rewrite Hset. worker_step.
  repeat (rewrite Hs; worker_step).
  unfold Math_random; worker_step.
  destruct (simulateAnalysis_fields _ _ _ _ Hsim) as (F1 & F2 & F3).
  exists r. eexists. split; [reflexivity |]. worker_step.
  repeat (split; [first [assumption | reflexivity] |]).
  split; [intros t Ht; rewrite lookup_insert_ne; [reflexivity | congruence] |].
  repeat (split; [reflexivity |]).
  intros Hr Hd Hexp.
  destruct (setCachedResult_after_simulateAnalysis signals w2 w3 r Hsim Hr Hexp)
    as (Hr3 & Hin3).
  rewrite (setCachedResult_writes _ _ _ Hr3 Hin3) in Hset.
  injection Hset as <-.
  unfold cache_lookup, later_world, store_with_cache. worker_step.
  rewrite js_assign_insert by (left; exact Hd).
  now rewrite lookup_insert_eq.
Qed.

Lemma analyzeSignals_success_witness :
  exists r k',
    analyzeSignals sample_signals 7
      (fresh_worker (fresh_world (sample_oracles 1000 0)))
    = (Returned r, k')
    /\ currentTabResults k' = Some {[ 7 := r ]}.
Proof.
  destruct (analyzeSignals_success sample_signals 7
              (fresh_worker (fresh_world (sample_oracles 1000 0)))
              (fun _ => eq_refl))
    as (r & k' & H1 & _ & _ & _ & H2 & _).
  exists r, k'. split; [exact H1 | exact H2].
Defined.

(** X18. When the read or the write of the session store rejects,
    [analyzeSignals] throws that error and the sender of ANALYZE_PAGE gets
    it as [{ error }]: [currentTabResults] is as before and no explanation
    is started.  The result was cached before the session store was
    touched: when no call to the local store rejects, the domain is not
    [__proto__] and the expiry is a time a [Date] holds, the cache holds a
    result for the bundle's domain all the same. *)
Theorem analyzeSignals_session_failure (signals : PageSignals) (tabId : Z)
    (k : Worker) :
  session_fault k (session_ops k) = true
  \/ session_fault k (S (session_ops k)) = true ->
  exists k',
    analyzeSignals signals tabId k = (Thrown "session storage error", k')
    /\ respond (finish_ANALYZE_PAGE signals tabId) k
       = (Returned (error_message "session storage error"), k')
    /\ currentTabResults k' = currentTabResults k
    /\ explanations_started k' = explanations_started k
    /\ (storage_reliable (world k) ->
        domain signals <> "__proto__" ->
        expiry_in_range_for 5 (world k) ->
        exists r, result <$> cache_lookup (domain signals) (world k') = Some r
                  /\ ar_domain r = domain signals).
Proof.
  intros Hf.
  unfold respond, finish_ANALYZE_PAGE.
  unfold analyzeSignals, bindW, try_finally, liftW, bump_pendingAnalyses,
    updateStatus, Math_random, get_currentTabResults, set_currentTabResults,
    session_call, generateExplanationAsync_start, bindW, liftW, retW.
  cbv zeta. worker_step.
  match goal with
  | |- context [simulateAnalysis signals ?W] =>
      set (w2 := W);
      destruct (simulateAnalysis_returns signals w2) as (r & w3 & _ & _ & Hsim & _)
  end.
  rewrite Hsim. worker_step.
  destruct (setCachedResult_returns (domain signals) r w3) as (w4 & Hset).
  rewrite Hset. worker_step.
  destruct (simulateAnalysis_fields _ _ _ _ Hsim) as (F1 & F2 & F3).
  assert (Hcache : storage_reliable (world k) ->
                   domain signals <> "__proto__" ->
                   expiry_in_range_for 5 (world k) ->
                   result <$> cache_lookup (domain signals) w4 = Some r).
  { intros Hr Hd Hexp.
    destruct (setCachedResult_after_simulateAnalysis signals w2 w3 r Hsim Hr Hexp)
      as (Hr3 & Hin3).
    rewrite (setCachedResult_writes _ _ _ Hr3 Hin3) in Hset.
    injection Hset as <-.
    unfold cache_lookup, later_world, store_with_cache. worker_step.
    rewrite js_assign_insert by (left; exact Hd).
    now rewrite lookup_insert_eq. }
  destruct (session_fault k (session_ops k)) eqn:E1; worker_step.
  - eexists. repeat (split; [reflexivity |]).
    intros Hr Hd Hexp. exists r. split; [exact (Hcache Hr Hd Hexp) | exact F1].
  - destruct Hf as [Hf | Hf]; [discriminate |].
    rewrite Hf. worker_step.
    eexists. repeat (split; [reflexivity |]).
    intros Hr Hd Hexp. exists r. split; [exact (Hcache Hr Hd Hexp) | exact F1].
Qed.

Lemma analyzeSignals_session_failure_witness :
  exists k',
    analyzeSignals sample_signals 7
      {| world := fresh_world (sample_oracles 1000 0);
         currentTabResults := None; session_fault := fun _ => true;
         session_ops := 0; result_messages := []; explanations_started := [];
         tabs_created := [] |}
    = (Thrown "session storage error", k').
Proof.
  destruct (analyzeSignals_session_failure sample_signals 7
              {| world := fresh_world (sample_oracles 1000 0);
                 currentTabResults := None; session_fault := fun _ => true;
                 session_ops := 0; result_messages := [];
                 explanations_started := []; tabs_created := [] |}
              (or_introl eq_refl))
    as (k' & H & _).
  exists k'. exact H.
Defined.

(** *** [generateExplanationAsync] *)

(** A rejected read of the cache reads as a miss. *)
Lemma getCachedResult_read_fails (d : string) (w : World) :
  storage_fault (oracles w) (next_storage_call w) = true ->
  getCachedResult d w
  = (Returned None, with_storage (storage_log w ++ [op_get K_cachedResults])
                      (local w) w).
Proof.
  intros H. unfold next_storage_call in H.
  unfold getCachedResult, get_cachedResults, storage_call, try_catch, bind, ret.
  cbv zeta. now rewrite H.
Qed.

(** A store without [cachedResults] reads as a miss, whatever the domain. *)
Lemma getCachedResult_no_cache (d : string) (w : World) :
  storage_reliable w ->
  cachedResults (local w) = None ->
  getCachedResult d w
  = (Returned None, later_world w 0 [op_get K_cachedResults] (local w)).
Proof.
  intros H Hc.
  unfold getCachedResult, get_cachedResults, storage_call, try_catch, bind, ret.
  cbv zeta. rewrite H, Hc. unfold later_world. now rewrite Nat.add_0_r.
Qed.

(** X19. When the explanation of [res] is ready and the cache holds a live
    entry for the domain of [res], [generateExplanationAsync] marks the
    cached result (whichever analysis it is) complete with the text made for
    [res] and the time of the next clock reading, hands it to
    [setCachedResult], and sends it once as ANALYSIS_RESULT with [fromCache]
    true, whether or not it was stored.  When the new expiry is a time a
    [Date] holds, the entry is stamped anew, so its expiry is counted from
    the moment the explanation arrived; when it is not, the entry stays as
    it was, without the explanation.  The entries of other domains stay. *)
Theorem explanation_completes_cached_result (Number_toString : Q -> string)
    (res : AnalysisResult) (k : Worker) (c : CachedAnalysis) :
  storage_reliable (world k) ->
  cache_lookup (ar_domain res) (world k) = Some c ->
  clock (oracles (world k)) (clock_reads (world k)) <= expiresAt c ->
  let now := clock (oracles (world k)) in
  let n := clock_reads (world k) in
  let ttl := cacheExpiration (effective_settings (world k)) in
  let updated :=
    with_explanation
      (complete_explanation (simulateExplanation Number_toString res) (now (S n)))
      (result c) in
  exists k',
    generateExplanationAsync_resume Number_toString res k = (Returned tt, k')
    /\ result_messages k' = (result_messages k ++ [(updated, true)])%list
    /\ (in_Date_range (now (S (S (S n))) + ttl * 60 * 60 * 1000) ->
        cache_lookup (ar_domain res) (world k')
        = Some (new_entry updated ttl (now (S (S n))) (now (S (S (S n))))))
    /\ (~ in_Date_range (now (S (S (S n))) + ttl * 60 * 60 * 1000) ->
        cache_lookup (ar_domain res) (world k') = Some c)
    /\ (forall d, d <> ar_domain res ->
          cache_lookup d (world k') = cache_lookup d (world k)).
Proof.
  intros Hr Hl Hle; cbv zeta.
  unfold generateExplanationAsync_resume; cbv zeta.
  unfold bindW at 1, liftW at 1.
  rewrite (getCachedResult_live _ _ _ Hr Hl Hle).
  unfold later_world. rewrite Nat.add_1_r.
  unfold bindW at 1, liftW at 1, Date_now. worker_step.
  unfold bindW at 1, liftW at 1. worker_step.
  set (w1 := with_clock_reads _ _).
  assert (Hr1 : storage_reliable w1) by (intros i; apply Hr).
  assert (Hown : is_Some (default ∅ (cachedResults (local w1)) !! ar_domain res)).
  { subst w1; worker_step. unfold cache_lookup in Hl.
    destruct (cachedResults (local (world k))); [| discriminate].
    cbn. now rewrite Hl. }
  destruct (Z_le_dec (Z.abs (expiry_at w1)) Date_range) as [Hin | Hout].
  - rewrite (setCachedResult_writes _ _ _ Hr1 Hin).
    rewrite js_assign_insert by (right; exact Hown).
    unfold send_ANALYSIS_RESULT. worker_step.
    eexists. split; [reflexivity |]. worker_step.
    subst w1. unfold later_world, store_with_cache, cache_lookup, effective_settings.
    worker_step.
    split; [reflexivity |]. split; [| split].
    + intros _. now rewrite lookup_insert_eq.
    + intros Hno. exfalso. apply Hno. exact Hin.
    + intros d Hd. rewrite lookup_insert_ne by congruence.
      now destruct (cachedResults (local (world k))).
  - rewrite (setCachedResult_out_of_range _ _ _ Hr1 Hout).
    unfold send_ANALYSIS_RESULT. worker_step.
    eexists. split; [reflexivity |]. worker_step.
    subst w1. unfold later_world, cache_lookup. worker_step.
    split; [reflexivity |]. split; [| split].
    + intros Hin. exfalso. apply Hout. exact Hin.
    + intros _. exact Hl.
    + intros d Hd. reflexivity.
Qed.

Lemma explanation_completes_cached_result_witness :
  exists k',
    generateExplanationAsync_resume (fun _ => "4") sample_result
      (fresh_worker (world_with_entry 0))
    = (Returned tt, k')
    /\ length (result_messages k') = 1%nat.
Proof.
  destruct (explanation_completes_cached_result (fun _ => "4") sample_result
              (fresh_worker (world_with_entry 0))
              {| result := sample_result; cachedAt := 0; expiresAt := 10 |}
              (fun _ => eq_refl) eq_refl ltac:(cbn; lia))
    as (k' & H1 & H2 & _).
  exists k'. split; [exact H1 |]. now rewrite H2.
Defined.

(** X20. Without an own entry for the domain of [res], and also when the
    read of the cache rejects, [generateExplanationAsync] sends no message
    and writes nothing: the explanation is dropped.  It ends quietly then,
    except for a domain that is the name of a member of [Object.prototype]
    in a store that holds a cache: there [cached] is that member,
    [cached.result] is [undefined] and the assignment to its [explanation]
    throws a TypeError. *)
Theorem explanation_dropped_without_cached_result (Number_toString : Q -> string)
    (res : AnalysisResult) (k : Worker) :
  (storage_reliable (world k) /\ cache_lookup (ar_domain res) (world k) = None)
  \/ storage_fault (oracles (world k)) (next_storage_call (world k)) = true ->
  let out := generateExplanationAsync_resume Number_toString res k in
  let k' := snd out in
  let member_found :=
    negb (storage_fault (oracles (world k)) (next_storage_call (world k)))
    && bool_decide (is_Some (cachedResults (local (world k))))
    && inherited_key (ar_domain res) in
  result_messages k' = result_messages k
  /\ local (world k') = local (world k)
  /\ storage_log (world k')
     = (storage_log (world k) ++ [op_get K_cachedResults])%list
  /\ fst out = (if member_found then Thrown "TypeError" else Returned tt)
  /\ (member_found = false -> clock_reads (world k') = clock_reads (world k)).
Proof.
  intros H; cbv zeta. unfold generateExplanationAsync_resume; cbv zeta.
  unfold bindW, liftW.
  destruct H as [[Hr Hl] | Hf].
  - unfold next_storage_call. rewrite Hr. cbn [negb andb].
    destruct (cachedResults (local (world k))) as [cached |] eqn:Ec.
    + rewrite bool_decide_eq_true_2 by eauto. cbn [andb].
      unfold cache_lookup in Hl. rewrite Ec in Hl.
      destruct (inherited_key (ar_domain res)) eqn:Hi.
      * rewrite (getCachedResult_inherited _ _ cached Hr Ec Hl Hi).
        unfold later_world, Date_now, throw. worker_step. repeat split.
        discriminate.
      * rewrite (getCachedResult_absent _ _ Hr); [| | exact Hi].
        -- unfold retW, later_world. worker_step. repeat split. lia.
        -- unfold cache_lookup. now rewrite Ec.
    + rewrite bool_decide_eq_false_2 by (intros [x Hx]; discriminate).
      cbn [andb].
      rewrite (getCachedResult_no_cache _ _ Hr Ec).
      unfold retW, later_world. worker_step. repeat split. lia.
  - rewrite Hf. cbn [negb andb].
    rewrite (getCachedResult_read_fails _ _ Hf). unfold retW.
    worker_step. repeat split.
Qed.

Lemma explanation_dropped_without_cached_result_witness :
  fst (generateExplanationAsync_resume (fun _ => "4") sample_result
         (fresh_worker (fresh_world (sample_oracles 1000 0))))
  = Returned tt
  /\ result_messages
       (snd (generateExplanationAsync_resume (fun _ => "4") sample_result
               (fresh_worker (fresh_world (sample_oracles 1000 0)))))
     = [].
Proof.
  destruct (explanation_dropped_without_cached_result (fun _ => "4") sample_result
              (fresh_worker (fresh_world (sample_oracles 1000 0)))
              (or_introl (conj (fun _ => eq_refl) eq_refl)))
    as (H1 & _ & _ & H4 & _).
  split; [exact H4 | exact H1].
Defined.

(** *** The message listener *)

(** [getCachedResult] never throws, and it hands back a member of
    [Object.prototype] only for a domain that names one. *)
Lemma getCachedResult_returns (d : string) (w : World) :
  exists o w',
    getCachedResult d w = (Returned o, w')
    /\ (forall name, o = Some (inherited_member name) ->
          name = d /\ inherited_key d = true).
Proof.
  unfold getCachedResult, get_cachedResults, set_cachedResults, storage_call,
    try_catch, bind, ret, Date_now; cbv zeta.
  destruct (storage_fault (oracles w) (List.length (storage_log w)));
    [eexists _, _; split; [reflexivity | discriminate] |].
  destruct (cachedResults (local w)) as [cached |];
    [| eexists _, _; split; [reflexivity | discriminate]].
  destruct (cached !! d) as [c |].
  - destruct (expiresAt c <? _);
      [| eexists _, _; split; [reflexivity | discriminate]].
    cbn [oracles storage_log with_storage with_clock_reads].
    destruct (storage_fault _ _); eexists _, _; split;
      first [reflexivity | discriminate].
  - destruct (inherited_key d) eqn:Hi;
      [| eexists _, _; split; [reflexivity | discriminate]].
    eexists _, _; split; [reflexivity |]. intros name [= <-]. now split.
Qed.

Lemma getSettings_reads (w : World) :
  storage_reliable w ->
  getSettings w
  = (Returned (effective_settings w),
     with_storage (storage_log w ++ [op_get K_settings]) (local w) w).
Proof.
  intros H. unfold getSettings, get_settings, storage_call, try_catch, bind, ret.
  cbv zeta. now rewrite H.
Qed.

Lemma getSettings_read_fails (w : World) :
  storage_fault (oracles w) (next_storage_call w) = true ->
  getSettings w
  = (Returned DEFAULT_SETTINGS,
     with_storage (storage_log w ++ [op_get K_settings]) (local w) w).
Proof.
  intros H. unfold next_storage_call in H.
  unfold getSettings, get_settings, storage_call, try_catch, bind, ret.
  cbv zeta. now rewrite H.
Qed.

Lemma with_world_same (k : Worker) : with_world (world k) k = k.
Proof. now destruct k. Qed.

Section Listener.

Variable URL_hostname : string -> option string.

(** X21. After a CLEAR_CACHE that went through, GET_CACHED_RESULT answers
    [null] for every domain, and ANALYZE_PAGE goes on to collect signals for
    every URL whose domain is not the name of a member of
    [Object.prototype]; for a URL whose domain is one, such as
    [http://constructor/], it answers [fromCache] true without a result and
    collects nothing.  The offline queue and the settings are as before. *)
Theorem CLEAR_CACHE_empties_the_cache (k : Worker) :
  storage_reliable (world k) ->
  exists k1,
    respond (handleAsync URL_hostname CLEAR_CACHE) k
    = (Returned success_response, k1)
    /\ cachedResults (local (world k1)) = Some ∅
    /\ offlineQueue (local (world k1)) = offlineQueue (local (world k))
    /\ settings (local (world k1)) = settings (local (world k))
    /\ (forall d, exists k2,
          respond (handleAsync URL_hostname (GET_CACHED_RESULT d)) k1
          = (Returned (cached_response None), k2))
    /\ (forall tabId u, exists k2,
          respond (handleAsync URL_hostname (ANALYZE_PAGE tabId u)) k1
          = (Returned (if inherited_key (getDomainFromUrl URL_hostname u)
                       then response_without_result true
                       else collecting tabId u), k2)).
Proof.
  intros Hr.
  unfold respond, handleAsync.
  unfold bindW at 1, liftW at 1, set_cachedResults, storage_call; cbv zeta.
  rewrite Hr. unfold retW.
  eexists. split; [reflexivity |]. worker_step.
  repeat (split; [reflexivity |]).
  match goal with
  | |- context [with_world ?W k] => set (w1 := W)
  end.
  assert (Hr1 : storage_reliable w1) by (intros i; apply Hr).
  assert (Hc : cachedResults (local w1) = Some ∅) by reflexivity.
  assert (Hl : forall d, cache_lookup d w1 = None).
  { intros d. unfold cache_lookup; subst w1; worker_step. apply lookup_empty. }
  assert (Hget : forall d, exists w2,
             getCachedResult d w1
             = (Returned (if inherited_key d then Some (inherited_member d)
                          else None), w2)).
  { intros d. destruct (inherited_key d) eqn:Hi.
    - rewrite (getCachedResult_inherited d w1 ∅ Hr1 Hc (lookup_empty d) Hi).
      eexists; reflexivity.
    - rewrite (getCachedResult_absent d w1 Hr1 (Hl d) Hi). eexists; reflexivity. }
  split.
  - intros d. unfold bindW, liftW; worker_step.
    destruct (Hget d) as (w2 & ->).
    destruct (inherited_key d); eexists; reflexivity.
  - intros tabId u. cbv zeta. unfold bindW, liftW; worker_step.
    destruct (Hget (getDomainFromUrl URL_hostname u)) as (w2 & ->).
    destruct (inherited_key _); eexists; reflexivity.
Qed.

(** X22. GET_CACHED_RESULT, GET_STATUS and the first stage of ANALYZE_PAGE
    never answer with [{ error }], whatever the storage does: a rejected read
    of the cache answers like a miss.  ANALYZE_PAGE answers with a cached
    result and [fromCache] true, or goes on to collect signals, or, only for
    a URL whose domain is the name of a member of [Object.prototype],
    answers [fromCache] true without a result.  GET_STATUS and a message of
    an unknown type leave the worker as it is, and the unknown type is
    answered with the error [Unknown message type]. *)
Theorem reading_handlers_never_answer_error (k : Worker) :
  (forall d, exists o k',
      respond (handleAsync URL_hostname (GET_CACHED_RESULT d)) k
      = (Returned (cached_response o), k'))
  /\ (forall tabId u, exists k',
        (exists r, respond (handleAsync URL_hostname (ANALYZE_PAGE tabId u)) k
                   = (Returned (analysis_response r true), k'))
        \/ respond (handleAsync URL_hostname (ANALYZE_PAGE tabId u)) k
           = (Returned (collecting tabId u), k')
        \/ (inherited_key (getDomainFromUrl URL_hostname u) = true
            /\ respond (handleAsync URL_hostname (ANALYZE_PAGE tabId u)) k
               = (Returned (response_without_result true), k')))
  /\ respond (handleAsync URL_hostname GET_STATUS) k
     = (Returned (status_response (extensionStatus (world k))), k)
  /\ (forall type,
        respond (handleAsync URL_hostname (other_type type)) k
        = (Returned (error_message "Unknown message type"), k)).
Proof.
  unfold respond, handleAsync. repeat split.
  - intros d. unfold bindW, liftW.
    destruct (getCachedResult_returns d (world k)) as (o & w' & -> & _).
    eexists _, _; reflexivity.
  - intros tabId u. cbv zeta. unfold bindW, liftW.
    destruct (getCachedResult_returns (getDomainFromUrl URL_hostname u) (world k))
      as ([[c | name] |] & w' & -> & Hn); eexists.
    + left. eexists; reflexivity.
    + right; right. split; [apply (Hn name eq_refl) | reflexivity].
    + right; left. reflexivity.
  - unfold bindW, liftW, get_status, retW. now rewrite with_world_same.
Qed.

(** X23. When the write of CLEAR_CACHE rejects, the sender gets [{ error }]
    and the store is as before. *)
Theorem CLEAR_CACHE_failure_reaches_the_sender (k : Worker) :
  storage_fault (oracles (world k)) (next_storage_call (world k)) = true ->
  exists e k',
    respond (handleAsync URL_hostname CLEAR_CACHE) k
    = (Returned (error_message e), k')
    /\ local (world k') = local (world k).
Proof.
  intros Hf. unfold next_storage_call in Hf.
  unfold respond, handleAsync.
  unfold bindW, liftW, set_cachedResults, storage_call; cbv zeta.
  rewrite Hf. eexists _, _. split; reflexivity.
Qed.

(** X24. ANALYZE_PAGE for a URL whose domain has a live cache entry answers
    with the cached result and [fromCache] true, whatever the tab: nothing
    is collected or analysed, the store is not written, and the result is
    not put into [currentTabResults]. *)
Theorem ANALYZE_PAGE_cache_hit (k : Worker) (tabId : Z) (u : string)
    (c : CachedAnalysis) :
  storage_reliable (world k) ->
  cache_lookup (getDomainFromUrl URL_hostname u) (world k) = Some c ->
  clock (oracles (world k)) (clock_reads (world k)) <= expiresAt c ->
  exists k',
    respond (handleAsync URL_hostname (ANALYZE_PAGE tabId u)) k
    = (Returned (analysis_response (result c) true), k')
    /\ local (world k') = local (world k)
    /\ storage_log (world k')
       = (storage_log (world k) ++ [op_get K_cachedResults])%list
    /\ currentTabResults k' = currentTabResults k
    /\ explanations_started k' = explanations_started k
    /\ extensionStatus (world k') = extensionStatus (world k)
    /\ broadcasts (world k') = broadcasts (world k).
Proof.
  intros Hr Hl Hle. unfold respond, handleAsync; cbv zeta.
  unfold bindW, liftW.
  rewrite (getCachedResult_live _ _ _ Hr Hl Hle). unfold retW.
  eexists. split; [reflexivity |]. repeat split.
Qed.

(** X25. OPEN_DASHBOARD hands to [chrome.tabs.create] the stored
    [dashboardUrl], or the default one when none is stored and also when the
    read of the settings rejects. *)
Theorem OPEN_DASHBOARD_url (k : Worker) :
  let k' := snd (handleAsync URL_hostname OPEN_DASHBOARD k) in
  (storage_reliable (world k) ->
   tabs_created k'
   = (tabs_created k ++ [dashboardUrl (effective_settings (world k))])%list)
  /\ (storage_reliable (world k) ->
      st_dashboardUrl (default no_settings (settings (local (world k)))) = None ->
      tabs_created k'
      = (tabs_created k ++ [dashboardUrl DEFAULT_SETTINGS])%list)
  /\ (storage_fault (oracles (world k)) (next_storage_call (world k)) = true ->
      tabs_created k'
      = (tabs_created k ++ [dashboardUrl DEFAULT_SETTINGS])%list).
Proof.
  cbv zeta. unfold handleAsync, bindW, liftW.
  repeat split.
  - intros Hr. now rewrite (getSettings_reads _ Hr).
  - intros Hr Hn. rewrite (getSettings_reads _ Hr).
    unfold effective_settings, spread_settings; cbn. now rewrite Hn.
  - intros Hf. now rewrite (getSettings_read_fails _ Hf).
Qed.

End Listener.

Lemma CLEAR_CACHE_empties_the_cache_witness :
  exists k1,
    respond (handleAsync (fun _ => None) CLEAR_CACHE)
      (fresh_worker (world_with_entry 0))
    = (Returned success_response, k1)
    /\ cachedResults (local (world k1)) = Some ∅.
Proof.
  destruct (CLEAR_CACHE_empties_the_cache (fun _ => None)
              (fresh_worker (world_with_entry 0)) (fun _ => eq_refl))
    as (k1 & H1 & H2 & _).
  exists k1. split; [exact H1 | exact H2].
Defined.

Lemma CLEAR_CACHE_failure_reaches_the_sender_witness :
  exists e k',
    respond (handleAsync (fun _ => None) CLEAR_CACHE)
      (fresh_worker (world_with_store (faulty_oracles 0 0 (fun _ => true))
                       empty_store))
    = (Returned (error_message e), k').
Proof.
  destruct (CLEAR_CACHE_failure_reaches_the_sender (fun _ => None)
              (fresh_worker (world_with_store (faulty_oracles 0 0 (fun _ => true))
                               empty_store))
              eq_refl)
    as (e & k' & H & _).
  exists e, k'. exact H.
Defined.

Lemma ANALYZE_PAGE_cache_hit_witness :
  exists k',
    respond (handleAsync (fun _ => Some "bet.example")
               (ANALYZE_PAGE 7 "http://bet.example/"))
      (fresh_worker (world_with_entry 0))
    = (Returned (analysis_response sample_result true), k').
Proof.
  destruct (ANALYZE_PAGE_cache_hit (fun _ => Some "bet.example")
              (fresh_worker (world_with_entry 0)) 7 "http://bet.example/"
              {| result := sample_result; cachedAt := 0; expiresAt := 10 |}
              (fun _ => eq_refl) eq_refl ltac:(cbn; lia))
    as (k' & H & _).
  exists k'. exact H.
Defined.

(** *** Installation, the dark-mode switch and failing storage *)

Ltac run_calls :=
  unfold onInstalled, toggleDarkMode, setCachedResult, addToOfflineQueue,
    removeFromOfflineQueue, getSettings, getOfflineQueue, updateStatus,
    get_cachedResults, set_cachedResults, get_offlineQueue, set_offlineQueue,
    get_settings, set_settings, storage_call, try_catch, bind, ret, Date_now;
  cbv zeta.

Ltac storage_step H :=
  rewrite ?length_app; cbn [List.length Nat.add];
  rewrite ?Nat.add_1_r; rewrite ?H; worker_step.

Lemma onInstalled_store (w : World) :
  storage_reliable w ->
  exists w',
    onInstalled w = (Returned tt, w')
    /\ oracles w' = oracles w
    /\ settings (local w')
       = Some (default (settings_of DEFAULT_SETTINGS) (settings (local w)))
    /\ cachedResults (local w') = Some (default ∅ (cachedResults (local w)))
    /\ offlineQueue (local w') = offlineQueue (local w).
Proof.
  intros H. run_calls. storage_step H.
  destruct (settings (local w)) as [s |] eqn:Es;
    destruct (cachedResults (local w)) as [c |] eqn:Ec;
    repeat (storage_step H; rewrite ?Es, ?Ec);
    eexists; (split; [reflexivity |]); worker_step; repeat split; assumption.
Qed.

(** X26. When no storage call rejects, the [onInstalled] listener stores the
    default settings and an empty cache where nothing is stored and keeps
    what is stored: the settings [getSettings] computes and every cache
    entry are as before, the offline queue is untouched, and running the
    listener again changes nothing in the store. *)
Theorem onInstalled_keeps_what_is_stored (w : World) :
  storage_reliable w ->
  exists w',
    onInstalled w = (Returned tt, w')
    /\ settings (local w')
       = Some (default (settings_of DEFAULT_SETTINGS) (settings (local w)))
    /\ cachedResults (local w') = Some (default ∅ (cachedResults (local w)))
    /\ offlineQueue (local w') = offlineQueue (local w)
    /\ effective_settings w' = effective_settings w
    /\ (forall d, cache_lookup d w' = cache_lookup d w)
    /\ local (snd (onInstalled w')) = local w'.
Proof.
  intros H.
  destruct (onInstalled_store w H) as (w' & E & Ho & Hs & Hc & Hq).
  exists w'. repeat (split; [assumption |]).
  split; [| split].
  - unfold effective_settings. rewrite Hs.
    now destruct (settings (local w)).
  - intros d. unfold cache_lookup. rewrite Hc.
    destruct (cachedResults (local w)); [reflexivity | apply lookup_empty].
  - assert (H' : storage_reliable w') by (intros n; rewrite Ho; apply H).
    destruct (onInstalled_store w' H') as (w'' & E' & _ & Hs' & Hc' & Hq').
    rewrite E'; cbn [snd].
    rewrite Hs in Hs'. rewrite Hc in Hc'. cbn in Hs', Hc'.
    destruct (local w'') as [c'' q'' s''], (local w') as [c' q' s'].
    cbn in *. congruence.
Qed.

Lemma onInstalled_keeps_what_is_stored_witness :
  exists w',
    onInstalled (world_with_entry 0) = (Returned tt, w')
    /\ cache_lookup "bet.example" w'
       = Some {| result := sample_result; cachedAt := 0; expiresAt := 10 |}.
Proof.
  destruct (onInstalled_keeps_what_is_stored (world_with_entry 0)
              (fun _ => eq_refl))
    as (w' & H1 & _ & _ & _ & _ & H2 & _).
  exists w'. split; [exact H1 |]. now rewrite H2.
Defined.

(** X27. The storage part of [toggleDarkMode] never throws and touches
    neither the cache nor the offline queue.  When no storage call rejects,
    the mode in force afterwards is the opposite one ([dark] or [light],
    never [auto]) and the other settings in force are as before; when the
    read rejects, nothing is written. *)
Theorem toggleDarkMode_keeps_other_settings (isDarkMode : bool) (w : World) :
  exists w',
    toggleDarkMode isDarkMode w = (Returned tt, w')
    /\ cachedResults (local w') = cachedResults (local w)
    /\ offlineQueue (local w') = offlineQueue (local w)
    /\ (storage_reliable w ->
        darkMode (effective_settings w')
        = (if isDarkMode then dm_light else dm_dark)
        /\ autoAnalyze (effective_settings w') = autoAnalyze (effective_settings w)
        /\ showNotifications (effective_settings w')
           = showNotifications (effective_settings w)
        /\ cacheExpiration (effective_settings w')
           = cacheExpiration (effective_settings w)
        /\ dashboardUrl (effective_settings w') = dashboardUrl (effective_settings w))
    /\ (storage_fault (oracles w) (next_storage_call w) = true ->
        local w' = local w).
Proof.
  unfold next_storage_call. run_calls.
  destruct (storage_fault (oracles w) (List.length (storage_log w))) eqn:E1;
    worker_step.
  - eexists. split; [reflexivity |]. worker_step.
    split; [reflexivity |]. split; [reflexivity |].
    split; [intros Hr; rewrite Hr in E1; discriminate | reflexivity].
  - rewrite length_app; cbn [List.length]; rewrite Nat.add_1_r.
    destruct (storage_fault (oracles w) (S (List.length (storage_log w)))) eqn:E2;
      worker_step;
      (eexists; split; [reflexivity |]); worker_step;
      (split; [reflexivity |]); (split; [reflexivity |]);
      (split; [| discriminate]); intros Hr.
    + rewrite Hr in E2. discriminate.
    + unfold effective_settings; worker_step.
      destruct (settings (local w)) as [s |], isDarkMode; repeat split.
Qed.

(** X28. When the read of the offline queue rejects and the write that
    follows does not, [addToOfflineQueue] stores a queue of the new item
    alone and [removeFromOfflineQueue] stores an empty queue: whatever was
    queued is gone, and the status reports the new size. *)
Theorem offline_queue_lost_after_failed_read (signals : PageSignals)
    (id : string) (w : World) :
  storage_fault (oracles w) (next_storage_call w) = true ->
  storage_fault (oracles w) (S (next_storage_call w)) = false ->
  (exists item w',
     addToOfflineQueue signals w = (Returned tt, w')
     /\ offlineQueue (local w') = Some [item]
     /\ oq_signals item = signals
     /\ retryCount item = 0
     /\ offlineQueueSize (extensionStatus w') = 1)
  /\ (exists w',
        removeFromOfflineQueue id w = (Returned tt, w')
        /\ offlineQueue (local w') = Some []
        /\ offlineQueueSize (extensionStatus w') = 0).
Proof.
  unfold next_storage_call. intros H1 H2. split.
  - run_calls. rewrite H1. worker_step.
    rewrite generateId_eq. worker_step.
    rewrite length_app; cbn [List.length]; rewrite Nat.add_1_r, H2.
    eexists _, _. split; [reflexivity |]. repeat split.
  - run_calls. rewrite H1. worker_step.
    rewrite length_app; cbn [List.length]; rewrite Nat.add_1_r, H2.
    eexists. split; [reflexivity |]. repeat split.
Qed.

Lemma offline_queue_lost_after_failed_read_witness :
  exists w',
    removeFromOfflineQueue "no such id"
      (world_with_store (faulty_oracles 0 0 (Nat.eqb 0))
         {| cachedResults := None;
            offlineQueue := Some [{| oq_id := "1-"; oq_signals := sample_signals;
                                     queuedAt := 1; retryCount := 0 |}];
            settings := None |})
    = (Returned tt, w')
    /\ offlineQueue (local w') = Some [].
Proof.
  destruct (offline_queue_lost_after_failed_read sample_signals "no such id"
              (world_with_store (faulty_oracles 0 0 (Nat.eqb 0))
                 {| cachedResults := None;
                    offlineQueue :=
                      Some [{| oq_id := "1-"; oq_signals := sample_signals;
                               queuedAt := 1; retryCount := 0 |}];
                    settings := None |})
              eq_refl eq_refl)
    as (_ & w' & H1 & H2 & _).
  exists w'. split; [exact H1 | exact H2].
Defined.


(** *** The explanation text *)

Lemma prefix_append (a b : string) : String.prefix a (a +:+ b) = true.
Proof.
  induction a as [| c a IH]; [now destruct b |].
  change (String.prefix (String c a) (String c (a +:+ b)) = true).
  simpl. destruct (ascii_dec c c); [exact IH | congruence].
Qed.

Lemma append_assoc (a b c : string) : (a +:+ b) +:+ c = a +:+ (b +:+ c).
Proof.
  induction a as [| x a IH]; [reflexivity |].
  change (String x ((a +:+ b) +:+ c) = String x (a +:+ (b +:+ c))).
  now rewrite IH.
Qed.

Lemma prefix_join (sep a b : string) (xs : list string) :
  String.prefix a (fold_left (fun acc y => acc +:+ sep +:+ y) xs (a +:+ b)) = true.
Proof.
  revert b. induction xs as [| x xs IH]; intros b; cbn [fold_left].
  - apply prefix_append.
  - rewrite append_assoc. apply IH.
Qed.

Ltac case_if :=
  match goal with |- context [if ?b then _ else _] => destruct b end.

Section ExplanationFacts.

Variable Number_toString : Q -> string.

(** X30. The explanation is made of three to seven sentences joined by one
    space: it opens with the sentence for the verdict, which starts with
    the domain, so the text starts with the domain; it closes with the line
    of the trust score. *)
Theorem simulateExplanation_shape (result : AnalysisResult) :
  let parts := explanation_parts Number_toString result in
  3 <= len parts <= 7
  /\ head parts = Some (opening result)
  /\ last parts = Some (summary result)
  /\ String.prefix (ar_domain result)
       (simulateExplanation Number_toString result) = true.
Proof.
  cbv zeta. unfold simulateExplanation, explanation_parts; cbv zeta.
  set (p3 := if 80 <=? _ then _ else _).
  set (p4 := if 0 <? len (detected _) then _ else _).
  set (p5 := if Qltb _ _ then _ else _).
  set (p6 := match risk _ with low => [] | _ => _ end).
  assert (H3 : (List.length p3 <= 1)%nat)
    by (subst p3; repeat case_if; cbn [List.length]; lia).
  assert (H4 : (List.length p4 <= 1)%nat)
    by (subst p4; repeat case_if; cbn [List.length]; lia).
  assert (H5 : (List.length p5 <= 1)%nat)
    by (subst p5; repeat case_if; cbn [List.length]; lia).
  assert (H6 : (List.length p6 <= 1)%nat)
    by (subst p6; destruct (risk _); cbn [List.length]; lia).
  split; [| split; [| split]].
  - unfold len. rewrite !length_app. cbn [List.length]. lia.
  - reflexivity.
  - rewrite !app_assoc. apply last_snoc.
  - cbn [app join].
    unfold opening. destruct (verdict result); apply prefix_join.
Qed.

End ExplanationFacts.
